(** * Core-flow verification harness

    A shallow embedding of [scripts/verify-core-flows.py]: the results
    registry, the helpers [record], [screenshot] and [safe_click], the eight
    flows and the runner [run_verification], over an abstract browser.

    The browser, the backend and the clock are the environment.  Every call
    the script makes into Playwright, urllib or the clock is an [Op]; the
    environment answers it through [respond], which may return a value or
    raise.  Python exceptions are modelled by their message ([str(exc)]); all
    of them are instances of [Exception] (what [except Exception] catches).
    [print], the registry update and the writing of [summary.json] do not
    raise.  Strings are byte strings and [lower] lowers ASCII letters. *)

From Stdlib Require Import String Ascii List Bool Arith ZArith Lia DecimalString.
Import ListNotations.
Local Open Scope list_scope.
Local Open Scope string_scope.

(** ** Strings as the script uses them *)

Definition dq : string := String (ascii_of_nat 34) EmptyString.
Definition nl : string := String (ascii_of_nat 10) EmptyString.

(** [s.lower()] on ASCII letters. *)
Definition lower_ascii (c : ascii) : ascii :=
  let n := nat_of_ascii c in
  if ((65 <=? n)%nat && (n <=? 90)%nat)%bool then ascii_of_nat (n + 32) else c.

Fixpoint lower (s : string) : string :=
  match s with
  | EmptyString => EmptyString
  | String c rest => String (lower_ascii c) (lower rest)
  end.

(** [needle in hay]. *)
Fixpoint contains (needle hay : string) : bool :=
  if prefix needle hay then true
  else match hay with
       | EmptyString => false
       | String _ rest => contains needle rest
       end.

(** [any(kw in content for kw in kws)]. *)
Definition any_in (kws : list string) (content : string) : bool :=
  existsb (fun kw => contains kw content) kws.
Arguments any_in : simpl never.

(** Truthiness of a string: [if detail]. *)
Definition truthy (s : string) : bool :=
  match s with EmptyString => false | String _ _ => true end.

(** [str(n)] for a non-negative integer. *)
Definition str_nat (n : nat) : string := NilEmpty.string_of_uint (Nat.to_uint n).

(** [c * n] for a one-character string. *)
Fixpoint times (c : string) (n : nat) : string :=
  match n with O => EmptyString | S k => c ++ times c k end.

Definition ends_with_sep (s : string) : bool :=
  match get (String.length s - 1) s with
  | Some c => Ascii.eqb c "/"%char
  | None => false
  end.

(** [os.path.join(a, b)] (posixpath). *)
Definition path_join (a b : string) : string :=
  if prefix "/" b then b
  else if negb (truthy a) || ends_with_sep a then a ++ b
  else a ++ "/" ++ b.

(** ** The results registry: a Python [dict], insertion ordered *)

Module FlowResult.
Record t : Type := mk { passed : bool; detail : string }.
End FlowResult.

Definition registry : Type := list (string * FlowResult.t).

(** [d[k] = v]: an existing key keeps its place and takes the new value, a
    new key goes to the end. *)
Fixpoint dict_set (k : string) (v : FlowResult.t) (d : registry) : registry :=
  match d with
  | [] => [(k, v)]
  | (k', v') :: rest =>
      if String.eqb k' k then (k, v) :: rest else (k', v') :: dict_set k v rest
  end.

Fixpoint dict_get (k : string) (d : registry) : option FlowResult.t :=
  match d with
  | [] => None
  | (k', v') :: rest => if String.eqb k' k then Some v' else dict_get k rest
  end.

Definition keys (d : registry) : list string := map fst d.

(** Number of entries stored under [k]. *)
Definition entries_for (k : string) (d : registry) : nat :=
  List.length (filter (fun kv => String.eqb (fst kv) k) d).

(** ** Calls into the environment *)

Inductive Op : Type :=
| HealthCheck (url : string) (timeout_s : Z)     (* urllib.request.urlopen *)
| TimeTime                                       (* time.time() *)
| NowIso                                         (* datetime.now().isoformat() *)
| StartPlaywright                                (* sync_playwright().__enter__ *)
| Launch                                         (* pw.chromium.launch *)
| NewContext                                     (* browser.new_context *)
| NewPage                                        (* context.new_page *)
| Goto (url wait_until : string) (timeout : Z)   (* page.goto *)
| Screenshot (path : string)                     (* page.screenshot *)
| WaitForVisible (selector : string) (timeout : Z)   (* locator.first.wait_for *)
| Click (selector : string)                      (* locator.first.click *)
| IsVisible (selector : string) (timeout : Z)    (* locator.first.is_visible *)
| Fill (selector value : string)                 (* locator.first.fill *)
| Press (selector key : string)                  (* locator.first.press *)
| Content                                        (* page.content *)
| WaitForLoadState (state : string)              (* page.wait_for_load_state *)
| WaitForTimeout (ms : Z)                        (* page.wait_for_timeout *)
| BrowserClose                                   (* browser.close *)
| StopPlaywright.                                (* sync_playwright().__exit__ *)

Definition is_screenshot (o : Op) : bool :=
  match o with Screenshot _ => true | _ => false end.

(** Calls on the page or on one of its locators. *)
Definition is_page_call (o : Op) : bool :=
  match o with
  | Goto _ _ _ | Screenshot _ | WaitForVisible _ _ | Click _ | IsVisible _ _
  | Fill _ _ | Press _ _ | Content | WaitForLoadState _ | WaitForTimeout _ => true
  | _ => false
  end.

(** Calls into Playwright: console events reach the script's handler only
    while one of them runs. *)
Definition is_playwright (o : Op) : bool :=
  match o with HealthCheck _ _ | TimeTime | NowIso => false | _ => true end.

Definition exn : Type := string.

Inductive Res (A : Type) : Type :=
| Ok (a : A)
| Raise (e : exn).
Arguments Ok {A} a.
Arguments Raise {A} e.

(** A browser console message: [msg.type] and [msg.text]. *)
Record ConsoleMsg : Type := { msg_type : string; msg_text : string }.

(** [summary.json], as the dictionary handed to [json.dump]. *)
Module Summary.
Record t (float : Type) : Type := mk {
  timestamp : string;
  frontend_url : string;
  backend_url : string;
  total : nat;
  passed : nat;
  failed : nat;
  elapsed_seconds : float;
  results : registry;
  console_errors : list string
}.
Arguments mk {float}.
Arguments timestamp {float}.
Arguments frontend_url {float}.
Arguments backend_url {float}.
Arguments total {float}.
Arguments passed {float}.
Arguments failed {float}.
Arguments elapsed_seconds {float}.
Arguments results {float}.
Arguments console_errors {float}.
End Summary.

(** What a call gives back, [float] being the type of Python floats.  Calls
    into Playwright and urllib may raise; the clock and the teardown calls
    ([browser.close()], leaving the [sync_playwright()] block) return. *)
Definition ret_ty (float : Type) (o : Op) : Type :=
  match o with
  | HealthCheck _ _ => Res nat
  | TimeTime => float
  | NowIso => string
  | IsVisible _ _ => Res bool
  | Content => Res string
  | BrowserClose | StopPlaywright => unit
  | _ => Res unit
  end.

(** ** Scripted environments

    A stateless environment for running the harness on concrete inputs:
    [fails] names the calls that raise and with which message, [shown] the
    selectors that are visible, [html] is the page source, [emitted] the
    console messages of a call.  Floats are not looked at: the clock
    returns [tt]. *)
Record Script : Type := {
  fails : Op -> option exn;
  shown : string -> bool;
  html : string;
  emitted : Op -> list ConsoleMsg
}.

Definition answer {A} (sc : Script) (o : Op) (a : A) : Res A :=
  match fails sc o with
  | Some e => Raise e
  | None => Ok a
  end.

Definition scripted (sc : Script) (o : Op) (w : unit)
  : ret_ty unit o * list ConsoleMsg * unit :=
  (match o as o' return ret_ty unit o' with
   | HealthCheck _ _ => answer sc o 200
   | TimeTime => tt
   | NowIso => "2026-01-01T00:00:00"
   | IsVisible sel _ => answer sc o (shown sc sel)
   | Content => answer sc o (html sc)
   | BrowserClose => tt
   | StopPlaywright => tt
   | StartPlaywright => answer sc o tt
   | Launch => answer sc o tt
   | NewContext => answer sc o tt
   | NewPage => answer sc o tt
   | Goto _ _ _ => answer sc o tt
   | Screenshot _ => answer sc o tt
   | WaitForVisible _ _ => answer sc o tt
   | Click _ => answer sc o tt
   | Fill _ _ => answer sc o tt
   | Press _ _ => answer sc o tt
   | WaitForLoadState _ => answer sc o tt
   | WaitForTimeout _ => answer sc o tt
   end, emitted sc o, w).

(** A page on which every selector is visible and the dashboard is shown;
    loading it logs one console error. *)
Definition dashboard_html : string :=
  "<html><body><h1>CSCX Dashboard</h1><p>Customer health score</p></body></html>".

Definition healthy : Script := {|
  fails := fun _ => None;
  shown := fun _ => true;
  html := dashboard_html;
  emitted := fun o =>
    match o with
    | Goto _ _ _ => [ {| msg_type := "error"; msg_text := "Failed to load resource" |};
                      {| msg_type := "log"; msg_text := "ready" |} ]
    | _ => []
    end
|}.

(** The backend does not answer the health check. *)
Definition backend_down : Script := {|
  fails := fun o =>
    match o with
    | HealthCheck _ _ => Some "<urlopen error [Errno 111] Connection refused>"
    | _ => None
    end;
  shown := shown healthy;
  html := html healthy;
  emitted := emitted healthy
|}.

(** Chromium cannot be started. *)
Definition no_browser : Script := {|
  fails := fun o =>
    match o with
    | Launch => Some "BrowserType.launch: Executable doesn't exist"
    | _ => None
    end;
  shown := shown healthy;
  html := html healthy;
  emitted := fun _ => []
|}.

(** The page is gone: navigation and screenshots raise. *)
Definition page_gone : Script := {|
  fails := fun o =>
    match o with
    | Goto _ _ _ => Some "Page.goto: net::ERR_CONNECTION_REFUSED"
    | Screenshot _ =>
        Some "Page.screenshot: Target page, context or browser has been closed"
    | _ => None
    end;
  shown := fun _ => false;
  html := EmptyString;
  emitted := fun _ => []
|}.

(** Screenshots of the dashboard flow time out, the others succeed. *)
Definition dashboard_shot_fails : Script := {|
  fails := fun o =>
    match o with
    | Screenshot path =>
        if contains "02_dashboard" path
        then Some "Page.screenshot: Timeout 15000ms exceeded"
        else None
    | _ => None
    end;
  shown := shown healthy;
  html := html healthy;
  emitted := fun _ => []
|}.

(** No "Admin" button appears: waiting for it times out. *)
Definition no_admin : Script := {|
  fails := fun o =>
    match o with
    | WaitForVisible sel _ =>
        if contains "Admin" sel
        then Some "Locator.wait_for: Timeout 5000ms exceeded"
        else None
    | _ => None
    end;
  shown := shown healthy;
  html := html healthy;
  emitted := fun _ => []
|}.

(** ** The harness over an abstract environment *)

Section Harness.

(** Python floats ([time.time()] and what the script does with them). *)
Variable float : Type.
Variable fsub : float -> float -> float.        (* [a - b] *)
Variable round2 : float -> float.               (* [round(x, 2)] *)
Variable fmt_1f : float -> string.              (* [f"{x:.1f}"] *)

(** Module constants, read from the process environment at import. *)
Variable FRONTEND_URL : string.
Variable BACKEND_URL : string.
Variable SCREENSHOT_DIR : string.

Definition TIMEOUT_MS : Z := 15000.

(** The environment: a state [W] and its answer to each call, together
    with the console messages the page emits while the call runs. *)
Variable W : Type.
Variable respond : forall o : Op, W -> ret_ty float o * list ConsoleMsg * W.

Record State : Type := mkState {
  world : W;
  trace : list Op;                         (* calls made so far, oldest first *)
  stdout : list string;                    (* one entry per [print] *)
  results : registry;                      (* the module-level [results] *)
  calls : list (string * FlowResult.t);    (* invocations of [record], oldest first *)
  listening : bool;                        (* [page.on("console", ...)] is set *)
  console_errors : list string;
  summary_json : option (Summary.t float)  (* the file [summary.json] *)
}.

Definition initial (w : W) : State :=
  mkState w [] [] [] [] false [] None.

(** *** State and exceptions *)

Definition M (A : Type) : Type := State -> Res A * State.

Definition ret {A} (a : A) : M A := fun s => (Ok a, s).

Definition bind {A B} (m : M A) (k : A -> M B) : M B :=
  fun s =>
    match m s with
    | (Ok a, s1) => k a s1
    | (Raise e, s1) => (Raise e, s1)
    end.

(** [try: m  except Exception as exc: h exc]. *)
Definition try_except {A} (m : M A) (h : exn -> M A) : M A :=
  fun s =>
    match m s with
    | (Ok a, s1) => (Ok a, s1)
    | (Raise e, s1) => h e s1
    end.

(** [try: m  finally: fin]. *)
Definition try_finally {A} (m : M A) (fin : M unit) : M A :=
  fun s =>
    match m s with
    | (r, s1) =>
        match fin s1 with
        | (Ok _, s2) => (r, s2)
        | (Raise e, s2) => (Raise e, s2)
        end
    end.

Notation "x <- m ;; k" := (bind m (fun x => k))
  (at level 61, m at next level, right associativity).
Notation "m ;; k" := (bind m (fun _ => k))
  (at level 61, right associativity).

(** The lambda given to [page.on]: keep [msg.text] when [msg.type == "error"]. *)
Definition error_texts (msgs : list ConsoleMsg) : list string :=
  map msg_text (filter (fun m => String.eqb (msg_type m) "error") msgs).

(** One call into the environment. *)
Definition perform (o : Op) : State -> ret_ty float o * State :=
  fun s =>
    match respond o (world s) with
    | (v, msgs, w') =>
        (v, mkState w' (trace s ++ [o]) (stdout s) (results s) (calls s)
              (listening s)
              (if listening s && is_playwright o
               then console_errors s ++ error_texts msgs
               else console_errors s)
              (summary_json s))
    end.

Definition total_call {A} (f : State -> A * State) : M A :=
  fun s => match f s with (a, s1) => (Ok a, s1) end.

Definition print (line : string) : M unit :=
  fun s => (Ok tt, mkState (world s) (trace s) (stdout s ++ [line]) (results s)
                     (calls s) (listening s) (console_errors s) (summary_json s)).

Definition time_time : M float := total_call (perform TimeTime).
Definition now_iso : M string := total_call (perform NowIso).
Definition health_check (url : string) (timeout_s : Z) : M nat :=
  perform (HealthCheck url timeout_s).
Definition start_playwright : M unit := perform StartPlaywright.
Definition stop_playwright : M unit := total_call (perform StopPlaywright).
Definition launch : M unit := perform Launch.
Definition new_context : M unit := perform NewContext.
Definition new_page : M unit := perform NewPage.
Definition browser_close : M unit := total_call (perform BrowserClose).
Definition page_goto (url wait_until : string) (timeout : Z) : M unit :=
  perform (Goto url wait_until timeout).
Definition page_screenshot (path : string) : M unit := perform (Screenshot path).
Definition page_content : M string := perform Content.
Definition wait_for_load_state (st : string) : M unit := perform (WaitForLoadState st).
Definition wait_for_timeout (ms : Z) : M unit := perform (WaitForTimeout ms).
Definition wait_for_visible (sel : string) (timeout : Z) : M unit :=
  perform (WaitForVisible sel timeout).
Definition click (sel : string) : M unit := perform (Click sel).
Definition is_visible (sel : string) (timeout : Z) : M bool :=
  perform (IsVisible sel timeout).
Definition fill (sel value : string) : M unit := perform (Fill sel value).
Definition press (sel key : string) : M unit := perform (Press sel key).

(** [page.on("console", lambda msg: ...)]. *)
Definition page_on_console : M unit :=
  fun s => (Ok tt, mkState (world s) (trace s) (stdout s) (results s) (calls s)
                     true (console_errors s) (summary_json s)).

Definition get_results : M registry := fun s => (Ok (results s), s).
Definition get_console_errors : M (list string) := fun s => (Ok (console_errors s), s).

(** [json.dump(doc, f, indent=2)] into [summary.json]. *)
Definition write_summary (doc : Summary.t float) : M unit :=
  fun s => (Ok tt, mkState (world s) (trace s) (stdout s) (results s) (calls s)
                     (listening s) (console_errors s) (Some doc)).

(** *** Helpers *)

Definition record_line (name : string) (passed : bool) (detail : string) : string :=
  "  [" ++ (if passed then "PASS" else "FAIL") ++ "] " ++ name
  ++ (if truthy detail then " -- " ++ detail else EmptyString).

Definition record (name : string) (passed : bool) (detail : string) : M unit :=
  fun s =>
    let r := FlowResult.mk passed detail in
    (Ok tt, mkState (world s) (trace s)
              (stdout s ++ [record_line name passed detail])
              (dict_set name r (results s))
              (calls s ++ [(name, r)])
              (listening s) (console_errors s) (summary_json s)).

(** A series of [record] calls, one per entry. *)
Fixpoint record_each (entries : list (string * FlowResult.t)) : M unit :=
  match entries with
  | [] => ret tt
  | (name, r) :: rest =>
      record name (FlowResult.passed r) (FlowResult.detail r) ;;
      record_each rest
  end.

Definition screenshot (name : string) : M unit :=
  page_screenshot (path_join SCREENSHOT_DIR (name ++ ".png")).

Definition safe_click (selector : string) (timeout : Z) : M bool :=
  try_except
    (wait_for_visible selector timeout ;;
     click selector ;;
     ret true)
    (fun _ => ret false).

(** [page.content().lower()]. *)
Definition content_lower : M string :=
  c <- page_content ;; ret (lower c).

Definition button (label : string) : string :=
  "button:has-text(" ++ dq ++ label ++ dq ++ ")".

(** *** The eight flows

    Each flow prints its header and runs a [try] block under
    [except Exception as exc]; the [try] block is named [<flow>_try].  An
    early [return] inside the block is the end of the corresponding
    branch. *)

(** Flow 1: Demo Mode login. *)
Definition flow_demo_login_try : M unit :=
  page_goto FRONTEND_URL "networkidle" TIMEOUT_MS ;;
  screenshot "01_initial_load" ;;
  let demo_btn :=
    button "Demo Mode" ++ ", " ++ button "Continue without sign in" in
  content <- content_lower ;;
  if contains "dashboard" content
     || contains "cscx" content && contains "customer" content
  then
    screenshot "01_already_logged_in" ;;
    record "demo_login" true
      "Bypassed login (Supabase not configured or already in demo)"
  else
    wait_for_visible demo_btn TIMEOUT_MS ;;
    click demo_btn ;;
    wait_for_load_state "networkidle" ;;
    wait_for_timeout 2000 ;;
    screenshot "01_after_demo_login" ;;
    record "demo_login" true EmptyString.

Definition flow_demo_login : M unit :=
  print (nl ++ "--- Flow 1: Demo Mode Login ---") ;;
  try_except flow_demo_login_try
    (fun exc =>
       screenshot "01_demo_login_error" ;;
       record "demo_login" false exc).

(** Flow 2: the dashboard loads with customer data. *)
Definition flow_dashboard_loads_try : M unit :=
  _ <- safe_click (button "Dashboard") 5000 ;;
  wait_for_load_state "networkidle" ;;
  wait_for_timeout 1500 ;;
  screenshot "02_dashboard" ;;
  content <- content_lower ;;
  let has_customer_signals :=
    any_in ["customer"; "health"; "portfolio"; "arr"; "revenue"; "score"] content in
  if has_customer_signals
  then record "dashboard_loads" true "Customer data indicators found on dashboard"
  else record "dashboard_loads" false "No customer data indicators found".

Definition flow_dashboard_loads : M unit :=
  print (nl ++ "--- Flow 2: Dashboard Loads with Customer Data ---") ;;
  try_except flow_dashboard_loads_try
    (fun exc =>
       screenshot "02_dashboard_error" ;;
       record "dashboard_loads" false exc).

(** Flow 3: customer detail view. *)
Definition flow_customer_detail_try : M unit :=
  _ <- safe_click (button "Dashboard") 5000 ;;
  wait_for_load_state "networkidle" ;;
  wait_for_timeout 1000 ;;
  let customer_row :=
    "table tbody tr, "
    ++ "[class*=" ++ dq ++ "customer-row" ++ dq ++ "], "
    ++ "[class*=" ++ dq ++ "customer-card" ++ dq ++ "], "
    ++ "[role=" ++ dq ++ "row" ++ dq ++ "]" in
  row_visible <- is_visible customer_row 5000 ;;
  if row_visible : bool
  then
    click customer_row ;;
    wait_for_load_state "networkidle" ;;
    wait_for_timeout 1500 ;;
    screenshot "03_customer_detail" ;;
    content <- content_lower ;;
    if contains "customer" content || contains "360" content
       || contains "detail" content || contains "workspace" content
    then record "customer_detail" true "Customer detail view loaded"
    else record "customer_detail" true "Clicked customer row, view changed"
  else
    let link :=
      "a[href*=" ++ dq ++ "customer" ++ dq ++ "], " ++ button "View" in
    link_visible <- is_visible link 3000 ;;
    if link_visible : bool
    then
      click link ;;
      wait_for_load_state "networkidle" ;;
      wait_for_timeout 1500 ;;
      screenshot "03_customer_detail" ;;
      record "customer_detail" true "Opened customer via link/button"
    else
      screenshot "03_no_customer_rows" ;;
      record "customer_detail" false "No customer rows or links found".

Definition flow_customer_detail : M unit :=
  print (nl ++ "--- Flow 3: Customer Detail View ---") ;;
  try_except flow_customer_detail_try
    (fun exc =>
       screenshot "03_customer_detail_error" ;;
       record "customer_detail" false exc).

(** Flow 4: Operations hub and its five sub-tabs. *)
Definition sub_tabs : list (string * string) :=
  [ ("Automations", "automations");
    ("Playbooks", "playbooks");
    ("Support", "support");
    ("Email", "email");
    ("VoC", "voc") ].

(** One turn of [for label, slug in sub_tabs], with its own [try]. *)
Definition visit_sub_tab (label slug : string) (tabs_found : nat) : M nat :=
  try_except
    (let tab_btn := button label in
     visible <- is_visible tab_btn 3000 ;;
     if visible : bool
     then
       click tab_btn ;;
       wait_for_timeout 800 ;;
       screenshot ("04_ops_" ++ slug) ;;
       print ("    Sub-tab '" ++ label ++ "' -- visible and clicked") ;;
       ret (tabs_found + 1)
     else
       print ("    Sub-tab '" ++ label ++ "' -- not visible") ;;
       ret tabs_found)
    (fun _ =>
       print ("    Sub-tab '" ++ label ++ "' -- error accessing") ;;
       ret tabs_found).

Fixpoint visit_sub_tabs (tabs : list (string * string)) (tabs_found : nat) : M nat :=
  match tabs with
  | [] => ret tabs_found
  | (label, slug) :: rest =>
      n <- visit_sub_tab label slug tabs_found ;;
      visit_sub_tabs rest n
  end.

Definition flow_operations_hub_try : M unit :=
  ops_clicked <- safe_click (button "Operations") TIMEOUT_MS ;;
  if negb ops_clicked
  then
    screenshot "04_ops_not_found" ;;
    record "operations_hub" false "Operations button not found in nav"
  else
    wait_for_load_state "networkidle" ;;
    wait_for_timeout 1000 ;;
    screenshot "04_operations_hub" ;;
    tabs_found <- visit_sub_tabs sub_tabs 0 ;;
    if (tabs_found =? 5)%nat
    then record "operations_hub" true "All 5 sub-tabs accessible"
    else if (0 <? tabs_found)%nat
    then record "operations_hub" true
           (str_nat tabs_found ++ "/5 sub-tabs accessible (partial)")
    else record "operations_hub" false "No sub-tabs found".

Definition flow_operations_hub : M unit :=
  print (nl ++ "--- Flow 4: Operations Hub (5 sub-tabs) ---") ;;
  try_except flow_operations_hub_try
    (fun exc =>
       screenshot "04_ops_error" ;;
       record "operations_hub" false exc).

(** Flow 5: admin panel. *)
Definition admin_keywords : list string :=
  ["admin"; "settings"; "organization"; "users"; "config"].

Definition flow_admin_panel_try : M unit :=
  admin_clicked <- safe_click (button "Admin") 5000 ;;
  if negb admin_clicked
  then
    screenshot "05_admin_not_visible" ;;
    record "admin_panel" true
      "Admin button not visible (expected for non-admin/demo users)"
  else
    wait_for_load_state "networkidle" ;;
    wait_for_timeout 1000 ;;
    screenshot "05_admin_panel" ;;
    content <- content_lower ;;
    if any_in admin_keywords content
    then record "admin_panel" true "Admin panel loaded with settings content"
    else record "admin_panel" true
           "Admin panel navigated (content may be minimal in demo)".

Definition flow_admin_panel : M unit :=
  print (nl ++ "--- Flow 5: Admin Panel Access ---") ;;
  try_except flow_admin_panel_try
    (fun exc =>
       screenshot "05_admin_error" ;;
       record "admin_panel" false exc).

(** Flow 6: Agent Center. *)
Definition flow_agent_center_try : M unit :=
  agent_clicked <- safe_click (button "Agent Center") TIMEOUT_MS ;;
  if negb agent_clicked
  then
    screenshot "06_agent_center_not_found" ;;
    record "agent_center" false "Agent Center button not found"
  else
    wait_for_load_state "networkidle" ;;
    wait_for_timeout 1500 ;;
    screenshot "06_agent_center" ;;
    content <- content_lower ;;
    let has_chat :=
      any_in ["message"; "agent"; "chat"; "send"; "conversation"] content in
    if has_chat
    then record "agent_center" true "Agent Center loaded with chat interface"
    else record "agent_center" true
           "Agent Center navigated (chat content may be loading)".

Definition flow_agent_center : M unit :=
  print (nl ++ "--- Flow 6: Agent Center ---") ;;
  try_except flow_agent_center_try
    (fun exc =>
       screenshot "06_agent_center_error" ;;
       record "agent_center" false exc).

(** Flow 7: Knowledge Base. *)
Definition flow_knowledge_base_try : M unit :=
  kb_clicked <- safe_click (button "Knowledge Base") TIMEOUT_MS ;;
  if negb kb_clicked
  then
    screenshot "07_kb_not_found" ;;
    record "knowledge_base" false "Knowledge Base button not found"
  else
    wait_for_load_state "networkidle" ;;
    wait_for_timeout 1500 ;;
    screenshot "07_knowledge_base" ;;
    content <- content_lower ;;
    let has_kb :=
      any_in ["knowledge"; "document"; "upload"; "search"; "base"; "file"] content in
    if has_kb
    then record "knowledge_base" true "Knowledge Base loaded"
    else record "knowledge_base" true "Knowledge Base navigated (may be empty)".

Definition flow_knowledge_base : M unit :=
  print (nl ++ "--- Flow 7: Knowledge Base ---") ;;
  try_except flow_knowledge_base_try
    (fun exc =>
       screenshot "07_kb_error" ;;
       record "knowledge_base" false exc).

(** Flow 8: send a chat message. *)
Definition test_message : string :=
  "Hello, this is an E2E verification test message.".

Definition chat_input_selector : string :=
  "textarea[placeholder*=" ++ dq ++ "Message" ++ dq ++ " i], "
  ++ "textarea[placeholder*=" ++ dq ++ "message" ++ dq ++ " i], "
  ++ "input[type=" ++ dq ++ "text" ++ dq ++ "][placeholder*=" ++ dq ++ "Message" ++ dq ++ " i], "
  ++ "input[type=" ++ dq ++ "text" ++ dq ++ "][placeholder*=" ++ dq ++ "message" ++ dq ++ " i], "
  ++ "textarea[placeholder*=" ++ dq ++ "Ask" ++ dq ++ " i], "
  ++ "input[placeholder*=" ++ dq ++ "Ask" ++ dq ++ " i]".

Definition send_btn_selector : string :=
  "button[type=" ++ dq ++ "submit" ++ dq ++ "], "
  ++ button "Send" ++ ", "
  ++ "button[aria-label*=" ++ dq ++ "Send" ++ dq ++ " i]".

Definition flow_chat_send_try : M unit :=
  _ <- safe_click (button "Agent Center") 5000 ;;
  wait_for_load_state "networkidle" ;;
  wait_for_timeout 1500 ;;
  first_visible <- is_visible chat_input_selector 5000 ;;
  let chat_input :=
    if negb first_visible then "textarea:visible" else chat_input_selector in
  input_visible <- is_visible chat_input 3000 ;;
  if input_visible : bool
  then
    fill chat_input test_message ;;
    screenshot "08_chat_message_typed" ;;
    send_visible <- is_visible send_btn_selector 2000 ;;
    (if send_visible : bool
     then click send_btn_selector
     else press chat_input "Meta+Enter") ;;
    wait_for_timeout 2000 ;;
    screenshot "08_chat_message_sent" ;;
    record "chat_send" true "Message typed and send attempted"
  else
    screenshot "08_chat_input_not_found" ;;
    record "chat_send" false "Chat input not found in Agent Center".

Definition flow_chat_send : M unit :=
  print (nl ++ "--- Flow 8: Chat Message Send ---") ;;
  try_except flow_chat_send_try
    (fun exc =>
       screenshot "08_chat_send_error" ;;
       record "chat_send" false exc).

(** *** The runner *)

(** The eight calls of the [try] block of [run_verification]. *)
Definition run_flows : M unit :=
  flow_demo_login ;;
  flow_dashboard_loads ;;
  flow_customer_detail ;;
  flow_operations_hub ;;
  flow_admin_panel ;;
  flow_agent_center ;;
  flow_knowledge_base ;;
  flow_chat_send.

(** The same eight flows as a table, for statements about all of them:
    the name a flow records under, its header line, the screenshot of its
    [except] branch, its [try] block and the flow itself. *)
Record Flow : Type := mkFlow {
  flow_name : string;
  flow_header : string;
  flow_error_shot : string;
  flow_try : M unit;
  flow_run : M unit
}.

Definition flow_table : list Flow :=
  [ mkFlow "demo_login" "--- Flow 1: Demo Mode Login ---"
      "01_demo_login_error" flow_demo_login_try flow_demo_login;
    mkFlow "dashboard_loads" "--- Flow 2: Dashboard Loads with Customer Data ---"
      "02_dashboard_error" flow_dashboard_loads_try flow_dashboard_loads;
    mkFlow "customer_detail" "--- Flow 3: Customer Detail View ---"
      "03_customer_detail_error" flow_customer_detail_try flow_customer_detail;
    mkFlow "operations_hub" "--- Flow 4: Operations Hub (5 sub-tabs) ---"
      "04_ops_error" flow_operations_hub_try flow_operations_hub;
    mkFlow "admin_panel" "--- Flow 5: Admin Panel Access ---"
      "05_admin_error" flow_admin_panel_try flow_admin_panel;
    mkFlow "agent_center" "--- Flow 6: Agent Center ---"
      "06_agent_center_error" flow_agent_center_try flow_agent_center;
    mkFlow "knowledge_base" "--- Flow 7: Knowledge Base ---"
      "07_kb_error" flow_knowledge_base_try flow_knowledge_base;
    mkFlow "chat_send" "--- Flow 8: Chat Message Send ---"
      "08_chat_send_error" flow_chat_send_try flow_chat_send ].

Definition flow_names : list string := map flow_name flow_table.

(** The shape every flow has. *)
Definition guarded (name header error_shot : string) (body : M unit) : M unit :=
  print (nl ++ header) ;;
  try_except body
    (fun exc =>
       screenshot error_shot ;;
       record name false exc).

(** Calling the flows of a list one after the other. *)
Fixpoint run_all (fs : list (M unit)) : M unit :=
  match fs with
  | [] => ret tt
  | f :: rest =>
      match rest with
      | [] => f
      | _ :: _ => f ;; run_all rest
      end
  end.

Definition print_banner : M unit :=
  print (times "=" 60) ;;
  print "  CSCX.AI  --  PRD-7 Core Flow Verification" ;;
  print (times "=" 60) ;;
  print ("  Frontend : " ++ FRONTEND_URL) ;;
  print ("  Backend  : " ++ BACKEND_URL) ;;
  print ("  Screenshots : " ++ SCREENSHOT_DIR) ;;
  started <- now_iso ;;
  print ("  Started  : " ++ started) ;;
  print (times "=" 60).

Definition health_warning (exc : exn) : string :=
  nl ++ "  WARNING: Backend health check failed (" ++ exc ++ ")".

Definition health_continuing : string :=
  "  Continuing anyway — some flows may fail." ++ nl.

(** Preflight: is the backend reachable? *)
Definition preflight : M unit :=
  try_except
    (status <- health_check (BACKEND_URL ++ "/api/health") 5 ;;
     print (nl ++ "  Backend health check: " ++ str_nat status))
    (fun exc =>
       print (health_warning exc) ;;
       print health_continuing).

(** What comes before the [try] inside the [with] block. *)
Definition open_page : M unit :=
  launch ;;
  new_context ;;
  new_page ;;
  page_on_console.

(** The [try] / [except] / [finally] around the flows. *)
Definition guarded_flows : M unit :=
  try_finally
    (try_except run_flows
       (fun exc =>
          print (nl ++ "  FATAL ERROR: " ++ exc) ;;
          screenshot "fatal_error"))
    browser_close.

(** [with sync_playwright() as pw: ...]. *)
Definition browser_session : M unit :=
  start_playwright ;;
  try_finally (open_page ;; guarded_flows) stop_playwright.

Definition summary_line (name : string) (info : FlowResult.t) : string :=
  "  [" ++ (if FlowResult.passed info then "PASS" else "FAIL") ++ "]  " ++ name
  ++ (if truthy (FlowResult.detail info)
      then "  --  " ++ FlowResult.detail info else EmptyString).

(** [for name, info in results.items()], counting. *)
Fixpoint tally (items : registry) (passed failed : nat) : M (nat * nat) :=
  match items with
  | [] => ret (passed, failed)
  | (name, info) :: rest =>
      print (summary_line name info) ;;
      if FlowResult.passed info
      then tally rest (passed + 1) failed
      else tally rest passed (failed + 1)
  end.

(** The entries of a registry that passed, and those that did not. *)
Definition count_passed (d : registry) : nat :=
  List.length (filter (fun kv => FlowResult.passed (snd kv)) d).

Definition count_failed (d : registry) : nat :=
  List.length (filter (fun kv => negb (FlowResult.passed (snd kv))) d).

Definition tally_line (passed total failed : nat) (elapsed : float) : string :=
  "  " ++ str_nat passed ++ "/" ++ str_nat total ++ " passed, "
  ++ str_nat failed ++ " failed  (" ++ fmt_1f elapsed ++ "s)".

Fixpoint print_errors (errs : list string) : M unit :=
  match errs with
  | [] => ret tt
  | err :: rest => print ("    - " ++ substring 0 120 err) ;; print_errors rest
  end.

Definition is_empty {A} (l : list A) : bool :=
  match l with [] => true | _ :: _ => false end.

(** The summary: everything of [run_verification] after the [with]
    block, [start] being the clock reading of its first line. *)
Definition report (start : float) : M nat :=
  finish <- time_time ;;
  let elapsed := fsub finish start in
  print (nl ++ times "=" 60) ;;
  print "  VERIFICATION SUMMARY" ;;
  print (times "=" 60) ;;
  items <- get_results ;;
  counts <- tally items 0 0 ;;
  let passed := fst counts in
  let failed := snd counts in
  let total := passed + failed in
  print (times "-" 60) ;;
  print (tally_line passed total failed elapsed) ;;
  errors <- get_console_errors ;;
  (if is_empty errors then ret tt
   else
     print (nl ++ "  Console errors captured: " ++ str_nat (List.length errors)) ;;
     print_errors (firstn 10 errors)) ;;
  print (nl ++ "  Screenshots saved to: " ++ SCREENSHOT_DIR) ;;
  print (times "=" 60) ;;
  let summary_path := path_join SCREENSHOT_DIR "summary.json" in
  stamp <- now_iso ;;
  registry_now <- get_results ;;
  write_summary
    (Summary.mk stamp FRONTEND_URL BACKEND_URL total passed failed
       (round2 elapsed) registry_now (firstn 20 errors)) ;;
  print ("  JSON summary: " ++ summary_path ++ nl) ;;
  ret (if (failed =? 0)%nat then 0 else 1).

Definition run_verification : M nat :=
  start <- time_time ;;
  print_banner ;;
  preflight ;;
  browser_session ;;
  report start.

(** [run_verification] up to the [with] block; it hands on [start]. *)
Definition before_session : M float :=
  start <- time_time ;;
  print_banner ;;
  preflight ;;
  ret start.

(** [run_verification] up to the preflight. *)
Definition up_to_preflight : M float :=
  start <- time_time ;;
  print_banner ;;
  ret start.

(** Entering [sync_playwright()] and the lines before the [try]. *)
Definition launch_session : M unit :=
  start_playwright ;;
  open_page.

(** [sys.exit(run_verification())]: the returned code, or 1 when an
    exception leaves [run_verification] (the interpreter prints the
    traceback and exits with status 1). *)
Definition main (s : State) : nat * State :=
  match run_verification s with
  | (Ok code, s1) => (code, s1)
  | (Raise _, s1) => (1, s1)
  end.


(** ** Reasoning about the harness *)

Local Open Scope list_scope.

(** *** The registry *)

Lemma dict_get_set_same (k : string) (v : FlowResult.t) (d : registry) :
  dict_get k (dict_set k v d) = Some v.
Proof.
  induction d as [|[k' v'] d IH]; simpl.
  - now rewrite String.eqb_refl.
  - destruct (String.eqb k' k) eqn:E; simpl.
    + now rewrite String.eqb_refl.
    + now rewrite E.
Qed.

Lemma keys_dict_set_in (k : string) (v : FlowResult.t) (d : registry) :
  In k (keys d) -> keys (dict_set k v d) = keys d.
Proof.
  unfold keys. induction d as [|[k' v'] d IH]; simpl; [tauto|].
  intros H. destruct (String.eqb k' k) eqn:E; simpl.
  - apply String.eqb_eq in E. now subst.
  - f_equal. apply IH. destruct H as [H|H]; [|exact H].
    subst. now rewrite String.eqb_refl in E.
Qed.

Lemma keys_dict_set_fresh (k : string) (v : FlowResult.t) (d : registry) :
  ~ In k (keys d) -> dict_set k v d = d ++ [(k, v)].
Proof.
  unfold keys. induction d as [|[k' v'] d IH]; simpl; [reflexivity|].
  intros H. destruct (String.eqb k' k) eqn:E.
  - apply String.eqb_eq in E. tauto.
  - f_equal. apply IH. tauto.
Qed.

Lemma in_keys_dict_set (k k' : string) (v : FlowResult.t) (d : registry) :
  In k' (keys (dict_set k v d)) <-> k' = k \/ In k' (keys d).
Proof.
  unfold keys. induction d as [|[k0 v0] d IH]; simpl.
  - intuition congruence.
  - destruct (String.eqb k0 k) eqn:E; simpl.
    + apply String.eqb_eq in E. subst. intuition congruence.
    + rewrite IH. tauto.
Qed.

Lemma NoDup_keys_dict_set (k : string) (v : FlowResult.t) (d : registry) :
  NoDup (keys d) -> NoDup (keys (dict_set k v d)).
Proof.
  intros H. destruct (in_dec string_dec k (keys d)) as [Hin|Hout].
  - now rewrite keys_dict_set_in.
  - rewrite keys_dict_set_fresh by exact Hout. unfold keys in *.
    rewrite map_app. simpl.
    apply NoDup_app; [exact H | repeat constructor; simpl; tauto |].
    intros a Ha [Hb|[]]. now subst.
Qed.

Lemma entries_for_NoDup (k : string) (d : registry) :
  NoDup (keys d) -> In k (keys d) -> entries_for k d = 1.
Proof.
  unfold entries_for, keys. induction d as [|[k' v'] d IH]; simpl; [tauto|].
  intros Hnd Hin. inversion Hnd as [|? ? Hout Hnd']; subst.
  destruct (String.eqb k' k) eqn:E; simpl.
  - apply String.eqb_eq in E. subst. f_equal.
    clear IH Hin Hnd Hnd'. induction d as [|[k0 v0] d IH]; simpl in *; [reflexivity|].
    destruct (String.eqb k0 k) eqn:E0.
    + apply String.eqb_eq in E0. tauto.
    + apply IH. tauto.
  - apply IH; [exact Hnd'|]. destruct Hin as [Hin|Hin]; [|exact Hin].
    subst. now rewrite String.eqb_refl in E.
Qed.

(** The registry after a sequence of [record] calls on it. *)
Definition replay (rs : list (string * FlowResult.t)) (d : registry) : registry :=
  fold_left (fun acc nr => dict_set (fst nr) (snd nr) acc) rs d.

Lemma NoDup_keys_replay rs d : NoDup (keys d) -> NoDup (keys (replay rs d)).
Proof.
  revert d. induction rs as [|[n r] rs IH]; simpl; intros d H; [exact H|].
  apply IH. now apply NoDup_keys_dict_set.
Qed.

Lemma replay_app rs1 rs2 d : replay (rs1 ++ rs2) d = replay rs2 (replay rs1 d).
Proof. unfold replay. apply fold_left_app. Qed.

Lemma replay_fresh rs d :
  NoDup (map fst rs) ->
  (forall k, In k (map fst rs) -> ~ In k (keys d)) ->
  replay rs d = d ++ rs.
Proof.
  revert d. induction rs as [|[n r] rs IH]; simpl; intros d Hnd Hfresh.
  - now rewrite app_nil_r.
  - inversion Hnd as [|? ? Hout Hnd']; subst.
    rewrite keys_dict_set_fresh by (apply Hfresh; now left).
    rewrite IH; [now rewrite <- app_assoc | exact Hnd' |].
    intros k Hk Hin. unfold keys in Hin. rewrite map_app in Hin.
    apply in_app_or in Hin. destruct Hin as [Hin|[Hin|[]]].
    + apply (Hfresh k); [now right | exact Hin].
    + simpl in Hin. now subst.
Qed.

(** *** Frames: what a computation leaves alone

    [keeps R m] says that running [m], whatever its outcome, takes a state
    to one related to it by [R]. *)

Section Frames.
Variable R : State -> State -> Prop.
Hypothesis R_refl : forall s, R s s.
Hypothesis R_trans : forall a b c, R a b -> R b c -> R a c.

Definition keeps {A} (m : M A) : Prop := forall s, R s (snd (m s)).

Lemma keeps_ret A (a : A) : keeps (ret a).
Proof. intros s. apply R_refl. Qed.

Lemma keeps_bind A B (m : M A) (k : A -> M B) :
  keeps m -> (forall a, keeps (k a)) -> keeps (bind m k).
Proof.
  intros Hm Hk s. unfold bind. specialize (Hm s).
  destruct (m s) as [[a|e] s1]; simpl in *; [|exact Hm].
  eapply R_trans; [exact Hm | apply Hk].
Qed.

Lemma keeps_try_except A (m : M A) (h : exn -> M A) :
  keeps m -> (forall e, keeps (h e)) -> keeps (try_except m h).
Proof.
  intros Hm Hh s. unfold try_except. specialize (Hm s).
  destruct (m s) as [[a|e] s1]; simpl in *; [exact Hm|].
  eapply R_trans; [exact Hm | apply Hh].
Qed.

Lemma keeps_try_finally A (m : M A) (fin : M unit) :
  keeps m -> keeps fin -> keeps (try_finally m fin).
Proof.
  intros Hm Hf s. unfold try_finally. specialize (Hm s).
  destruct (m s) as [r s1]; simpl in *. specialize (Hf s1).
  destruct (fin s1) as [[[]|e] s2]; simpl in *; eapply R_trans; eauto.
Qed.

Lemma keeps_total_call A (f : State -> A * State) :
  (forall s, R s (snd (f s))) -> keeps (total_call f).
Proof.
  intros H s. unfold total_call. specialize (H s).
  now destruct (f s) as [a s1].
Qed.
End Frames.

(** The registry, the log of [record] calls and [summary.json] are as
    they were. *)
Definition untouched (s s' : State) : Prop :=
  results s' = results s /\ calls s' = calls s /\ summary_json s' = summary_json s.

(** Every call made in between satisfies [P]. *)
Definition issues (P : Op -> Prop) (s s' : State) : Prop :=
  exists ops, trace s' = trace s ++ ops /\ Forall P ops.

(** Everything printed before is still there, in place. *)
Definition prints_more (s s' : State) : Prop :=
  exists lines, stdout s' = stdout s ++ lines.

Lemma untouched_refl s : untouched s s.
Proof. now repeat split. Qed.

Lemma untouched_trans a b c : untouched a b -> untouched b c -> untouched a c.
Proof. unfold untouched. intuition congruence. Qed.

Lemma issues_refl P s : issues P s s.
Proof. exists []. now rewrite app_nil_r. Qed.

Lemma issues_trans P a b c : issues P a b -> issues P b c -> issues P a c.
Proof.
  intros [o1 [E1 F1]] [o2 [E2 F2]]. exists (o1 ++ o2). split.
  - now rewrite E2, E1, app_assoc.
  - apply Forall_app. now split.
Qed.

Lemma prints_more_refl s : prints_more s s.
Proof. exists []. now rewrite app_nil_r. Qed.

Lemma prints_more_trans a b c : prints_more a b -> prints_more b c -> prints_more a c.
Proof.
  intros [l1 E1] [l2 E2]. exists (l1 ++ l2). now rewrite E2, E1, app_assoc.
Qed.

Lemma perform_untouched o s : untouched s (snd (perform o s)).
Proof. unfold perform. destruct (respond o (world s)) as [[v msgs] w']. now repeat split. Qed.

Lemma perform_issues (P : Op -> Prop) o s : P o -> issues P s (snd (perform o s)).
Proof.
  intros H. unfold perform. destruct (respond o (world s)) as [[v msgs] w'].
  exists [o]. simpl. split; [reflexivity | now constructor].
Qed.

Lemma perform_prints_more o s : prints_more s (snd (perform o s)).
Proof.
  unfold perform. destruct (respond o (world s)) as [[v msgs] w'].
  exists []. simpl. now rewrite app_nil_r.
Qed.

Lemma perform_trace o s : trace (snd (perform o s)) = trace s ++ [o].
Proof. unfold perform. now destruct (respond o (world s)) as [[v msgs] w']. Qed.

(** Frames are proved by following the structure of the code; [leaf]
    closes the goals about a single call. *)
Create HintDb harness.

#[local] Hint Unfold before_session up_to_preflight launch_session browser_session
  guarded_flows open_page preflight print_banner run_flows
  flow_demo_login flow_dashboard_loads flow_customer_detail flow_operations_hub
  flow_admin_panel flow_agent_center flow_knowledge_base flow_chat_send
  flow_demo_login_try flow_dashboard_loads_try flow_customer_detail_try
  flow_operations_hub_try flow_admin_panel_try flow_agent_center_try
  flow_knowledge_base_try flow_chat_send_try
  safe_click content_lower visit_sub_tab sub_tabs : harness.

Ltac frame refl trans leaf :=
  repeat (cbv zeta;
          match goal with
          | |- keeps _ (bind _ _) => apply (keeps_bind _ trans); [|intro]
          | |- keeps _ (ret _) => apply (keeps_ret _ refl)
          | |- keeps _ (try_except _ _) => apply (keeps_try_except _ trans); [|intro]
          | |- keeps _ (try_finally _ _) => apply (keeps_try_finally _ trans)
          | |- keeps _ (if ?b then _ else _) => destruct b
          | |- keeps _ (visit_sub_tabs (_ :: _) _) => cbn [visit_sub_tabs]
          | |- keeps _ (visit_sub_tabs [] _) => cbn [visit_sub_tabs]
          | |- keeps _ _ => first [ solve [leaf] | progress autounfold with harness ]
          end).

Ltac unfold_calls :=
  unfold screenshot, time_time, now_iso, health_check, start_playwright,
    stop_playwright, launch, new_context, new_page, browser_close, page_goto,
    page_screenshot, page_content, wait_for_load_state, wait_for_timeout,
    wait_for_visible, click, is_visible, fill, press.

(** A goal about one call into the environment, closed with [lem]. *)
Ltac by_perform lem :=
  unfold_calls;
  match goal with
  | |- keeps _ (total_call (perform ?o)) =>
      let s := fresh "s" in apply keeps_total_call; intro s; exact (lem o s)
  | |- keeps _ (perform ?o) =>
      let s := fresh "s" in intro s; exact (lem o s)
  end.

(** A goal about a step that stays inside the script. *)
Ltac in_script :=
  match goal with
  | |- keeps _ (print _) => idtac
  | |- keeps _ (record _ _ _) => idtac
  | |- keeps _ page_on_console => idtac
  | |- keeps _ get_results => idtac
  | |- keeps _ get_console_errors => idtac
  | |- keeps _ (write_summary _) => idtac
  end;
  intro.

Ltac untouched_leaf :=
  first [ by_perform perform_untouched
        | in_script; simpl; repeat split; reflexivity ].

Ltac prints_leaf :=
  first [ by_perform perform_prints_more
        | in_script; eexists; simpl; reflexivity
        | in_script; exists []; simpl; now rewrite app_nil_r ].

Ltac issues_leaf side :=
  first
    [ unfold_calls;
      match goal with
      | |- keeps _ (total_call (perform ?o)) =>
          let s := fresh "s" in
          apply keeps_total_call; intro s; apply (perform_issues _ o s); side
      | |- keeps _ (perform ?o) =>
          let s := fresh "s" in intro s; apply (perform_issues _ o s); side
      end
    | in_script; exists []; simpl; rewrite app_nil_r; split; [reflexivity | constructor] ].

Lemma screenshot_untouched name : keeps untouched (screenshot name).
Proof. frame untouched_refl untouched_trans untouched_leaf. Qed.

Lemma safe_click_untouched sel t : keeps untouched (safe_click sel t).
Proof. frame untouched_refl untouched_trans untouched_leaf. Qed.

Lemma visit_sub_tabs_untouched tabs n : keeps untouched (visit_sub_tabs tabs n).
Proof.
  revert n. induction tabs as [|[label slug] tabs IH]; intros n; simpl.
  - frame untouched_refl untouched_trans untouched_leaf.
  - apply (keeps_bind _ untouched_trans); [|intro; apply IH].
    frame untouched_refl untouched_trans untouched_leaf.
Qed.

Lemma visit_sub_tabs_prints tabs n : keeps prints_more (visit_sub_tabs tabs n).
Proof.
  revert n. induction tabs as [|[label slug] tabs IH]; intros n; simpl.
  - frame prints_more_refl prints_more_trans prints_leaf.
  - apply (keeps_bind _ prints_more_trans); [|intro; apply IH].
    frame prints_more_refl prints_more_trans prints_leaf.
Qed.

(** *** One result per flow *)

(** [m] calls [record] once, for [name], when it returns, and not at all
    when it raises. *)
Definition records_once (name : string) (m : M unit) : Prop :=
  forall s,
    match m s with
    | (Ok _, s') =>
        exists r, calls s' = calls s ++ [(name, r)]
                  /\ results s' = dict_set name r (results s)
                  /\ summary_json s' = summary_json s
    | (Raise _, s') => untouched s s'
    end.

Lemma once_record name passed detail : records_once name (record name passed detail).
Proof. intros s. simpl. now exists (FlowResult.mk passed detail). Qed.

Lemma once_bind A name (m : M A) (k : A -> M unit) :
  keeps untouched m -> (forall a, records_once name (k a)) ->
  records_once name (bind m k).
Proof.
  intros Hm Hk s. unfold bind. specialize (Hm s).
  destruct (m s) as [[a|e] s1]; simpl in Hm; [|exact Hm].
  specialize (Hk a s1). destruct Hm as (Hr & Hc & Hj).
  destruct (k a s1) as [[[]|e] s2].
  - destruct Hk as (r & H1 & H2 & H3). exists r. rewrite <- Hr, <- Hc, <- Hj. auto.
  - eapply untouched_trans; [|exact Hk]. now repeat split.
Qed.

Ltac one_record :=
  repeat (cbv zeta;
          first
            [ apply once_record
            | match goal with
              | |- records_once _ (if ?b then _ else _) => destruct b
              end
            | apply once_bind;
              [ first [ apply safe_click_untouched
                      | apply visit_sub_tabs_untouched
                      | frame untouched_refl untouched_trans untouched_leaf ]
              | intro ] ]).

Lemma flow_demo_login_try_once : records_once "demo_login" flow_demo_login_try.
Proof. unfold flow_demo_login_try. one_record. Qed.

Lemma flow_dashboard_loads_try_once : records_once "dashboard_loads" flow_dashboard_loads_try.
Proof. unfold flow_dashboard_loads_try. one_record. Qed.

Lemma flow_customer_detail_try_once : records_once "customer_detail" flow_customer_detail_try.
Proof. unfold flow_customer_detail_try. one_record. Qed.

Lemma flow_operations_hub_try_once : records_once "operations_hub" flow_operations_hub_try.
Proof. unfold flow_operations_hub_try. one_record. Qed.

Lemma flow_admin_panel_try_once : records_once "admin_panel" flow_admin_panel_try.
Proof. unfold flow_admin_panel_try. one_record. Qed.

Lemma flow_agent_center_try_once : records_once "agent_center" flow_agent_center_try.
Proof. unfold flow_agent_center_try. one_record. Qed.

Lemma flow_knowledge_base_try_once : records_once "knowledge_base" flow_knowledge_base_try.
Proof. unfold flow_knowledge_base_try. one_record. Qed.

Lemma flow_chat_send_try_once : records_once "chat_send" flow_chat_send_try.
Proof. unfold flow_chat_send_try. one_record. Qed.

Lemma flow_table_guarded :
  Forall (fun f => flow_run f
                   = guarded (flow_name f) (flow_header f) (flow_error_shot f) (flow_try f))
    flow_table.
Proof. repeat constructor. Qed.

Lemma flow_table_once :
  Forall (fun f => records_once (flow_name f) (flow_try f)) flow_table.
Proof.
  repeat constructor; simpl.
  - apply flow_demo_login_try_once.
  - apply flow_dashboard_loads_try_once.
  - apply flow_customer_detail_try_once.
  - apply flow_operations_hub_try_once.
  - apply flow_admin_panel_try_once.
  - apply flow_agent_center_try_once.
  - apply flow_knowledge_base_try_once.
  - apply flow_chat_send_try_once.
Qed.

Lemma run_flows_run_all : run_flows = run_all (map flow_run flow_table).
Proof. reflexivity. Qed.

(** What a flow does at its boundary.  When it returns it has recorded
    one result, the failed one with the message if its [try] block
    raised.  It raises only when the screenshot of its [except] branch
    raises, and then it has recorded nothing. *)
Definition boundary (name header error_shot : string) (body flow : M unit) : Prop :=
  forall s,
    let s0 := snd (print (nl ++ header)%string s) in
    match flow s with
    | (Ok _, s') =>
        exists r,
          calls s' = calls s ++ [(name, r)]
          /\ results s' = dict_set name r (results s)
          /\ summary_json s' = summary_json s
          /\ (forall e0 s1, body s0 = (Raise e0, s1) -> r = FlowResult.mk false e0)
    | (Raise e, s') =>
        untouched s s'
        /\ exists e0 s1, body s0 = (Raise e0, s1)
                         /\ screenshot error_shot s1 = (Raise e, s')
    end.

Lemma guarded_boundary name header error_shot body :
  records_once name body ->
  boundary name header error_shot body (guarded name header error_shot body).
Proof.
  intros Hbody s. cbv zeta. unfold guarded, bind at 1. simpl.
  set (s0 := mkState _ _ _ _ _ _ _ _).
  specialize (Hbody s0). unfold try_except.
  destruct (body s0) as [[[]|e0] s1].
  - destruct Hbody as (r & H1 & H2 & H3). exists r. repeat split; auto.
    intros e1 s2 H. discriminate H.
  - unfold bind.
    pose proof (perform_untouched
                  (Screenshot (path_join SCREENSHOT_DIR (error_shot ++ ".png")%string)) s1)
      as Hshot.
    unfold screenshot, page_screenshot.
    destruct (perform (Screenshot _) s1) as [[[]|e] s2] eqn:E; simpl in Hshot.
    + exists (FlowResult.mk false e0). simpl.
      destruct Hbody as (Hr & Hc & Hj). destruct Hshot as (Hr' & Hc' & Hj').
      rewrite Hr', Hc', Hj', Hr, Hc, Hj. repeat split; auto.
      intros e1 s3 H. now inversion H.
    + split.
      * eapply untouched_trans; [|exact Hshot].
        eapply untouched_trans; [|exact Hbody]. now repeat split.
      * exists e0, s1. split; [reflexivity | exact E].
Qed.

Lemma flow_table_boundary :
  Forall (fun f => boundary (flow_name f) (flow_header f) (flow_error_shot f)
                     (flow_try f) (flow_run f))
    flow_table.
Proof.
  pose proof flow_table_guarded as G. pose proof flow_table_once as O.
  rewrite Forall_forall in *. intros f Hf.
  rewrite (G f Hf). apply guarded_boundary. now apply O.
Qed.

Lemma boundary_once name header error_shot body flow :
  boundary name header error_shot body flow -> records_once name flow.
Proof.
  intros H s. specialize (H s). cbv zeta in H.
  destruct (flow s) as [[[]|e] s'].
  - destruct H as (r & H1 & H2 & H3 & _). now exists r.
  - apply H.
Qed.

(** *** The flows in sequence *)

(** [m] records under [names], each once and in this order, when it
    returns; when it raises it has recorded under the first [k] of them
    only, for some [k] below their number. *)
Definition records_seq (names : list string) (m : M unit) : Prop :=
  forall s,
    match m s with
    | (Ok _, s') =>
        exists rs, map fst rs = names
                   /\ calls s' = calls s ++ rs
                   /\ results s' = replay rs (results s)
                   /\ summary_json s' = summary_json s
    | (Raise _, s') =>
        exists k rs, k < List.length names
                     /\ map fst rs = firstn k names
                     /\ calls s' = calls s ++ rs
                     /\ results s' = replay rs (results s)
                     /\ summary_json s' = summary_json s
    end.

Lemma seq_one name f : records_once name f -> records_seq [name] f.
Proof.
  intros H s. specialize (H s). destruct (f s) as [[[]|e] s'].
  - destruct H as (r & H1 & H2 & H3). exists [(name, r)]. auto.
  - destruct H as (Hr & Hc & Hj). exists 0, []. simpl.
    rewrite app_nil_r. repeat split; auto.
Qed.

Lemma seq_cons name names f m :
  records_once name f -> records_seq names m ->
  records_seq (name :: names) (f ;; m).
Proof.
  intros Hf Hm s. unfold bind. specialize (Hf s).
  destruct (f s) as [[[]|e] s1].
  - destruct Hf as (r & H1 & H2 & H3). specialize (Hm s1).
    destruct (m s1) as [[[]|e] s2].
    + destruct Hm as (rs & E1 & E2 & E3 & E4). exists ((name, r) :: rs). simpl.
      rewrite E1, E2, E3, E4, H1, H2, H3, <- app_assoc. auto.
    + destruct Hm as (k & rs & Hk & E1 & E2 & E3 & E4).
      exists (S k), ((name, r) :: rs). simpl.
      rewrite E1, E2, E3, E4, H1, H2, H3, <- app_assoc. repeat split; auto. lia.
  - destruct Hf as (Hr & Hc & Hj). exists 0, []. simpl.
    rewrite app_nil_r. repeat split; auto. lia.
Qed.

Lemma run_all_seq (fs : list Flow) :
  Forall (fun f => records_once (flow_name f) (flow_run f)) fs ->
  records_seq (map flow_name fs) (run_all (map flow_run fs)).
Proof.
  induction fs as [|f fs IH]; intros H.
  - intros s. simpl. exists []. simpl. now rewrite app_nil_r.
  - inversion H as [|? ? Hf Hfs]; subst.
    destruct fs as [|g fs].
    + simpl. now apply seq_one.
    + change (records_seq (flow_name f :: map flow_name (g :: fs))
                (flow_run f ;; run_all (map flow_run (g :: fs)))).
      apply seq_cons; [exact Hf|]. apply IH. exact Hfs.
Qed.

Lemma flow_table_runs_once :
  Forall (fun f => records_once (flow_name f) (flow_run f)) flow_table.
Proof.
  pose proof flow_table_boundary as B. rewrite Forall_forall in *.
  intros f Hf. eapply boundary_once. now apply B.
Qed.

Lemma run_flows_seq : records_seq flow_names run_flows.
Proof.
  rewrite run_flows_run_all. apply run_all_seq.
  apply flow_table_runs_once.
Qed.

(** The flows before the [k]-th returned and the [k]-th raised: the
    whole sequence raises there, in the state the [k]-th left. *)
Lemma run_all_stops (fs : list (M unit)) k f s s_k e s_e :
  nth_error fs k = Some f ->
  run_all (firstn k fs) s = (Ok tt, s_k) ->
  f s_k = (Raise e, s_e) ->
  run_all fs s = (Raise e, s_e).
Proof.
  revert k s. induction fs as [|g fs IH]; intros k s Hn Hpre Hf.
  - destruct k; discriminate.
  - destruct k as [|k].
    + simpl in Hn, Hpre. inversion Hn; subst. inversion Hpre; subst.
      simpl. destruct fs; [exact Hf|]. unfold bind. now rewrite Hf.
    + simpl in Hn. destruct fs as [|h fs]; [destruct k; discriminate|].
      change (run_all (g :: h :: fs)) with (g ;; run_all (h :: fs)).
      assert (Hg : exists s1, g s = (Ok tt, s1)
                              /\ run_all (firstn k (h :: fs)) s1 = (Ok tt, s_k)).
      { change (firstn (S k) (g :: h :: fs)) with (g :: firstn k (h :: fs)) in Hpre.
        simpl in Hpre. destruct (firstn k (h :: fs)) as [|x xs] eqn:E.
        - exists s_k. split; [exact Hpre | reflexivity].
        - unfold bind in Hpre. destruct (g s) as [[[]|e1] s1]; [|discriminate].
          exists s1. split; [reflexivity | exact Hpre]. }
      destruct Hg as (s1 & Hg1 & Hg2). unfold bind. rewrite Hg1.
      eapply IH; eauto.
Qed.

(** *** The summary *)

(** [s] with [lines] printed after what was printed before. *)
Definition printed (lines : list string) (s : State) : State :=
  mkState (world s) (trace s) (stdout s ++ lines) (results s) (calls s)
    (listening s) (console_errors s) (summary_json s).

Lemma printed_printed l1 l2 s : printed l2 (printed l1 s) = printed (l1 ++ l2) s.
Proof. unfold printed. simpl. now rewrite app_assoc. Qed.

Lemma printed_nil s : printed [] s = s.
Proof. destruct s. unfold printed. simpl. now rewrite app_nil_r. Qed.

Lemma print_printed line s : print line s = (Ok tt, printed [line] s).
Proof. reflexivity. Qed.

Lemma count_split (d : registry) : count_passed d + count_failed d = List.length d.
Proof.
  unfold count_passed, count_failed.
  induction d as [|[k v] d IH]; simpl; [reflexivity|].
  destruct (FlowResult.passed v); simpl; lia.
Qed.

Lemma count_failed_zero (d : registry) :
  count_failed d = 0 <-> Forall (fun kv => FlowResult.passed (snd kv) = true) d.
Proof.
  unfold count_failed. induction d as [|[k v] d IH]; simpl.
  - split; [constructor | reflexivity].
  - destruct (FlowResult.passed v) eqn:E; simpl.
    + rewrite IH. split; intros H; [now constructor | now inversion H].
    + split; intros H; [discriminate|]. inversion H; subst. simpl in *. congruence.
Qed.

Lemma tally_run (items : registry) (passed failed : nat) (s : State) :
  tally items passed failed s
  = (Ok (passed + count_passed items, failed + count_failed items),
     printed (map (fun kv => summary_line (fst kv) (snd kv)) items) s).
Proof.
  revert passed failed s. unfold count_passed, count_failed.
  induction items as [|[name info] items IH]; intros passed failed s; simpl.
  - unfold ret. now rewrite printed_nil, !Nat.add_0_r.
  - unfold bind at 1. rewrite print_printed.
    destruct (FlowResult.passed info); simpl; rewrite IH, printed_printed; simpl;
      match goal with
      | |- (Ok (?a, ?b), _) = (Ok (?c, ?d), _) =>
          replace a with c by lia; replace b with d by lia
      end; reflexivity.
Qed.

Lemma print_errors_run (errs : list string) (s : State) :
  print_errors errs s
  = (Ok tt, printed (map (fun err => "    - " ++ substring 0 120 err)%string errs) s).
Proof.
  revert s. induction errs as [|err errs IH]; intros s; simpl.
  - unfold ret. now rewrite printed_nil.
  - unfold bind. rewrite print_printed, IH, printed_printed. reflexivity.
Qed.

(** [report] returns; it writes [summary.json] from the registry as it
    stands and computes the exit code from the same counts. *)
Lemma report_run (start : float) (s : State) :
  exists s' stamp elapsed,
    report start s = (Ok (if (count_failed (results s) =? 0)%nat then 0 else 1), s')
    /\ summary_json s'
       = Some (Summary.mk stamp FRONTEND_URL BACKEND_URL
                 (count_passed (results s) + count_failed (results s))
                 (count_passed (results s)) (count_failed (results s))
                 (round2 elapsed) (results s) (firstn 20 (console_errors s)))
    /\ In (tally_line (count_passed (results s))
             (count_passed (results s) + count_failed (results s))
             (count_failed (results s)) elapsed)
         (stdout s')
    /\ results s' = results s
    /\ calls s' = calls s
    /\ prints_more s s'.
Proof.
  unfold report, bind, time_time, now_iso, total_call, perform, get_results,
    get_console_errors, write_summary.
  destruct (respond TimeTime (world s)) as [[finish msgs] w1]. simpl.
  rewrite tally_run. simpl. rewrite !andb_false_r.
  set (errs := console_errors s).
  destruct (is_empty errs) eqn:Hempty; simpl;
    rewrite ?print_errors_run; simpl;
    destruct (respond NowIso w1) as [[stamp msgs'] w2]; simpl;
    rewrite ?andb_false_r;
    (eexists; exists stamp, (fsub finish start);
     split; [reflexivity|]; simpl;
     split; [reflexivity|];
     split; [|split; [reflexivity|split; [reflexivity|]]];
     [ rewrite !in_app_iff; simpl; tauto
     | eexists; rewrite <- !app_assoc; reflexivity ]).
Qed.

(** *** The runner, phase by phase *)

Definition returns {A} (m : M A) : Prop :=
  forall s, exists a, m s = (Ok a, snd (m s)).

Lemma returns_bind A B (m : M A) (k : A -> M B) :
  returns m -> (forall a, returns (k a)) -> returns (bind m k).
Proof.
  intros Hm Hk s. unfold bind. destruct (Hm s) as [a Ha]. rewrite Ha.
  apply Hk.
Qed.

Lemma returns_total_call A (f : State -> A * State) : returns (total_call f).
Proof. intros s. unfold total_call. destruct (f s) as [a s1]. now exists a. Qed.

Lemma returns_print line : returns (print line).
Proof. intros s. now exists tt. Qed.

Lemma returns_ret A (a : A) : returns (ret a).
Proof. intros s. now exists a. Qed.

Lemma returns_try_except A (m : M A) (h : exn -> M A) :
  (forall e, returns (h e)) -> returns (try_except m h).
Proof.
  intros Hh s. unfold try_except. destruct (m s) as [[a|e] s1].
  - now exists a.
  - apply Hh.
Qed.

Ltac returning :=
  repeat match goal with
         | |- returns (bind _ _) => apply returns_bind; [|intro]
         | |- returns (print _) => apply returns_print
         | |- returns (ret _) => apply returns_ret
         | |- returns (total_call _) => apply returns_total_call
         | |- returns (try_except _ _) => apply returns_try_except; intro
         | |- returns _ => progress autounfold with harness
         | |- returns _ => progress unfold time_time, now_iso, browser_close, stop_playwright
         end.

Lemma preflight_returns : returns preflight.
Proof. unfold preflight. returning. Qed.

Lemma before_session_returns : returns before_session.
Proof.
  unfold before_session, print_banner, time_time, now_iso.
  returning.
Qed.

(** C10 in the form the other proofs use. *)
Lemma safe_click_returns sel t : returns (safe_click sel t).
Proof. unfold safe_click. returning. Qed.

Lemma preflight_run (s : State) :
  match health_check (BACKEND_URL ++ "/api/health")%string 5 s with
  | (Ok status, s1) =>
      preflight s
      = (Ok tt, printed [(nl ++ "  Backend health check: " ++ str_nat status)%string] s1)
  | (Raise exc, s1) =>
      preflight s = (Ok tt, printed [health_warning exc; health_continuing] s1)
  end.
Proof.
  unfold preflight, try_except, bind.
  destruct (health_check _ 5 s) as [[status|exc] s1]; [reflexivity|].
  now rewrite !print_printed, printed_printed.
Qed.

Lemma run_verification_phases (s : State) :
  run_verification s
  = match before_session s with
    | (Ok start, s1) => (browser_session ;; report start) s1
    | (Raise e, s1) => (Raise e, s1)
    end.
Proof.
  unfold run_verification, before_session, bind.
  destruct (time_time s) as [[start|e] s1]; [|reflexivity].
  destruct (print_banner s1) as [[[]|e] s2]; [|reflexivity].
  destruct (preflight s2) as [[[]|e] s3]; reflexivity.
Qed.

Lemma browser_session_launch_fails (s : State) e s2 :
  launch_session s = (Raise e, s2) ->
  exists s', browser_session s = (Raise e, s')
             /\ (s' = s2 \/ s' = snd (stop_playwright s2)).
Proof.
  unfold launch_session, browser_session, bind, try_finally.
  destruct (start_playwright s) as [[[]|e1] s1].
  - intros H. unfold bind. rewrite H.
    pose proof (returns_total_call _ (perform StopPlaywright) s2) as [[] Hs].
    fold stop_playwright in Hs. rewrite Hs. eexists. split; [reflexivity|]. now right.
  - intros H. inversion H; subst. eexists. split; [reflexivity|]. now left.
Qed.

Lemma browser_session_launched (s : State) s2 :
  launch_session s = (Ok tt, s2) ->
  browser_session s
  = (fst (guarded_flows s2), snd (stop_playwright (snd (guarded_flows s2)))).
Proof.
  unfold launch_session, browser_session, bind, try_finally.
  destruct (start_playwright s) as [[[]|e1] s1]; [|discriminate].
  intros H. unfold bind. rewrite H. destruct (guarded_flows s2) as [r s3]. simpl.
  pose proof (returns_total_call _ (perform StopPlaywright) s3) as [[] Hs].
  fold stop_playwright in Hs. now rewrite Hs.
Qed.

Lemma guarded_flows_completed (s : State) s3 :
  run_flows s = (Ok tt, s3) ->
  guarded_flows s = (Ok tt, snd (browser_close s3)).
Proof.
  intros H. unfold guarded_flows, try_finally, try_except. rewrite H.
  pose proof (returns_total_call _ (perform BrowserClose) s3) as [[] Hs].
  fold browser_close in Hs. now rewrite Hs.
Qed.

(** An exception left a flow: the [except] branch of the runner. *)
Lemma guarded_flows_fatal (s : State) e s3 :
  run_flows s = (Raise e, s3) ->
  let s4 := printed [(nl ++ "  FATAL ERROR: " ++ e)%string] s3 in
  guarded_flows s
  = (fst (screenshot "fatal_error" s4),
     snd (browser_close (snd (screenshot "fatal_error" s4)))).
Proof.
  intros H. cbv zeta. unfold guarded_flows, try_finally, try_except. rewrite H.
  unfold bind at 1. rewrite print_printed.
  destruct (screenshot "fatal_error" _) as [r s5]. simpl.
  pose proof (returns_total_call _ (perform BrowserClose) s5) as [[] Hs].
  fold browser_close in Hs. now rewrite Hs.
Qed.

(** ** The claims *)

(** *** [safe_click] *)

(** C10.  [safe_click] is total: in every state, for every selector and
    timeout, it returns a boolean and raises nothing.  It returns [True]
    exactly when waiting for the first match to be visible succeeded and
    the click on it succeeded, and [False] in every other case. *)
Theorem safe_click_total (selector : string) (timeout : Z) (s : State) :
  (exists b, safe_click selector timeout s = (Ok b, snd (safe_click selector timeout s)))
  /\ (fst (safe_click selector timeout s) = Ok true
      <-> exists s1, wait_for_visible selector timeout s = (Ok tt, s1)
                     /\ fst (click selector s1) = Ok tt)
  /\ (fst (safe_click selector timeout s) = Ok false
      <-> ~ exists s1, wait_for_visible selector timeout s = (Ok tt, s1)
                       /\ fst (click selector s1) = Ok tt).
Proof.
  split; [apply safe_click_returns|].
  unfold safe_click, try_except, bind, ret.
  destruct (wait_for_visible selector timeout s) as [[[]|e] s1].
  - destruct (click selector s1) as [[[]|e] s2] eqn:Hc; simpl.
    + split; split; try discriminate.
      * intros _. exists s1. now rewrite Hc.
      * reflexivity.
      * intros H. exfalso. apply H. exists s1. now rewrite Hc.
    + split; split; try discriminate; try reflexivity.
      * intros (s1' & H1 & H2). inversion H1; subst. rewrite Hc in H2. discriminate.
      * intros _ (s1' & H1 & H2). inversion H1; subst. rewrite Hc in H2. discriminate.
  - simpl. split; split; try discriminate; try reflexivity.
    + intros (s1' & H1 & _). discriminate.
    + intros _ (s1' & H1 & _). discriminate.
Qed.

(** *** [record] *)

Lemma record_each_run entries s :
  exists s', record_each entries s = (Ok tt, s')
             /\ results s' = replay entries (results s)
             /\ calls s' = calls s ++ entries.
Proof.
  revert s. induction entries as [|[name [p d]] entries IH]; intros s; simpl.
  - exists s. now rewrite app_nil_r.
  - unfold bind. simpl. edestruct IH as (s' & H1 & H2 & H3).
    exists s'. split; [exact H1|]. rewrite H2, H3. simpl.
    now rewrite <- app_assoc.
Qed.

(** C8.  After [record(name, p1, d1)] and, later, [record(name, p2, d2)],
    whatever was recorded before and in between, the registry holds
    exactly one entry for [name], and it is [{passed: p2, detail: d2}]. *)
Theorem record_last_write_wins (w : W) (before between : list (string * FlowResult.t))
    (name : string) (p1 p2 : bool) (d1 d2 : string) :
  let s' := snd ((record_each before ;;
                  record name p1 d1 ;;
                  record_each between ;;
                  record name p2 d2) (initial w)) in
  dict_get name (results s') = Some (FlowResult.mk p2 d2)
  /\ entries_for name (results s') = 1.
Proof.
  cbv zeta. unfold bind.
  destruct (record_each_run before (initial w)) as (s1 & E1 & R1 & _). rewrite E1.
  simpl.
  match goal with
  | |- context [record_each between ?s] =>
      destruct (record_each_run between s) as (s2 & E2 & R2 & _); rewrite E2
  end.
  simpl. split; [apply dict_get_set_same|].
  apply entries_for_NoDup.
  - apply NoDup_keys_dict_set. rewrite R2. apply NoDup_keys_replay. simpl.
    apply NoDup_keys_dict_set. rewrite R1. apply NoDup_keys_replay. constructor.
  - apply in_keys_dict_set. now left.
Qed.

(** *** What a flow records *)

(** As [records_once], with [Q] holding of the result recorded. *)
Definition records_such (Q : FlowResult.t -> Prop) (name : string) (m : M unit) : Prop :=
  forall s,
    match m s with
    | (Ok _, s') =>
        exists r, Q r
                  /\ calls s' = calls s ++ [(name, r)]
                  /\ results s' = dict_set name r (results s)
                  /\ summary_json s' = summary_json s
    | (Raise _, s') => untouched s s'
    end.

Lemma such_record (Q : FlowResult.t -> Prop) name passed detail :
  Q (FlowResult.mk passed detail) -> records_such Q name (record name passed detail).
Proof. intros HQ s. simpl. now exists (FlowResult.mk passed detail). Qed.

Lemma such_bind A (Q : FlowResult.t -> Prop) name (m : M A) (k : A -> M unit) :
  keeps untouched m -> (forall a, records_such Q name (k a)) ->
  records_such Q name (bind m k).
Proof.
  intros Hm Hk s. unfold bind. specialize (Hm s).
  destruct (m s) as [[a|e] s1]; simpl in Hm; [|exact Hm].
  specialize (Hk a s1). destruct Hm as (Hr & Hc & Hj).
  destruct (k a s1) as [[[]|e] s2].
  - destruct Hk as (r & HQ & H1 & H2 & H3). exists r. rewrite <- Hr, <- Hc, <- Hj. auto.
  - eapply untouched_trans; [|exact Hk]. now repeat split.
Qed.

Ltac one_record_such :=
  repeat (cbv zeta;
          first
            [ apply such_record; simpl; first [ reflexivity | intro; discriminate | tauto ]
            | match goal with
              | |- records_such _ _ (if ?b then _ else _) => destruct b
              end
            | apply such_bind;
              [ first [ apply safe_click_untouched
                      | frame untouched_refl untouched_trans untouched_leaf ]
              | intro ] ]).

(** A flow of the common shape whose [try] block records results that
    satisfy [Q]: the result it records is the one of the [try] block, or,
    when the block raised, the failed one carrying the message. *)
Lemma guarded_such (Q : FlowResult.t -> Prop) name header error_shot body :
  records_such Q name body ->
  forall s,
    let s0 := snd (print (nl ++ header)%string s) in
    match guarded name header error_shot body s with
    | (Ok _, s') =>
        exists r,
          calls s' = calls s ++ [(name, r)]
          /\ ((body s0 = (Ok tt, s') /\ Q r)
              \/ (exists e0 s1, body s0 = (Raise e0, s1) /\ r = FlowResult.mk false e0))
    | (Raise _, s') => untouched s s'
    end.
Proof.
  intros Hbody s. cbv zeta. unfold guarded, bind at 1. simpl.
  set (s0 := mkState _ _ _ _ _ _ _ _).
  specialize (Hbody s0). unfold try_except.
  destruct (body s0) as [[[]|e0] s1].
  - destruct Hbody as (r & HQ & H1 & H2 & H3). exists r. split; [exact H1|]. now left.
  - unfold bind.
    pose proof (perform_untouched
                  (Screenshot (path_join SCREENSHOT_DIR (error_shot ++ ".png")%string)) s1)
      as Hshot.
    unfold screenshot, page_screenshot.
    destruct (perform (Screenshot _) s1) as [[[]|e] s2] eqn:E; simpl in Hshot.
    + exists (FlowResult.mk false e0). simpl.
      destruct Hbody as (Hr & Hc & Hj). destruct Hshot as (Hr' & Hc' & Hj').
      rewrite Hc', Hc. split; [reflexivity|]. right. now exists e0, s1.
    + eapply untouched_trans; [|exact Hshot].
      eapply untouched_trans; [|exact Hbody]. now repeat split.
Qed.

Lemma flow_admin_panel_try_passes :
  records_such (fun r => FlowResult.passed r = true) "admin_panel" flow_admin_panel_try.
Proof. unfold flow_admin_panel_try. one_record_such. Qed.

Lemma flow_chat_send_try_detail :
  records_such
    (fun r => FlowResult.passed r = true
              -> FlowResult.detail r = "Message typed and send attempted"%string)
    "chat_send" flow_chat_send_try.
Proof. unfold flow_chat_send_try. one_record_such. Qed.

(** *** Flow 5: the admin panel *)

(** C5.  Flow 5, from any state, [s0] being the state after its header
    line.  When the "Admin" control is absent ([safe_click] returns
    [False]) and the screenshot is taken, it records
    [passed = True] with a detail containing "not visible".  When the
    control was clicked and the page then read contains one of the
    settings keywords, it records [passed = True], "Admin panel loaded
    with settings content".  A result with [passed = False] is recorded
    exactly when the [try] block raised an exception, and it carries the
    message. *)
Theorem admin_panel_outcomes (s : State) :
  let s0 := snd (print (nl ++ "--- Flow 5: Admin Panel Access ---")%string s) in
  (forall s1 s2,
      safe_click (button "Admin") 5000 s0 = (Ok false, s1) ->
      screenshot "05_admin_not_visible" s1 = (Ok tt, s2) ->
      exists d s',
        flow_admin_panel s = (Ok tt, s')
        /\ calls s' = calls s ++ [("admin_panel"%string, FlowResult.mk true d)]
        /\ contains "not visible" d = true)
  /\ (forall s1 s2 page,
         safe_click (button "Admin") 5000 s0 = (Ok true, s1) ->
         (wait_for_load_state "networkidle" ;;
          wait_for_timeout 1000 ;;
          screenshot "05_admin_panel" ;;
          page_content) s1 = (Ok page, s2) ->
         any_in admin_keywords (lower page) = true ->
         exists s',
           flow_admin_panel s = (Ok tt, s')
           /\ calls s' = calls s ++ [("admin_panel"%string,
                                      FlowResult.mk true
                                        "Admin panel loaded with settings content")])
  /\ match flow_admin_panel s with
     | (Ok _, s') =>
         exists r,
           calls s' = calls s ++ [("admin_panel"%string, r)]
           /\ (FlowResult.passed r = false
               <-> exists e0 s1, flow_admin_panel_try s0 = (Raise e0, s1))
           /\ (forall e0 s1, flow_admin_panel_try s0 = (Raise e0, s1) ->
               r = FlowResult.mk false e0)
     | (Raise _, s') => calls s' = calls s /\ results s' = results s
     end.
Proof.
  cbv zeta. split; [|split].
  - intros s1 s2 Hclick Hshot.
    pose proof (safe_click_untouched
                  (button "Admin") 5000
                  (snd (print (nl ++ "--- Flow 5: Admin Panel Access ---")%string s)))
      as (_ & U1 & _).
    rewrite Hclick in U1.
    pose proof (screenshot_untouched "05_admin_not_visible" s1) as (_ & U2 & _).
    rewrite Hshot in U2. simpl in U1, U2.
    unfold flow_admin_panel, bind at 1, try_except, flow_admin_panel_try. simpl.
    unfold bind at 1. simpl in Hclick. rewrite Hclick. simpl.
    unfold bind. rewrite Hshot. simpl.
    eexists. eexists. split; [reflexivity|]. simpl. rewrite U2, U1.
    split; reflexivity.
  - intros s1 s2 page Hclick Hpage Hkw.
    pose proof (safe_click_untouched
                  (button "Admin") 5000
                  (snd (print (nl ++ "--- Flow 5: Admin Panel Access ---")%string s)))
      as (_ & U1 & _).
    rewrite Hclick in U1.
    assert (U2 : keeps untouched
                   (wait_for_load_state "networkidle" ;;
                    wait_for_timeout 1000 ;;
                    screenshot "05_admin_panel" ;;
                    page_content))
      by frame untouched_refl untouched_trans untouched_leaf.
    specialize (U2 s1). destruct U2 as (_ & U2 & _). rewrite Hpage in U2.
    simpl in U1, U2.
    unfold flow_admin_panel, bind at 1, try_except, flow_admin_panel_try. simpl.
    unfold bind at 1. simpl in Hclick. rewrite Hclick. simpl.
    unfold content_lower. unfold bind in *.
    destruct (wait_for_load_state "networkidle" s1) as [[[]|e] t1]; [|discriminate].
    destruct (wait_for_timeout 1000 t1) as [[[]|e] t2]; [|discriminate].
    destruct (screenshot "05_admin_panel" t2) as [[[]|e] t3]; [|discriminate].
    rewrite Hpage. unfold ret. rewrite Hkw. simpl.
    eexists. split; [reflexivity|]. simpl. now rewrite U2, U1.
  - pose proof (guarded_such _ _ "--- Flow 5: Admin Panel Access ---" "05_admin_error" _
                  flow_admin_panel_try_passes s) as H.
    cbv zeta in H. change (guarded _ _ _ _) with flow_admin_panel in H.
    destruct (flow_admin_panel s) as [[[]|e] s'].
    + destruct H as (r & Hc & Hcases). exists r. split; [exact Hc|].
      destruct Hcases as [[Hok Hpass]|(e0 & s1 & Hraise & Hr)].
      * split; [split|].
        -- intros Hf. congruence.
        -- intros (e0 & s1 & Hraise). rewrite Hok in Hraise. discriminate.
        -- intros e0 s1 Hraise. rewrite Hok in Hraise. discriminate.
      * split; [split|].
        -- intros _. now exists e0, s1.
        -- intros _. now subst.
        -- intros e1 s2 Hraise'. rewrite Hraise in Hraise'. inversion Hraise'. now subst.
    + destruct H as (Hr & Hc & _). now split.
Qed.

(** *** Flow 8: sending a chat message *)

(** Every [fill] is given [test_message]. *)
Definition fills_test_message (o : Op) : Prop :=
  forall sel value, o = Fill sel value -> value = test_message.

Ltac fill_side := intros ? ? E; first [ discriminate E | now inversion E ].

Lemma flow_chat_send_fills : keeps (issues fills_test_message) flow_chat_send.
Proof.
  unfold fills_test_message.
  frame (issues_refl fills_test_message) (issues_trans fills_test_message)
        ltac:(issues_leaf fill_side).
Qed.

(** *** The whole run *)

(** [summary.json] is as it was. *)
Definition summary_kept (s s' : State) : Prop := summary_json s' = summary_json s.

Lemma summary_kept_refl s : summary_kept s s.
Proof. reflexivity. Qed.

Lemma summary_kept_trans a b c : summary_kept a b -> summary_kept b c -> summary_kept a c.
Proof. unfold summary_kept. congruence. Qed.

Lemma perform_summary_kept o s : summary_kept s (snd (perform o s)).
Proof. apply perform_untouched. Qed.

Ltac summary_leaf :=
  first [ by_perform perform_summary_kept | in_script; reflexivity ].

Lemma before_session_untouched : keeps untouched before_session.
Proof. frame untouched_refl untouched_trans untouched_leaf. Qed.

Lemma launch_session_untouched : keeps untouched launch_session.
Proof. frame untouched_refl untouched_trans untouched_leaf. Qed.

Lemma browser_session_summary_kept : keeps summary_kept browser_session.
Proof. frame summary_kept_refl summary_kept_trans summary_leaf. Qed.

(** A run that returns has written [summary.json] from the registry and
    returns the code computed from the same counts; a run that raises
    has written nothing. *)
Lemma run_verification_outcome (s : State) :
  summary_json s = None ->
  match run_verification s with
  | (Ok code, s') =>
      exists doc elapsed,
        summary_json s' = Some doc
        /\ Summary.passed doc = count_passed (results s')
        /\ Summary.failed doc = count_failed (results s')
        /\ Summary.total doc = Summary.passed doc + Summary.failed doc
        /\ Summary.results doc = results s'
        /\ Summary.frontend_url doc = FRONTEND_URL
        /\ Summary.backend_url doc = BACKEND_URL
        /\ In (tally_line (Summary.passed doc) (Summary.total doc) (Summary.failed doc)
                 elapsed) (stdout s')
        /\ code = (if (Summary.failed doc =? 0)%nat then 0 else 1)
  | (Raise _, s') => summary_json s' = None
  end.
Proof.
  intros Hnone. rewrite run_verification_phases.
  destruct (before_session_returns s) as [start Hb].
  pose proof (before_session_untouched s) as (_ & _ & Hj1).
  rewrite Hb. set (s1 := snd (before_session s)) in *.
  unfold bind. pose proof (browser_session_summary_kept s1) as Hj2.
  destruct (browser_session s1) as [[[]|e] s2]; simpl in Hj2.
  - destruct (report_run start s2) as (s' & stamp & elapsed & Hrun & Hdoc & Hline & Hr' & _).
    rewrite Hrun. eexists. exists elapsed. rewrite Hr'.
    split; [exact Hdoc|]. simpl. repeat split; auto.
  - unfold summary_kept in Hj2. congruence.
Qed.

(** C2.  In every run that writes [summary.json], the document has
    [total = passed + failed] and as many entries in [results] as [total]:
    [results] is the registry, [passed] and [failed] count its entries that
    passed and that did not, and the tally line printed on the console
    carries the same three numbers. *)
Theorem summary_counts_add_up (w : W) (doc : Summary.t float) :
  summary_json (snd (run_verification (initial w))) = Some doc ->
  Summary.total doc = Summary.passed doc + Summary.failed doc
  /\ List.length (Summary.results doc) = Summary.total doc
  /\ Summary.passed doc = count_passed (Summary.results doc)
  /\ Summary.failed doc = count_failed (Summary.results doc)
  /\ Summary.results doc = results (snd (run_verification (initial w)))
  /\ exists elapsed,
       In (tally_line (Summary.passed doc) (Summary.total doc) (Summary.failed doc) elapsed)
          (stdout (snd (run_verification (initial w)))).
Proof.
  intros Hdoc.
  pose proof (run_verification_outcome (initial w) eq_refl) as H.
  destruct (run_verification (initial w)) as [[code|e] s']; simpl in *.
  - destruct H as (doc' & elapsed & Hd & Hp & Hf & Ht & Hres & _ & _ & Hline & _).
    rewrite Hd in Hdoc. inversion Hdoc; subst doc'.
    rewrite Hres. repeat split; auto.
    + rewrite Ht, Hp, Hf. symmetry. apply count_split.
    + now exists elapsed.
  - congruence.
Qed.

(** *** When the session cannot be launched *)

Definition not_on_page (o : Op) : Prop := is_page_call o = false.

(** Nothing is printed. *)
Definition silent (s s' : State) : Prop := stdout s' = stdout s.

Lemma silent_refl s : silent s s.
Proof. reflexivity. Qed.

Lemma silent_trans a b c : silent a b -> silent b c -> silent a c.
Proof. unfold silent. congruence. Qed.

Lemma perform_silent o s : silent s (snd (perform o s)).
Proof. unfold perform. now destruct (respond o (world s)) as [[v msgs] w']. Qed.

Ltac silent_leaf := first [ by_perform perform_silent | in_script; reflexivity ].

Lemma before_session_not_on_page : keeps (issues not_on_page) before_session.
Proof.
  frame (issues_refl not_on_page) (issues_trans not_on_page)
        ltac:(issues_leaf ltac:(reflexivity)).
Qed.

Lemma launch_session_not_on_page : keeps (issues not_on_page) launch_session.
Proof.
  frame (issues_refl not_on_page) (issues_trans not_on_page)
        ltac:(issues_leaf ltac:(reflexivity)).
Qed.

Lemma stop_playwright_not_on_page : keeps (issues not_on_page) stop_playwright.
Proof.
  frame (issues_refl not_on_page) (issues_trans not_on_page)
        ltac:(issues_leaf ltac:(reflexivity)).
Qed.

Lemma launch_session_silent : keeps silent launch_session.
Proof. frame silent_refl silent_trans silent_leaf. Qed.

Lemma stop_playwright_silent : keeps silent stop_playwright.
Proof. frame silent_refl silent_trans silent_leaf. Qed.

Lemma stop_playwright_untouched : keeps untouched stop_playwright.
Proof. frame untouched_refl untouched_trans untouched_leaf. Qed.

Lemma not_on_page_no_screenshot (ops : list Op) :
  Forall not_on_page ops -> existsb is_screenshot ops = false.
Proof.
  induction 1 as [|o ops Ho _ IH]; simpl; [reflexivity|].
  rewrite IH, orb_false_r. destruct o; try reflexivity. discriminate Ho.
Qed.

(** C4, as the code has it.  When launching the session raises (entering
    [sync_playwright()], [launch], [new_context] or [new_page]), the
    exception leaves [run_verification] and the process exits with code 1.
    No flow has run and no screenshot was attempted: the run made no call
    on a page, printed nothing after the preflight, recorded nothing and
    wrote no [summary.json]. *)
Theorem launch_failure_aborts (w : W) (e : exn) (s2 : State) :
  launch_session (snd (before_session (initial w))) = (Raise e, s2) ->
  let s' := snd (main (initial w)) in
  fst (main (initial w)) = 1
  /\ fst (run_verification (initial w)) = Raise e
  /\ Forall (fun o => is_page_call o = false) (trace s')
  /\ existsb is_screenshot (trace s') = false
  /\ stdout s' = stdout (snd (before_session (initial w)))
  /\ calls s' = []
  /\ results s' = []
  /\ summary_json s' = None.
Proof.
  intros Hlaunch. cbv zeta. unfold main. rewrite run_verification_phases.
  destruct (before_session_returns (initial w)) as [start Hb].
  pose proof (before_session_untouched (initial w)) as (Hr1 & Hc1 & Hj1).
  pose proof (before_session_not_on_page (initial w)) as (ops1 & Ht1 & Hf1).
  rewrite Hb. set (s1 := snd (before_session (initial w))) in *.
  pose proof (launch_session_untouched s1) as (Hr2 & Hc2 & Hj2).
  pose proof (launch_session_not_on_page s1) as (ops2 & Ht2 & Hf2).
  pose proof (launch_session_silent s1) as Hs2.
  rewrite Hlaunch in Hr2, Hc2, Hj2, Ht2, Hs2. simpl in Hr2, Hc2, Hj2, Ht2, Hs2.
  destruct (browser_session_launch_fails s1 e s2 Hlaunch) as (s' & Hrun & Hs').
  unfold bind. rewrite Hrun. simpl.
  assert (Htrace : Forall not_on_page (trace s')
                   /\ stdout s' = stdout s1 /\ untouched s1 s').
  { destruct Hs' as [->| ->].
    - rewrite Ht2, Ht1. simpl. repeat split; auto. now apply Forall_app.
    - pose proof (stop_playwright_not_on_page s2) as (ops3 & Ht3 & Hf3).
      pose proof (stop_playwright_silent s2) as Hs3.
      pose proof (stop_playwright_untouched s2) as (Hr3 & Hc3 & Hj3).
      rewrite Ht3, Ht2, Ht1. simpl. unfold silent in *.
      repeat split; try congruence. repeat (apply Forall_app; split); auto. }
  destruct Htrace as (Hpage & Hout & Hr & Hc & Hj).
  repeat split; auto.
  - now apply not_on_page_no_screenshot.
  - now rewrite Hc, Hc1.
  - now rewrite Hr, Hr1.
  - now rewrite Hj, Hj1.
Qed.

(** *** One result per flow, for the eight flows *)

(** [page.screenshot] succeeds whatever the state of the browser. *)
Definition screenshots_never_raise : Prop :=
  forall path w, fst (fst (respond (Screenshot path) w)) = Ok tt.

Lemma screenshot_cannot_raise name s e s' :
  screenshots_never_raise -> screenshot name s <> (Raise e, s').
Proof.
  intros Hnever H. unfold screenshot, page_screenshot, perform in H.
  specialize (Hnever (path_join SCREENSHOT_DIR (name ++ ".png")%string) (world s)).
  destruct (respond (Screenshot _) (world s)) as [[v msgs] w']. simpl in Hnever.
  inversion H. congruence.
Qed.

Lemma run_all_returns (fs : list (M unit)) : Forall returns fs -> returns (run_all fs).
Proof.
  induction 1 as [|f fs Hf Hfs IH]; [apply returns_ret|].
  destruct fs as [|g fs]; [exact Hf|].
  change (run_all (f :: g :: fs)) with (f ;; run_all (g :: fs)).
  apply returns_bind; [exact Hf | intros _; exact IH].
Qed.

Lemma flows_return_when_screenshots_do :
  screenshots_never_raise -> Forall returns (map flow_run flow_table).
Proof.
  intros Hnever. apply Forall_map.
  pose proof flow_table_boundary as B. rewrite Forall_forall in *.
  intros f Hf s. specialize (B f Hf s). cbv zeta in B.
  destruct (flow_run f s) as [[[]|e] s'].
  - now exists tt.
  - destruct B as (_ & e0 & s1 & _ & Hshot).
    now apply screenshot_cannot_raise in Hshot.
Qed.

Lemma run_flows_complete :
  screenshots_never_raise ->
  forall s,
  exists rs s',
    run_flows s = (Ok tt, s')
    /\ map fst rs = flow_names
    /\ calls s' = calls s ++ rs
    /\ results s' = replay rs (results s)
    /\ summary_json s' = summary_json s.
Proof.
  intros Hnever s.
  pose proof (run_all_returns _ (flows_return_when_screenshots_do Hnever) s) as [[] Hret].
  rewrite <- run_flows_run_all in Hret.
  pose proof (run_flows_seq s) as H. rewrite Hret in H.
  destruct H as (rs & H1 & H2 & H3 & H4).
  exists rs, (snd (run_flows s)). auto.
Qed.

(** C1, as the code has it.  For each of the eight flows, in any state
    ([s0] being the state after the flow's header line): a flow that
    returns has recorded exactly one result under its name, and when its
    [try] block raised, that result is the failed one carrying the
    message; a flow lets an exception out only when the screenshot of its
    [except] branch raises, and then it has recorded nothing.  For the
    eight flows in sequence: when they all return, the results recorded
    are one per flow, in order; when one lets an exception out, only flows
    before it have recorded, one result each.  When [page.screenshot]
    never raises, the eight flows all return. *)
Theorem flow_results_at_the_boundary :
  (forall f s,
      In f flow_table ->
      let s0 := snd (print (nl ++ flow_header f)%string s) in
      match flow_run f s with
      | (Ok _, s') =>
          exists r,
            calls s' = calls s ++ [(flow_name f, r)]
            /\ results s' = dict_set (flow_name f) r (results s)
            /\ (forall e0 s1, flow_try f s0 = (Raise e0, s1) -> r = FlowResult.mk false e0)
      | (Raise e, s') =>
          calls s' = calls s
          /\ results s' = results s
          /\ exists e0 s1, flow_try f s0 = (Raise e0, s1)
                           /\ screenshot (flow_error_shot f) s1 = (Raise e, s')
      end)
  /\ (forall s,
         match run_flows s with
         | (Ok _, s') =>
             exists rs, map fst rs = flow_names /\ calls s' = calls s ++ rs
         | (Raise _, s') =>
             exists k rs, k < 8
                          /\ map fst rs = firstn k flow_names
                          /\ calls s' = calls s ++ rs
         end)
  /\ (screenshots_never_raise ->
      forall s, exists rs s',
        run_flows s = (Ok tt, s')
        /\ map fst rs = flow_names
        /\ calls s' = calls s ++ rs).
Proof.
  split; [|split].
  - intros f s Hf. pose proof flow_table_boundary as B. rewrite Forall_forall in B.
    specialize (B f Hf s). cbv zeta in *.
    destruct (flow_run f s) as [[[]|e] s'].
    + destruct B as (r & H1 & H2 & _ & H4). now exists r.
    + destruct B as ((Hr & Hc & _) & Hraise). auto.
  - intros s. pose proof (run_flows_seq s) as H.
    destruct (run_flows s) as [[[]|e] s'].
    + destruct H as (rs & H1 & H2 & _). now exists rs.
    + destruct H as (k & rs & Hk & H1 & H2 & _). exists k, rs. auto.
  - intros Hnever s. destruct (run_flows_complete Hnever s) as (rs & s' & H1 & H2 & H3 & _).
    now exists rs, s'.
Qed.

(** *** A run whose session launches and whose flows all return *)

Lemma browser_close_untouched : keeps untouched browser_close.
Proof. frame untouched_refl untouched_trans untouched_leaf. Qed.

Lemma browser_session_prints_more : keeps prints_more browser_session.
Proof. frame prints_more_refl prints_more_trans prints_leaf. Qed.

Lemma flow_names_NoDup : NoDup flow_names.
Proof.
  unfold flow_names. simpl.
  repeat (constructor; [simpl; intuition discriminate|]). constructor.
Qed.

Lemma session_completes (s2 s3 : State) :
  launch_session s2 = (Ok tt, s3) ->
  screenshots_never_raise ->
  exists rs s4,
    browser_session s2 = (Ok tt, s4)
    /\ map fst rs = flow_names
    /\ calls s4 = calls s2 ++ rs
    /\ results s4 = replay rs (results s2)
    /\ summary_json s4 = summary_json s2
    /\ prints_more s2 s4.
Proof.
  intros Hlaunch Hnever.
  pose proof (launch_session_untouched s2) as (Hr & Hc & Hj).
  rewrite Hlaunch in Hr, Hc, Hj. simpl in Hr, Hc, Hj.
  destruct (run_flows_complete Hnever s3) as (rs & sf & Hrun & Hn & Hcalls & Hres & Hsum).
  pose proof (browser_close_untouched sf) as (Hr1 & Hc1 & Hj1).
  pose proof (stop_playwright_untouched (snd (browser_close sf))) as (Hr2 & Hc2 & Hj2).
  pose proof (browser_session_prints_more s2) as Hout.
  rewrite (browser_session_launched s2 s3 Hlaunch) in *.
  rewrite (guarded_flows_completed s3 sf Hrun) in *. simpl in *.
  exists rs. eexists. split; [reflexivity|].
  rewrite Hr2, Hc2, Hj2, Hr1, Hc1, Hj1, Hcalls, Hres, Hsum, Hr, Hc, Hj. auto.
Qed.

Lemma before_session_after_preflight (s : State) :
  before_session s
  = match up_to_preflight s with
    | (Ok start, s1) =>
        match preflight s1 with
        | (Ok _, s2) => (Ok start, s2)
        | (Raise e, s2) => (Raise e, s2)
        end
    | (Raise e, s1) => (Raise e, s1)
    end.
Proof.
  unfold before_session, up_to_preflight, bind.
  destruct (time_time s) as [[start|e] s1]; [|reflexivity].
  destruct (print_banner s1) as [[[]|e] s2]; reflexivity.
Qed.

Lemma up_to_preflight_returns : returns up_to_preflight.
Proof. unfold up_to_preflight, print_banner, time_time, now_iso. returning. Qed.


(** *** An exception that leaves a flow *)

Lemma NoDup_firstn_of {A} (k : nat) (l : list A) : NoDup l -> NoDup (firstn k l).
Proof.
  intros H. rewrite <- (firstn_skipn k l) in H. now apply NoDup_app_remove_r in H.
Qed.

Lemma in_firstn_of {A} (k : nat) (l : list A) (x : A) : In x (firstn k l) -> In x l.
Proof.
  intros H. rewrite <- (firstn_skipn k l). apply in_or_app. now left.
Qed.

Definition fatal_line (e : exn) : string := (nl ++ "  FATAL ERROR: " ++ e)%string.

Lemma printed_untouched lines s : untouched s (printed lines s).
Proof. now repeat split. Qed.

(** The flows before the [k]-th returned and the [k]-th let an exception
    out, in a run from the initial state. *)
Lemma escape_skips_the_rest (w : W) (k : nat) (f : Flow) (start : float)
    (s1 s2 s_k : State) (e : exn) (s_e : State) :
  before_session (initial w) = (Ok start, s1) ->
  launch_session s1 = (Ok tt, s2) ->
  nth_error flow_table k = Some f ->
  run_all (map flow_run (firstn k flow_table)) s2 = (Ok tt, s_k) ->
  flow_run f s_k = (Raise e, s_e) ->
  run_flows s2 = (Raise e, s_e)
  /\ calls s_e = calls s_k
  /\ results s_e = results s_k
  /\ k < 8
  /\ map fst (calls s_e) = firstn k flow_names
  /\ keys (results s_e) = firstn k flow_names
  /\ (forall s_f,
         screenshot "fatal_error" (printed [fatal_line e] s_e) = (Ok tt, s_f) ->
         exists s' stamp elapsed errors,
           run_verification (initial w)
           = (Ok (if (count_failed (results s_e) =? 0)%nat then 0 else 1), s')
           /\ results s' = results s_e
           /\ summary_json s'
              = Some (Summary.mk stamp FRONTEND_URL BACKEND_URL k
                        (count_passed (results s_e)) (count_failed (results s_e))
                        elapsed (results s_e) errors))
  /\ (forall e' s_f,
         screenshot "fatal_error" (printed [fatal_line e] s_e) = (Raise e', s_f) ->
         fst (run_verification (initial w)) = Raise e'
         /\ summary_json (snd (run_verification (initial w))) = None).
Proof.
  intros Hb Hlaunch Hnth Hpre Hraise.
  pose proof (before_session_untouched (initial w)) as (Hr1 & Hc1 & Hj1).
  rewrite Hb in Hr1, Hc1, Hj1. simpl in Hr1, Hc1, Hj1.
  pose proof (launch_session_untouched s1) as (Hr2 & Hc2 & Hj2).
  rewrite Hlaunch in Hr2, Hc2, Hj2. simpl in Hr2, Hc2, Hj2.
  assert (Hk : k < 8).
  { change 8 with (List.length flow_table). apply nth_error_Some. congruence. }
  assert (Hstop : run_flows s2 = (Raise e, s_e)).
  { rewrite run_flows_run_all.
    apply (run_all_stops (map flow_run flow_table) k (flow_run f) s2 s_k e s_e).
    - now rewrite nth_error_map, Hnth.
    - now rewrite firstn_map.
    - exact Hraise. }
  assert (Hnone : untouched s_k s_e).
  { pose proof flow_table_runs_once as O. rewrite Forall_forall in O.
    specialize (O f (nth_error_In _ _ Hnth) s_k). now rewrite Hraise in O. }
  destruct Hnone as (Hr3 & Hc3 & Hj3).
  assert (Hseq : exists rs, map fst rs = firstn k flow_names
                            /\ calls s_k = rs /\ results s_k = rs
                            /\ summary_json s_k = None).
  { assert (O : Forall (fun f => records_once (flow_name f) (flow_run f))
                  (firstn k flow_table)).
    { pose proof flow_table_runs_once as O. rewrite Forall_forall in *.
      intros g Hg. apply O. eapply in_firstn_of; eauto. }
    pose proof (run_all_seq _ O s2) as H. rewrite Hpre in H.
    destruct H as (rs & E1 & E2 & E3 & E4). exists rs.
    rewrite <- firstn_map in E1. fold flow_names in E1.
    rewrite Hc2, Hc1 in E2. rewrite Hr2, Hr1 in E3. rewrite Hj2, Hj1 in E4.
    simpl in E2, E3, E4. rewrite replay_fresh in E3; simpl; auto.
    rewrite E1. apply NoDup_firstn_of, flow_names_NoDup. }
  destruct Hseq as (rs & Hn & Hcalls & Hres & Hsum).
  repeat (split; [first [assumption | congruence]|]).
  split; [|split].
  - unfold keys. congruence.
  - intros s_f Hshot.
    pose proof (guarded_flows_fatal s2 e s_e Hstop) as Hg. cbv zeta in Hg.
    fold (fatal_line e) in Hg. rewrite Hshot in Hg. simpl in Hg.
    pose proof (browser_session_launched s1 s2 Hlaunch) as Hsess.
    rewrite Hg in Hsess. simpl in Hsess.
    pose proof (screenshot_untouched "fatal_error" (printed [fatal_line e] s_e))
      as (Hr4 & Hc4 & Hj4).
    rewrite Hshot in Hr4, Hc4, Hj4. simpl in Hr4, Hc4, Hj4.
    pose proof (browser_close_untouched s_f) as (Hr5 & Hc5 & Hj5).
    pose proof (stop_playwright_untouched (snd (browser_close s_f))) as (Hr6 & Hc6 & Hj6).
    set (s_end := snd (stop_playwright (snd (browser_close s_f)))) in *.
    assert (Hrend : results s_end = results s_e) by congruence.
    rewrite run_verification_phases, Hb. unfold bind. rewrite Hsess.
    destruct (report_run start s_end)
      as (s' & stamp & elapsed & Hrun & Hdoc & _ & Hr' & _).
    rewrite Hrun, Hrend. exists s', stamp, (round2 elapsed). eexists.
    split; [reflexivity|]. split; [congruence|].
    rewrite Hdoc, Hrend. repeat f_equal.
    rewrite count_split, Hr3, Hres, <- (length_map fst), Hn, length_firstn.
    change (List.length flow_names) with 8. lia.
  - intros e' s_f Hshot.
    pose proof (guarded_flows_fatal s2 e s_e Hstop) as Hg. cbv zeta in Hg.
    fold (fatal_line e) in Hg. rewrite Hshot in Hg. simpl in Hg.
    pose proof (browser_session_launched s1 s2 Hlaunch) as Hsess.
    rewrite Hg in Hsess. simpl in Hsess.
    pose proof (run_verification_outcome (initial w) eq_refl) as Hout.
    rewrite run_verification_phases, Hb in *. unfold bind in *.
    rewrite Hsess in *. simpl. split; [reflexivity | exact Hout].
Qed.

(** *** The exit code *)

Lemma count_failed_pos (d : registry) :
  0 < count_failed d <-> Exists (fun kv => FlowResult.passed (snd kv) = false) d.
Proof.
  unfold count_failed. induction d as [|[k v] d IH]; simpl.
  - split; [lia | intros H; inversion H].
  - destruct (FlowResult.passed v) eqn:E; simpl.
    + rewrite IH. split; intros H; [now right|].
      inversion H; subst; [simpl in *; congruence | assumption].
    + split; intros _; [now left | lia].
Qed.

(** C3, as the code has it.  In a run from a fresh interpreter whose
    session launched, [s2] being the state in which the [try] block of
    the runner starts.  The exit code is 0 or 1.  The [with] block is
    left without an exception exactly when the flows returned, or an
    exception left a flow and the runner's "fatal_error" screenshot
    succeeded.  In such a run [run_verification] reaches the tally and
    returns the code it computes from [failed], the number of recorded
    results that did not pass: the code is 0 exactly when [failed = 0],
    that is when every recorded flow passed, and 1 exactly when some
    recorded flow failed; [summary.json] is written with the same count.
    When the "fatal_error" screenshot raises, the exception leaves
    [run_verification]: no count is computed, nothing is written, and
    the exit code is 1 whatever was recorded. *)
Theorem exit_code_zero_iff_no_failure (w : W) (s2 : State) :
  launch_session (snd (before_session (initial w))) = (Ok tt, s2) ->
  let code := fst (main (initial w)) in
  let s' := snd (main (initial w)) in
  let failed := count_failed (results s') in
  (code = 0 \/ code = 1)
  /\ results s' = results (snd (guarded_flows s2))
  /\ (fst (guarded_flows s2) = Ok tt
      <-> fst (run_flows s2) = Ok tt
          \/ exists e s3,
               run_flows s2 = (Raise e, s3)
               /\ fst (screenshot "fatal_error" (printed [fatal_line e] s3)) = Ok tt)
  /\ (fst (guarded_flows s2) = Ok tt ->
      fst (run_verification (initial w)) = Ok (if (failed =? 0)%nat then 0 else 1)
      /\ (code = 0 <-> failed = 0)
      /\ (code = 0 <-> Forall (fun kv => FlowResult.passed (snd kv) = true) (results s'))
      /\ (code = 1 <-> 0 < failed)
      /\ (code = 1 <-> Exists (fun kv => FlowResult.passed (snd kv) = false) (results s'))
      /\ exists doc,
           summary_json s' = Some doc
           /\ Summary.failed doc = failed
           /\ Summary.results doc = results s')
  /\ (forall e,
         fst (guarded_flows s2) = Raise e ->
         fst (run_verification (initial w)) = Raise e
         /\ code = 1
         /\ summary_json s' = None).
Proof.
  intros Hl. cbv zeta.
  assert (Hchar : fst (guarded_flows s2) = Ok tt
                  <-> fst (run_flows s2) = Ok tt
                      \/ exists e s3,
                           run_flows s2 = (Raise e, s3)
                           /\ fst (screenshot "fatal_error" (printed [fatal_line e] s3))
                              = Ok tt).
  { destruct (run_flows s2) as [[[]|e] s3] eqn:Er.
    - rewrite (guarded_flows_completed s2 s3 Er). simpl. split; [now left | reflexivity].
    - pose proof (guarded_flows_fatal s2 e s3 Er) as Hg. cbv zeta in Hg.
      fold (fatal_line e) in Hg. rewrite Hg. simpl. split.
      + intros H. right. now exists e, s3.
      + intros [H|(e' & s3' & H & Hshot)]; [discriminate H|].
        inversion H; subst. exact Hshot. }
  unfold main. rewrite run_verification_phases.
  destruct (before_session_returns (initial w)) as [start Hb].
  rewrite Hb in *. cbn [snd] in Hl. unfold bind.
  rewrite (browser_session_launched _ _ Hl).
  pose proof (run_verification_outcome (initial w) eq_refl) as Hout.
  rewrite run_verification_phases, Hb in Hout. unfold bind in Hout.
  rewrite (browser_session_launched _ _ Hl) in Hout.
  destruct (guarded_flows s2) as [[[]|e] s3]; cbn [fst snd] in *.
  - clear Hout. pose proof (stop_playwright_untouched s3) as (Hr & _).
    destruct (report_run start (snd (stop_playwright s3)))
      as (s' & stamp & elapsed & Hrun & Hdoc & _ & Hr' & _).
    rewrite Hrun. cbn [fst snd]. rewrite Hr', Hr.
    set (failed := count_failed (results s3)).
    assert (Hcode : (if (failed =? 0)%nat then 0 else 1) = 0 <-> failed = 0)
      by (destruct failed; simpl; split; congruence).
    assert (Hone : (if (failed =? 0)%nat then 0 else 1) = 1 <-> 0 < failed)
      by (destruct failed; simpl; split; first [congruence | lia]).
    split; [destruct (failed =? 0)%nat; auto|].
    split; [reflexivity|]. split; [exact Hchar|]. split.
    + intros _. split; [reflexivity|]. split; [exact Hcode|].
      split; [rewrite Hcode; apply count_failed_zero|].
      split; [exact Hone|].
      split; [rewrite Hone; apply count_failed_pos|].
      eexists. split; [exact Hdoc|]. rewrite Hr. split; reflexivity.
    + intros e He. discriminate He.
  - pose proof (stop_playwright_untouched s3) as (Hr & _ & Hj).
    split; [now right|]. split; [exact Hr|]. split; [exact Hchar|]. split.
    + intros He. discriminate He.
    + intros e' He. inversion He; subst. repeat split. exact Hout.
Qed.

(** ** More of the harness *)

(** *** Teardown *)

Definition on_page (o : Op) : Prop := is_page_call o = true.

Lemma flows_and_fatal_on_page :
  keeps (issues on_page)
    (try_except run_flows
       (fun exc =>
          print (nl ++ "  FATAL ERROR: " ++ exc)%string ;;
          screenshot "fatal_error")).
Proof.
  frame (issues_refl on_page) (issues_trans on_page)
        ltac:(issues_leaf ltac:(reflexivity)).
Qed.

(** X1.  Leaving the [with] block and the [finally] clause.  Once the page is
    open, whatever the flows do (return, fail or raise, the runner's own
    screenshot included), [browser.close()] is called exactly once, after
    the last call on the page, and [sync_playwright()] is left right after
    it.  If entering [sync_playwright()] succeeded but the page could not
    be opened, the block is still left, without [browser.close()].  If
    entering raised, nothing else is called. *)
Theorem session_teardown (s : State) :
  (forall s2,
      launch_session s = (Ok tt, s2) ->
      exists ops,
        trace (snd (browser_session s)) = trace s2 ++ ops ++ [BrowserClose; StopPlaywright]
        /\ Forall (fun o => is_page_call o = true) ops)
  /\ (forall s1 e s2,
         start_playwright s = (Ok tt, s1) ->
         open_page s1 = (Raise e, s2) ->
         browser_session s = (Raise e, snd (stop_playwright s2))
         /\ exists ops,
              trace (snd (browser_session s)) = trace s ++ ops ++ [StopPlaywright]
              /\ ~ In BrowserClose ops)
  /\ (forall e s1,
         start_playwright s = (Raise e, s1) ->
         browser_session s = (Raise e, s1) /\ trace s1 = trace s ++ [StartPlaywright]).
Proof.
  split; [|split].
  - intros s2 Hlaunch.
    rewrite (browser_session_launched s s2 Hlaunch). simpl.
    unfold guarded_flows, try_finally.
    pose proof (flows_and_fatal_on_page s2) as (ops & Ht & Hops).
    destruct (try_except run_flows _ s2) as [r s3]. simpl in Ht.
    unfold browser_close, stop_playwright, total_call.
    pose proof (perform_trace BrowserClose s3) as T1.
    destruct (perform BrowserClose s3) as [[] s4]. simpl in T1. simpl.
    pose proof (perform_trace StopPlaywright s4) as T2.
    destruct (perform StopPlaywright s4) as [[] s5]. simpl in T2. simpl.
    exists ops. split; [|exact Hops].
    rewrite T2, T1, Ht, <- !app_assoc. reflexivity.
  - intros s1 e s2 Hstart Hopen.
    assert (Hrun : browser_session s = (Raise e, snd (stop_playwright s2))).
    { unfold browser_session, bind, try_finally. rewrite Hstart. unfold bind.
      rewrite Hopen.
      pose proof (returns_total_call _ (perform StopPlaywright) s2) as [[] Hs].
      fold stop_playwright in Hs. now rewrite Hs. }
    rewrite Hrun. simpl. split; [reflexivity|].
    assert (T : trace (snd (stop_playwright s2)) = trace s2 ++ [StopPlaywright]).
    { unfold stop_playwright, total_call.
      pose proof (perform_trace StopPlaywright s2) as T.
      now destruct (perform StopPlaywright s2) as [[] s3]. }
    assert (Hn : keeps (issues (fun o => o <> BrowserClose)) open_page).
    { frame (issues_refl (fun o => o <> BrowserClose))
            (issues_trans (fun o => o <> BrowserClose))
            ltac:(issues_leaf ltac:(discriminate)). }
    specialize (Hn s1). rewrite Hopen in Hn. destruct Hn as (ops & Ht & Hops).
    pose proof (perform_trace StartPlaywright s) as T0.
    unfold start_playwright in Hstart. rewrite Hstart in T0. simpl in T0, Ht.
    exists (StartPlaywright :: ops). split.
    + rewrite T, Ht, T0, <- !app_assoc. reflexivity.
    + intros [H|H]; [discriminate|].
      rewrite Forall_forall in Hops. now apply (Hops _ H).
  - intros e s1 Hstart. split.
    + unfold browser_session, bind. now rewrite Hstart.
    + pose proof (perform_trace StartPlaywright s) as T0.
      unfold start_playwright in Hstart. now rewrite Hstart in T0.
Qed.

(** *** Running a block step by step *)

(** Use what is known of the calls of a block, in order: an equation for
    the next call rewrites it; a hypothesis that runs the same call is
    split on its outcome. *)
Ltac exec :=
  unfold bind, ret in *;
  repeat (cbv beta iota zeta; cbn [negb];
          match goal with
          | H : ?m ?s = (_, _) |- context [match ?m ?s with _ => _ end] => rewrite H
          | H : context [match ?m ?s with _ => _ end]
            |- context [match ?m ?s with _ => _ end] =>
              destruct (m s) as [[?|?] ?]; [|discriminate H]
          end).

(** *** Flow 4: the five sub-tabs *)

Lemma visit_sub_tab_run label slug n s :
  exists m s',
    visit_sub_tab label slug n s = (Ok m, s')
    /\ (m = n \/ m = n + 1)
    /\ (m = n + 1
        <-> exists s1 s2 s3 s4,
             is_visible (button label) 3000 s = (Ok true, s1)
             /\ click (button label) s1 = (Ok tt, s2)
             /\ wait_for_timeout 800 s2 = (Ok tt, s3)
             /\ screenshot ("04_ops_" ++ slug)%string s3 = (Ok tt, s4)).
Proof.
  unfold visit_sub_tab, try_except, bind, ret.
  destruct (is_visible (button label) 3000 s) as [[[|]|e] s1] eqn:E1; cbv beta iota.
  - destruct (click (button label) s1) as [[[]|e] s2] eqn:E2; cbv beta iota.
    + destruct (wait_for_timeout 800 s2) as [[[]|e] s3] eqn:E3; cbv beta iota.
      * destruct (screenshot ("04_ops_" ++ slug)%string s3) as [[[]|e] s4] eqn:E4;
          cbv beta iota.
        -- eexists (n + 1), _. split; [reflexivity|]. split; [now right|].
           split; [|reflexivity]. intros _. now exists s1, s2, s3, s4.
        -- eexists n, _. split; [reflexivity|]. split; [now left|].
           split; [lia|]. intros (t1 & t2 & t3 & t4 & H1 & H2 & H3 & H4).
           inversion H1; subst. rewrite E2 in H2. inversion H2; subst.
           rewrite E3 in H3. inversion H3; subst. rewrite E4 in H4. discriminate.
      * eexists n, _. split; [reflexivity|]. split; [now left|].
        split; [lia|]. intros (t1 & t2 & t3 & t4 & H1 & H2 & H3 & H4).
        inversion H1; subst. rewrite E2 in H2. inversion H2; subst.
        rewrite E3 in H3. discriminate.
    + eexists n, _. split; [reflexivity|]. split; [now left|].
      split; [lia|]. intros (t1 & t2 & t3 & t4 & H1 & H2 & H3 & H4).
      inversion H1; subst. rewrite E2 in H2. discriminate.
  - eexists n, _. split; [reflexivity|]. split; [now left|].
    split; [lia|]. intros (t1 & t2 & t3 & t4 & H1 & _). discriminate.
  - eexists n, _. split; [reflexivity|]. split; [now left|].
    split; [lia|]. intros (t1 & t2 & t3 & t4 & H1 & _). discriminate.
Qed.

Lemma visit_sub_tabs_run tabs n s :
  exists m s',
    visit_sub_tabs tabs n s = (Ok m, s')
    /\ n <= m <= n + List.length tabs
    /\ untouched s s'.
Proof.
  revert n s. induction tabs as [|[label slug] tabs IH]; intros n s.
  - exists n, s. simpl. split; [reflexivity|]. split; [lia | apply untouched_refl].
  - pose proof (visit_sub_tabs_untouched ((label, slug) :: tabs) n s) as U.
    cbn [visit_sub_tabs] in *. unfold bind in *.
    destruct (visit_sub_tab_run label slug n s) as (m1 & s1 & E1 & Hm1 & _).
    rewrite E1 in *.
    destruct (IH m1 s1) as (m & s' & E & Hm & _).
    exists m, s'. rewrite E in *. cbn [List.length]. split; [reflexivity|].
    split; [lia | exact U].
Qed.

(** X2.  One turn of the loop over the sub-tabs returns whatever the page does,
    with the count unchanged or one more; it is one more exactly when the
    tab button was visible and clicking it, waiting and taking the
    screenshot all succeeded.  The loop over any list of tabs returns, and
    adds at most one per tab.  Neither records a result. *)
Theorem sub_tab_visits_counted :
  (forall label slug n s,
      exists m s',
        visit_sub_tab label slug n s = (Ok m, s')
        /\ (m = n \/ m = n + 1)
        /\ (m = n + 1
            <-> exists s1 s2 s3 s4,
                 is_visible (button label) 3000 s = (Ok true, s1)
                 /\ click (button label) s1 = (Ok tt, s2)
                 /\ wait_for_timeout 800 s2 = (Ok tt, s3)
                 /\ screenshot ("04_ops_" ++ slug)%string s3 = (Ok tt, s4)))
  /\ (forall tabs n s,
         exists m s',
           visit_sub_tabs tabs n s = (Ok m, s')
           /\ n <= m <= n + List.length tabs
           /\ untouched s s').
Proof.
  split.
  - apply visit_sub_tab_run.
  - apply visit_sub_tabs_run.
Qed.

(** X3.  The verdict of flow 4.  Without the "Operations" button the [try]
    block records a failure, provided its screenshot is taken.  With the
    button clicked and the hub shown, [n] being the count the loop over
    the sub-tabs returns: [n] is at most 5, the result recorded passes
    exactly when [n] is positive, and the detail is "All 5 sub-tabs
    accessible" for 5, "[n]/5 sub-tabs accessible (partial)" for 1 to 4,
    "No sub-tabs found" for 0. *)
Theorem operations_hub_verdict (s : State) :
  (forall s1 s2,
      safe_click (button "Operations") TIMEOUT_MS s = (Ok false, s1) ->
      screenshot "04_ops_not_found" s1 = (Ok tt, s2) ->
      flow_operations_hub_try s
      = record "operations_hub" false "Operations button not found in nav" s2)
  /\ (forall s1 s2 n s3,
         safe_click (button "Operations") TIMEOUT_MS s = (Ok true, s1) ->
         (wait_for_load_state "networkidle" ;;
          wait_for_timeout 1000 ;;
          screenshot "04_operations_hub") s1 = (Ok tt, s2) ->
         visit_sub_tabs sub_tabs 0 s2 = (Ok n, s3) ->
         n <= 5
         /\ exists detail,
             flow_operations_hub_try s = record "operations_hub" (0 <? n)%nat detail s3
             /\ (n = 5 -> detail = "All 5 sub-tabs accessible"%string)
             /\ (0 < n < 5 ->
                 detail = (str_nat n ++ "/5 sub-tabs accessible (partial)")%string)
             /\ (n = 0 -> detail = "No sub-tabs found"%string)).
Proof.
  split.
  - intros s1 s2 Hclick Hshot. unfold flow_operations_hub_try. exec. reflexivity.
  - intros s1 s2 n s3 Hclick Hhub Htabs.
    destruct (visit_sub_tabs_run sub_tabs 0 s2) as (m & s' & E & Hm & _).
    rewrite Htabs in E. inversion E; subst m s'. cbn [List.length sub_tabs] in Hm.
    split; [lia|].
    unfold flow_operations_hub_try. exec.
    destruct (Nat.eqb_spec n 5) as [->|Hne].
    + eexists. split; [reflexivity|]. repeat split; intros; first [reflexivity | lia].
    + destruct (Nat.ltb_spec 0 n) as [Hpos|Hzero].
      * eexists. split; [reflexivity|]. repeat split; intros; first [reflexivity | lia].
      * eexists. split; [reflexivity|]. repeat split; intros; first [reflexivity | lia].
Qed.

(** *** Flows 6 and 7: a missing control is a failure *)

(** X4.  Flows 6 and 7 treat their navigation control alike, and unlike flow 5:
    when the control is absent ([safe_click] returns [False]) and the
    screenshot is taken, the [try] block records a failure naming the
    control; when it was clicked and the page could be read, the block
    records a pass whatever the page contains (the keywords only choose
    the detail). *)
Theorem agent_center_and_knowledge_base_verdicts (s : State) :
  (forall s1 s2,
      safe_click (button "Agent Center") TIMEOUT_MS s = (Ok false, s1) ->
      screenshot "06_agent_center_not_found" s1 = (Ok tt, s2) ->
      flow_agent_center_try s
      = record "agent_center" false "Agent Center button not found" s2)
  /\ (forall s1 page s2,
         safe_click (button "Agent Center") TIMEOUT_MS s = (Ok true, s1) ->
         (wait_for_load_state "networkidle" ;;
          wait_for_timeout 1500 ;;
          screenshot "06_agent_center" ;;
          page_content) s1 = (Ok page, s2) ->
         exists detail, flow_agent_center_try s = record "agent_center" true detail s2)
  /\ (forall s1 s2,
         safe_click (button "Knowledge Base") TIMEOUT_MS s = (Ok false, s1) ->
         screenshot "07_kb_not_found" s1 = (Ok tt, s2) ->
         flow_knowledge_base_try s
         = record "knowledge_base" false "Knowledge Base button not found" s2)
  /\ (forall s1 page s2,
         safe_click (button "Knowledge Base") TIMEOUT_MS s = (Ok true, s1) ->
         (wait_for_load_state "networkidle" ;;
          wait_for_timeout 1500 ;;
          screenshot "07_knowledge_base" ;;
          page_content) s1 = (Ok page, s2) ->
         exists detail, flow_knowledge_base_try s = record "knowledge_base" true detail s2).
Proof.
  repeat split.
  - intros s1 s2 Hclick Hshot. unfold flow_agent_center_try. exec. reflexivity.
  - intros s1 page s2 Hclick Hpage. unfold flow_agent_center_try, content_lower. exec.
    match goal with |- context [if ?b then _ else _] => destruct b end;
      eexists; reflexivity.
  - intros s1 s2 Hclick Hshot. unfold flow_knowledge_base_try. exec. reflexivity.
  - intros s1 page s2 Hclick Hpage. unfold flow_knowledge_base_try, content_lower. exec.
    match goal with |- context [if ?b then _ else _] => destruct b end;
      eexists; reflexivity.
Qed.

(** *** Keywords are matched whatever their case *)

Lemma prefix_lower (a b : string) :
  prefix a b = true -> prefix (lower a) (lower b) = true.
Proof.
  revert b. induction a as [|c a IH]; intros b.
  - now destruct b.
  - destruct b as [|d b]; simpl; [discriminate|].
    destruct (ascii_dec c d) as [->|Hne]; [|discriminate].
    intros H. destruct (ascii_dec (lower_ascii d) (lower_ascii d)) as [_|Hn]; [|congruence].
    now apply IH.
Qed.

Lemma contains_lower (a b : string) :
  contains a b = true -> contains (lower a) (lower b) = true.
Proof.
  induction b as [|d b IH]; cbn [contains lower].
  - destruct (prefix a EmptyString) eqn:E; [|discriminate].
    intros _. apply prefix_lower in E. cbn [lower] in E. now rewrite E.
  - destruct (prefix a (String d b)) eqn:E.
    + intros _. apply prefix_lower in E. cbn [lower] in E. now rewrite E.
    + intros H. rewrite (IH H).
      now destruct (prefix (lower a) (String (lower_ascii d) (lower b))).
Qed.

Lemma any_in_found (kws : list string) (kw content : string) :
  In kw kws -> contains kw content = true -> any_in kws content = true.
Proof.
  intros Hin Hc. unfold any_in. apply existsb_exists. now exists kw.
Qed.

(** *** Flow 2: the dashboard *)

Definition dashboard_keywords : list string :=
  ["customer"; "health"; "portfolio"; "arr"; "revenue"; "score"]%string.

(** X5.  The verdict of flow 2 is read off the page alone.  Whether or not the
    "Dashboard" button could be clicked, once the page has settled, the
    screenshot is taken and the page is read, the [try] block records a
    pass exactly when the lower-cased page contains one of the six
    keywords; so a page containing a word that lower-cases to a keyword
    ("Customer", "ARR") passes. *)
Theorem dashboard_verdict (s : State) (clicked : bool) (s1 : State) (page : string)
    (s2 : State) :
  safe_click (button "Dashboard") 5000 s = (Ok clicked, s1) ->
  (wait_for_load_state "networkidle" ;;
   wait_for_timeout 1500 ;;
   screenshot "02_dashboard" ;;
   page_content) s1 = (Ok page, s2) ->
  (exists detail,
      flow_dashboard_loads_try s
      = record "dashboard_loads" (any_in dashboard_keywords (lower page)) detail s2)
  /\ (forall word,
         In (lower word) dashboard_keywords ->
         contains word page = true ->
         any_in dashboard_keywords (lower page) = true).
Proof.
  intros Hclick Hpage. split.
  - unfold flow_dashboard_loads_try, content_lower. exec.
    fold dashboard_keywords.
    destruct (any_in dashboard_keywords (lower page)); eexists; reflexivity.
  - intros word Hin Hc. eapply any_in_found; [exact Hin|]. now apply contains_lower.
Qed.

(** *** Calls and the trace *)

Lemma perform_step (o : Op) (s : State) (r : ret_ty float o) (s' : State) :
  perform o s = (r, s') -> trace s' = trace s ++ [o] /\ untouched s s'.
Proof.
  intros H. pose proof (perform_trace o s) as T. pose proof (perform_untouched o s) as U.
  rewrite H in T, U. now split.
Qed.

(** Turn the equations on calls into facts about the trace. *)
Ltac traced :=
  unfold_calls; unfold screenshot, page_screenshot in *;
  unfold time_time, now_iso, health_check, start_playwright, launch, new_context,
    new_page, page_goto, page_content, wait_for_load_state, wait_for_timeout,
    wait_for_visible, click, is_visible, fill, press in *;
  repeat match goal with
         | H : perform ?o ?s = (_, ?s') |- _ =>
             let T := fresh "T" in
             let U := fresh "U" in
             destruct (perform_step o s _ s' H) as (T & U); clear H
         end.

(** *** Flow 1: already past the login page *)

Definition demo_btn_selector : string :=
  (button "Demo Mode" ++ ", " ++ button "Continue without sign in")%string.

(** X6.  Flow 1 once the page is loaded and read, [content] being the
    lower-cased page: the test is ["dashboard" in content or ("cscx" in
    content and "customer" in content)].  When it holds, the block takes a
    screenshot and records the bypass, and makes no call on the Demo Mode
    button.  When it does not hold (for instance "cscx" without
    "customer"), the block goes on to wait for the button. *)
Theorem demo_login_bypass (s s1 s2 : State) (page : string) (s3 : State) :
  page_goto FRONTEND_URL "networkidle" TIMEOUT_MS s = (Ok tt, s1) ->
  screenshot "01_initial_load" s1 = (Ok tt, s2) ->
  page_content s2 = (Ok page, s3) ->
  let content := lower page in
  let past_login :=
    contains "dashboard" content
    || (contains "cscx" content && contains "customer" content) in
  (past_login = true ->
   flow_demo_login_try s
   = (screenshot "01_already_logged_in" ;;
      record "demo_login" true
        "Bypassed login (Supabase not configured or already in demo)") s3
   /\ exists shot,
       trace (snd (flow_demo_login_try s))
       = trace s ++ [Goto FRONTEND_URL "networkidle" TIMEOUT_MS;
                     Screenshot (path_join SCREENSHOT_DIR "01_initial_load.png");
                     Content; shot]
       /\ is_screenshot shot = true)
  /\ (past_login = false ->
      flow_demo_login_try s
      = (wait_for_visible demo_btn_selector TIMEOUT_MS ;;
         click demo_btn_selector ;;
         wait_for_load_state "networkidle" ;;
         wait_for_timeout 2000 ;;
         screenshot "01_after_demo_login" ;;
         record "demo_login" true EmptyString) s3).
Proof.
  intros Hgoto Hshot Hpage. cbv zeta. split.
  - intros Hpast.
    assert (E : flow_demo_login_try s
                = (screenshot "01_already_logged_in" ;;
                   record "demo_login" true
                     "Bypassed login (Supabase not configured or already in demo)") s3).
    { unfold flow_demo_login_try, content_lower. exec. rewrite Hpast. reflexivity. }
    split; [exact E|]. rewrite E. unfold bind.
    destruct (screenshot "01_already_logged_in" s3) as [[[]|e] s4] eqn:E4.
    + simpl. traced. eexists. split.
      * rewrite T, T0, T1, T2, <- !app_assoc. reflexivity.
      * reflexivity.
    + simpl. traced. eexists. split.
      * rewrite T, T0, T1, T2, <- !app_assoc. reflexivity.
      * reflexivity.
  - intros Hpast. unfold flow_demo_login_try, content_lower, demo_btn_selector. exec.
    rewrite Hpast. reflexivity.
Qed.

(** *** Flow 3: a customer row, else a link *)

Definition customer_row_selector : string :=
  ("table tbody tr, "
   ++ "[class*=" ++ dq ++ "customer-row" ++ dq ++ "], "
   ++ "[class*=" ++ dq ++ "customer-card" ++ dq ++ "], "
   ++ "[role=" ++ dq ++ "row" ++ dq ++ "]")%string.

Definition customer_link_selector : string :=
  ("a[href*=" ++ dq ++ "customer" ++ dq ++ "], " ++ button "View")%string.

(** X7.  Flow 3 after its way back to the dashboard ([s1]).  A visible row
    that can be clicked gives a pass whatever the page then contains.  With
    no visible row, the link or "View" button is tried: clicked, it gives
    a pass; not visible either, the block records the failure "No customer
    rows or links found".  The link is looked for only when no row is
    visible. *)
Theorem customer_detail_verdict (s s1 : State) :
  (_ <- safe_click (button "Dashboard") 5000 ;;
   wait_for_load_state "networkidle" ;;
   wait_for_timeout 1000) s = (Ok tt, s1) ->
  (forall s2 page s3,
      is_visible customer_row_selector 5000 s1 = (Ok true, s2) ->
      (click customer_row_selector ;;
       wait_for_load_state "networkidle" ;;
       wait_for_timeout 1500 ;;
       screenshot "03_customer_detail" ;;
       page_content) s2 = (Ok page, s3) ->
      exists detail, flow_customer_detail_try s = record "customer_detail" true detail s3)
  /\ (forall s2 s3 s4,
         is_visible customer_row_selector 5000 s1 = (Ok false, s2) ->
         is_visible customer_link_selector 3000 s2 = (Ok true, s3) ->
         (click customer_link_selector ;;
          wait_for_load_state "networkidle" ;;
          wait_for_timeout 1500 ;;
          screenshot "03_customer_detail") s3 = (Ok tt, s4) ->
         flow_customer_detail_try s
         = record "customer_detail" true "Opened customer via link/button" s4)
  /\ (forall s2 s3 s4,
         is_visible customer_row_selector 5000 s1 = (Ok false, s2) ->
         is_visible customer_link_selector 3000 s2 = (Ok false, s3) ->
         screenshot "03_no_customer_rows" s3 = (Ok tt, s4) ->
         flow_customer_detail_try s
         = record "customer_detail" false "No customer rows or links found" s4).
Proof.
  intros Hback. repeat split.
  - intros s2 page s3 Hrow Hpage.
    unfold flow_customer_detail_try, content_lower.
    fold customer_row_selector. fold customer_link_selector. exec.
    match goal with |- context [if ?b then _ else _] => destruct b end;
      eexists; reflexivity.
  - intros s2 s3 s4 Hrow Hlink Hopen.
    unfold flow_customer_detail_try, content_lower.
    fold customer_row_selector. fold customer_link_selector. exec. reflexivity.
  - intros s2 s3 s4 Hrow Hlink Hshot.
    unfold flow_customer_detail_try, content_lower.
    fold customer_row_selector. fold customer_link_selector. exec. reflexivity.
Qed.

(** *** [safe_click] and the page *)

(** X8.  [safe_click] calls [wait_for] once and [click] at most once, on the
    same selector, and nothing else; it clicks only after the wait
    succeeded, and then it has clicked whether or not the click raised. *)
Theorem safe_click_calls (selector : string) (timeout : Z) (s : State) :
  let s' := snd (safe_click selector timeout s) in
  untouched s s'
  /\ stdout s' = stdout s
  /\ match wait_for_visible selector timeout s with
     | (Ok _, _) =>
         trace s' = trace s ++ [WaitForVisible selector timeout; Click selector]
     | (Raise _, _) => trace s' = trace s ++ [WaitForVisible selector timeout]
     end.
Proof.
  cbv zeta. split; [apply safe_click_untouched|].
  unfold safe_click, try_except, bind, ret.
  destruct (wait_for_visible selector timeout s) as [[[]|e] s1] eqn:E1.
  - destruct (click selector s1) as [[[]|e] s2] eqn:E2; simpl.
    + pose proof (perform_silent (WaitForVisible selector timeout) s) as Q1.
      pose proof (perform_silent (Click selector) s1) as Q2.
      unfold wait_for_visible, click in *. rewrite E1 in Q1. rewrite E2 in Q2.
      unfold silent in *. simpl in *. traced. split; [congruence|].
      now rewrite T, T0, <- app_assoc.
    + pose proof (perform_silent (WaitForVisible selector timeout) s) as Q1.
      pose proof (perform_silent (Click selector) s1) as Q2.
      unfold wait_for_visible, click in *. rewrite E1 in Q1. rewrite E2 in Q2.
      unfold silent in *. simpl in *. traced. split; [congruence|].
      now rewrite T, T0, <- app_assoc.
  - simpl.
    pose proof (perform_silent (WaitForVisible selector timeout) s) as Q1.
    unfold wait_for_visible in *. rewrite E1 in Q1. unfold silent in *. simpl in *.
    traced. split; [congruence | assumption].
Qed.

Lemma safe_click_trace (selector : string) (timeout : Z) (s : State) r s1 :
  safe_click selector timeout s = (r, s1) ->
  (trace s1 = trace s ++ [WaitForVisible selector timeout]
   \/ trace s1 = trace s ++ [WaitForVisible selector timeout; Click selector])
  /\ untouched s s1.
Proof.
  intros H. pose proof (safe_click_untouched selector timeout s) as U.
  rewrite H in U. split; [|exact U].
  unfold safe_click, try_except, bind, ret in H.
  destruct (wait_for_visible selector timeout s) as [[[]|e] s2] eqn:E1.
  - destruct (click selector s2) as [[[]|e] s3] eqn:E2; inversion H; subst; traced;
      right; now rewrite T, T0, <- app_assoc.
  - inversion H; subst. traced. now left.
Qed.

(** *** Flow 8: the input that is filled *)

(** A call other than [fill]. *)
Definition not_fill (o : Op) : Prop := forall sel value, o <> Fill sel value.

Ltac not_fill_side := unfold not_fill; intros ? ? E; discriminate E.

Lemma try_except_bind A B (m : M A) (k : A -> M B) (h : exn -> M B) s a s1 :
  m s = (Ok a, s1) -> try_except (bind m k) h s = try_except (k a) h s1.
Proof. intros H. unfold try_except, bind. now rewrite H. Qed.

Lemma try_except_bind_raise A B (m : M A) (k : A -> M B) (h : exn -> M B) s e s1 :
  m s = (Raise e, s1) -> try_except (bind m k) h s = h e s1.
Proof. intros H. unfold try_except, bind. now rewrite H. Qed.

(** The [try] block of flow 8 when it returns: either the input whose
    visibility check answered [True] was filled with the test message,
    once, and a pass recorded, or no input was visible and the failure
    "Chat input not found in Agent Center" recorded. *)
Lemma flow_chat_send_try_filled (s s' : State) :
  flow_chat_send_try s = (Ok tt, s') ->
  (exists input s4 s5 s6 pre post,
      (input = chat_input_selector \/ input = "textarea:visible"%string)
      /\ is_visible input 3000 s4 = (Ok true, s5)
      /\ fill input test_message s5 = (Ok tt, s6)
      /\ trace s5 = trace s ++ pre
      /\ trace s' = trace s ++ pre ++ Fill input test_message :: post
      /\ Forall not_fill (pre ++ post))
  \/ calls s'
     = calls s ++ [("chat_send"%string,
                    FlowResult.mk false "Chat input not found in Agent Center")].
Proof.
  unfold flow_chat_send_try, bind. intros H.
  destruct (safe_click (button "Agent Center") 5000 s) as [[b|e] s1] eqn:E0;
    [|discriminate].
  destruct (safe_click_trace _ _ _ _ _ E0) as (Hpre & _ & C0 & _).
  destruct (wait_for_load_state "networkidle" s1) as [[[]|e] s2] eqn:E1; [|discriminate].
  destruct (wait_for_timeout 1500 s2) as [[[]|e] s3] eqn:E2; [|discriminate].
  destruct (is_visible chat_input_selector 5000 s3) as [[first|e] s4] eqn:E3;
    [|discriminate].
  cbv zeta in H.
  set (input := if negb first then "textarea:visible"%string else chat_input_selector) in *.
  assert (Hinput : input = chat_input_selector \/ input = "textarea:visible"%string)
    by (subst input; destruct first; simpl; auto).
  destruct (is_visible input 3000 s4) as [[[|]|e] s5] eqn:E4; [| |discriminate].
  - destruct (fill input test_message s5) as [[[]|e] s6] eqn:E5; [|discriminate].
    destruct (screenshot "08_chat_message_typed" s6) as [[[]|e] s7] eqn:E6;
      [|discriminate].
    destruct (is_visible send_btn_selector 2000 s7) as [[send|e] s8] eqn:E7;
      [|discriminate].
    destruct ((if send : bool then click send_btn_selector
               else press input "Meta+Enter") s8) as [[[]|e] s9] eqn:E8;
      [|discriminate].
    destruct (wait_for_timeout 2000 s9) as [[[]|e] s10] eqn:E9; [|discriminate].
    destruct (screenshot "08_chat_message_sent" s10) as [[[]|e] s11] eqn:E10;
      [|discriminate].
    assert (T8 : trace s9 = trace s8
                 ++ [if send then Click send_btn_selector else Press input "Meta+Enter"]).
    { destruct send; traced; assumption. }
    clear E8. left.
    assert (V4 : id (is_visible input 3000 s4 = (Ok true, s5))) by exact E4.
    assert (V5 : id (fill input test_message s5 = (Ok tt, s6))) by exact E5.
    inversion H; subst s'. cbn [trace]. traced.
    destruct Hpre as [P|P];
      [ exists input, s4, s5, s6,
          ([WaitForVisible (button "Agent Center") 5000]
           ++ [WaitForLoadState "networkidle"; WaitForTimeout 1500;
               IsVisible chat_input_selector 5000; IsVisible input 3000])
      | exists input, s4, s5, s6,
          ([WaitForVisible (button "Agent Center") 5000; Click (button "Agent Center")]
           ++ [WaitForLoadState "networkidle"; WaitForTimeout 1500;
               IsVisible chat_input_selector 5000; IsVisible input 3000]) ];
      exists [Screenshot (path_join SCREENSHOT_DIR "08_chat_message_typed.png");
              IsVisible send_btn_selector 2000;
              if send then Click send_btn_selector else Press input "Meta+Enter";
              WaitForTimeout 2000;
              Screenshot (path_join SCREENSHOT_DIR "08_chat_message_sent.png")];
      (split; [exact Hinput|]); (split; [exact V4|]); (split; [exact V5|]);
      (split; [|split]);
      [ repeat match goal with
               | T : trace ?a = trace _ ++ _ |- context [trace ?a] => rewrite T; clear T
               end;
        rewrite <- !app_assoc; reflexivity
      | repeat match goal with
               | T : trace ?a = trace _ ++ _ |- context [trace ?a] => rewrite T; clear T
               end;
        rewrite <- !app_assoc; reflexivity
      | destruct send; repeat constructor; not_fill_side
      | repeat match goal with
               | T : trace ?a = trace _ ++ _ |- context [trace ?a] => rewrite T; clear T
               end;
        rewrite <- !app_assoc; reflexivity
      | repeat match goal with
               | T : trace ?a = trace _ ++ _ |- context [trace ?a] => rewrite T; clear T
               end;
        rewrite <- !app_assoc; reflexivity
      | destruct send; repeat constructor; not_fill_side ].
  - destruct (screenshot "08_chat_input_not_found" s5) as [[[]|e] s6] eqn:E5;
      [|discriminate].
    right. inversion H; subst s'. cbn [calls]. traced.
    repeat match goal with
           | U : untouched _ _ |- _ => destruct U as (_ & ? & _)
           end.
    congruence.
Qed.

(** C7.  Flow 8 from any state, [s0] being the state after its header
    line.  The test message is the literal "Hello, this is an E2E
    verification test message." and every [fill] of the flow is given it.
    When the way to the Agent Center and the first visibility check
    returned and the input then checked ([chat_input_selector], or
    "textarea:visible" when that one was not visible) is visible, the
    next call of the flow fills that input with the test message, and
    the flow fills nothing else.  A result recorded with [passed = True]
    has the detail "Message typed and send attempted", which contains
    both "typed" and "attempted", and it was recorded after the input
    whose visibility check answered [True] was filled with the test
    message, by the only [fill] of the flow. *)
Theorem chat_send_fill_and_detail (s : State) :
  let s0 := snd (print (nl ++ "--- Flow 8: Chat Message Send ---")%string s) in
  test_message = "Hello, this is an E2E verification test message."%string
  /\ (exists ops,
         trace (snd (flow_chat_send s)) = trace s ++ ops
         /\ Forall (fun o => forall sel value, o = Fill sel value -> value = test_message) ops)
  /\ (forall b s1 s2 s3 first s4 s5,
         safe_click (button "Agent Center") 5000 s0 = (Ok b, s1) ->
         wait_for_load_state "networkidle" s1 = (Ok tt, s2) ->
         wait_for_timeout 1500 s2 = (Ok tt, s3) ->
         is_visible chat_input_selector 5000 s3 = (Ok first, s4) ->
         is_visible (if negb first then "textarea:visible"%string else chat_input_selector)
           3000 s4 = (Ok true, s5) ->
         exists rest,
           trace (snd (flow_chat_send s))
           = trace s5
             ++ Fill (if negb first then "textarea:visible"%string else chat_input_selector)
                  test_message :: rest
           /\ Forall (fun o => forall sel value, o <> Fill sel value) rest)
  /\ match flow_chat_send s with
     | (Ok _, s') =>
         exists r,
           calls s' = calls s ++ [("chat_send"%string, r)]
           /\ (FlowResult.passed r = true ->
               FlowResult.detail r = "Message typed and send attempted"%string
               /\ contains "typed" (FlowResult.detail r) = true
               /\ contains "attempted" (FlowResult.detail r) = true
               /\ exists input s4 s5 s6 pre post,
                    (input = chat_input_selector \/ input = "textarea:visible"%string)
                    /\ is_visible input 3000 s4 = (Ok true, s5)
                    /\ fill input test_message s5 = (Ok tt, s6)
                    /\ trace s5 = trace s ++ pre
                    /\ trace s' = trace s ++ pre ++ Fill input test_message :: post
                    /\ Forall (fun o => forall sel value, o <> Fill sel value)
                         (pre ++ post))
     | (Raise _, s') => calls s' = calls s
     end.
Proof.
  cbv zeta. split; [reflexivity|]. split; [apply flow_chat_send_fills|]. split.
  - intros b s1 s2 s3 first s4 s5 H1 H2 H3 H4 H5.
    rewrite print_printed in H1. cbn [snd] in H1.
    unfold flow_chat_send. unfold bind at 1. rewrite print_printed.
    unfold flow_chat_send_try.
    rewrite (try_except_bind _ _ _ _ _ _ _ _ H1).
    rewrite (try_except_bind _ _ _ _ _ _ _ _ H2).
    rewrite (try_except_bind _ _ _ _ _ _ _ _ H3).
    rewrite (try_except_bind _ _ _ _ _ _ _ _ H4). cbv zeta.
    rewrite (try_except_bind _ _ _ _ _ _ _ _ H5). cbv beta iota.
    set (input := if negb first then "textarea:visible"%string else chat_input_selector).
    destruct (fill input test_message s5) as [[[]|e] s6] eqn:E5.
    + rewrite (try_except_bind _ _ _ _ _ _ _ _ E5).
      destruct (perform_step (Fill input test_message) _ _ _ E5) as (T5 & _).
      match goal with
      | |- context [snd (?m s6)] =>
          assert (HK : keeps (issues not_fill) m)
            by (frame (issues_refl not_fill) (issues_trans not_fill)
                      ltac:(issues_leaf not_fill_side))
      end.
      destruct (HK s6) as (ops & T & F). exists ops.
      split; [|exact F]. rewrite T, T5, <- app_assoc. reflexivity.
    + rewrite (try_except_bind_raise _ _ _ _ _ _ _ _ E5).
      destruct (perform_step (Fill input test_message) _ _ _ E5) as (T5 & _).
      match goal with
      | |- context [snd (?m s6)] =>
          assert (HK : keeps (issues not_fill) m)
            by (frame (issues_refl not_fill) (issues_trans not_fill)
                      ltac:(issues_leaf not_fill_side))
      end.
      destruct (HK s6) as (ops & T & F). exists ops.
      split; [|exact F]. rewrite T, T5, <- app_assoc. reflexivity.
  - pose proof (guarded_such _ _ "--- Flow 8: Chat Message Send ---" "08_chat_send_error" _
                  flow_chat_send_try_detail s) as H.
    cbv zeta in H. change (guarded _ _ _ _) with flow_chat_send in H.
    destruct (flow_chat_send s) as [[[]|e] s'].
    + destruct H as (r & Hc & Hcases). exists r. split; [exact Hc|].
      intros Hp. destruct Hcases as [[Hok Hd]|(e0 & s1 & _ & Hr)].
      * rewrite (Hd Hp). split; [reflexivity|]. split; [reflexivity|].
        split; [reflexivity|].
        destruct (flow_chat_send_try_filled _ _ Hok)
          as [(input & s4 & s5 & s6 & pre & post & Hi & V4 & V5 & T5 & T' & F)|Hnf].
        -- exists input, s4, s5, s6, pre, post. rewrite print_printed in T5, T'.
           repeat split; assumption.
        -- rewrite print_printed in Hnf. cbn [snd printed calls] in Hnf.
           rewrite Hc in Hnf. apply app_inj_tail in Hnf. destruct Hnf as (_ & Hnf).
           inversion Hnf; subst r. discriminate Hp.
      * subst r. discriminate Hp.
    + apply H.
Qed.

(** *** Flow 8: what is typed, and how it is sent *)


(** *** The registry over a whole run *)

Lemma fatal_branch_untouched (e : exn) :
  keeps untouched
    (print (nl ++ "  FATAL ERROR: " ++ e)%string ;; screenshot "fatal_error").
Proof. frame untouched_refl untouched_trans untouched_leaf. Qed.

Lemma guarded_flows_records (s : State) :
  exists k rs,
    k <= 8
    /\ map fst rs = firstn k flow_names
    /\ calls (snd (guarded_flows s)) = calls s ++ rs
    /\ results (snd (guarded_flows s)) = replay rs (results s)
    /\ (fst (guarded_flows s) = Ok tt \/ k < 8).
Proof.
  unfold guarded_flows, try_finally, try_except.
  pose proof (run_flows_seq s) as H.
  destruct (run_flows s) as [[[]|e] s1].
  - destruct H as (rs & H1 & H2 & H3 & _).
    pose proof (browser_close_untouched s1) as (Hr & Hc & _).
    pose proof (returns_total_call _ (perform BrowserClose) s1) as [[] Hs].
    fold browser_close in Hs. rewrite Hs. simpl.
    exists 8, rs. rewrite Hr, Hc. repeat split; auto.
  - destruct H as (k & rs & Hk & H1 & H2 & H3 & _).
    pose proof (fatal_branch_untouched e s1) as (Hr0 & Hc0 & _).
    destruct ((print (nl ++ "  FATAL ERROR: " ++ e)%string ;; screenshot "fatal_error") s1)
      as [r s2].
    pose proof (browser_close_untouched s2) as (Hr & Hc & _).
    pose proof (returns_total_call _ (perform BrowserClose) s2) as [[] Hs].
    fold browser_close in Hs. rewrite Hs. simpl in *.
    exists k, rs. change (List.length flow_names) with 8 in Hk.
    rewrite Hr, Hc, Hr0, Hc0. repeat split; auto. lia.
Qed.

Lemma browser_session_records (s : State) :
  exists k rs,
    k <= 8
    /\ map fst rs = firstn k flow_names
    /\ calls (snd (browser_session s)) = calls s ++ rs
    /\ results (snd (browser_session s)) = replay rs (results s).
Proof.
  pose proof (launch_session_untouched s) as U.
  destruct (launch_session s) as [[[]|e] s2] eqn:El; simpl in U.
  - rewrite (browser_session_launched s s2 El). simpl.
    destruct (guarded_flows_records s2) as (k & rs & Hk & H1 & H2 & H3 & _).
    pose proof (stop_playwright_untouched (snd (guarded_flows s2))) as (Hr & Hc & _).
    destruct U as (Ur & Uc & _).
    exists k, rs. rewrite Hr, Hc, H2, H3, Ur, Uc. repeat split; auto.
  - destruct (browser_session_launch_fails s e s2 El) as (s' & Hrun & Hs').
    rewrite Hrun. simpl. exists 0, []. simpl. rewrite app_nil_r.
    destruct U as (Ur & Uc & _).
    destruct Hs' as [-> | ->].
    + repeat split; auto; lia.
    + pose proof (stop_playwright_untouched s2) as (Hr & Hc & _).
      rewrite Hr, Hc. repeat split; auto; lia.
Qed.

(** X10.  In every run from a fresh interpreter, however it ends, the registry
    holds results for the first [k] flows and no other, in the order the
    runner calls them, for some [k] up to 8: no flow is recorded before an
    earlier one, under another name or twice.  If [summary.json] was
    written, its [results] are these [k] entries and its [total] is [k]. *)
Theorem registry_is_a_prefix_of_the_flows (w : W) :
  let s' := snd (main (initial w)) in
  exists k,
    k <= 8
    /\ keys (results s') = firstn k flow_names
    /\ map fst (calls s') = firstn k flow_names
    /\ NoDup (keys (results s'))
    /\ (forall doc,
           summary_json s' = Some doc ->
           keys (Summary.results doc) = firstn k flow_names
           /\ Summary.total doc = k).
Proof.
  cbv zeta. unfold main. rewrite run_verification_phases.
  destruct (before_session_returns (initial w)) as [start Hb].
  pose proof (before_session_untouched (initial w)) as (Hr1 & Hc1 & Hj1).
  rewrite Hb. set (s1 := snd (before_session (initial w))) in *. simpl in Hr1, Hc1, Hj1.
  destruct (browser_session_records s1) as (k & rs & Hk & Hn & Hcalls & Hres).
  pose proof (browser_session_summary_kept s1) as Hj2. unfold summary_kept in Hj2.
  rewrite Hc1 in Hcalls. rewrite Hr1 in Hres. simpl in Hcalls.
  assert (Hnd : NoDup (firstn k flow_names)) by apply NoDup_firstn_of, flow_names_NoDup.
  rewrite replay_fresh in Hres; simpl; auto; [|now rewrite Hn]. simpl in Hres.
  assert (Hlen : List.length rs = k).
  { rewrite <- (length_map fst), Hn, length_firstn.
    change (List.length flow_names) with 8. lia. }
  unfold bind. destruct (browser_session s1) as [[[]|e] s2]; simpl in *.
  - destruct (report_run start s2) as (s' & stamp & elapsed & Hrun & Hdoc & _ & Hr' & Hc' & _).
    rewrite Hrun. simpl. exists k. rewrite Hr', Hc', Hres, Hcalls.
    unfold keys. rewrite Hn.
    split; [exact Hk|]. split; [reflexivity|]. split; [reflexivity|].
    split; [exact Hnd|].
    intros doc Hd. rewrite Hdoc in Hd. inversion Hd; subst. simpl.
    rewrite count_split, Hres. now split.
  - exists k. rewrite Hres, Hcalls. unfold keys. rewrite Hn.
    split; [exact Hk|]. split; [reflexivity|]. split; [reflexivity|].
    split; [exact Hnd|].
    intros doc Hd. congruence.
Qed.

(** *** The console report *)

(** What [run_verification] prints after the [with] block: the heading,
    one line per entry of the registry, the tally, the console errors
    (none, or a count and the first ten, each cut to 120 characters) and
    the closing lines. *)
Definition report_lines (items : registry) (elapsed : float) (errors : list string)
  : list string :=
  [(nl ++ times "=" 60)%string; "  VERIFICATION SUMMARY"%string; times "=" 60]
  ++ map (fun kv => summary_line (fst kv) (snd kv)) items
  ++ [times "-" 60;
      tally_line (count_passed items) (count_passed items + count_failed items)
        (count_failed items) elapsed]
  ++ (if is_empty errors then []
      else (nl ++ "  Console errors captured: " ++ str_nat (List.length errors))%string
           :: map (fun err => ("    - " ++ substring 0 120 err)%string) (firstn 10 errors))
  ++ [(nl ++ "  Screenshots saved to: " ++ SCREENSHOT_DIR)%string;
      times "=" 60;
      ("  JSON summary: " ++ path_join SCREENSHOT_DIR "summary.json" ++ nl)%string].

Lemma report_run_full (start : float) (s : State) :
  exists finish stamp w',
    report start s
    = (Ok (if (count_failed (results s) =? 0)%nat then 0 else 1),
       mkState w' (trace s ++ [TimeTime; NowIso])
         (stdout s ++ report_lines (results s) (fsub finish start) (console_errors s))
         (results s) (calls s) (listening s) (console_errors s)
         (Some (Summary.mk stamp FRONTEND_URL BACKEND_URL
                  (count_passed (results s) + count_failed (results s))
                  (count_passed (results s)) (count_failed (results s))
                  (round2 (fsub finish start)) (results s)
                  (firstn 20 (console_errors s))))).
Proof.
  unfold report, bind, time_time, now_iso, total_call, perform, get_results,
    get_console_errors, write_summary, report_lines.
  destruct (respond TimeTime (world s)) as [[finish msgs] w1]. simpl.
  rewrite tally_run. simpl. rewrite !andb_false_r.
  set (errs := console_errors s).
  destruct (is_empty errs) eqn:Hempty; simpl;
    rewrite ?print_errors_run; simpl;
    destruct (respond NowIso w1) as [[stamp msgs'] w2]; simpl;
    rewrite ?andb_false_r;
    exists finish, stamp, w2; repeat f_equal;
    rewrite <- !app_assoc; simpl; rewrite <- ?app_assoc; reflexivity.
Qed.

Lemma report_lines_length (items : registry) (elapsed : float) (errors : list string) :
  List.length (report_lines items elapsed errors)
  = 8 + List.length items
    + (if is_empty errors then 0 else 1 + Nat.min 10 (List.length errors)).
Proof.
  unfold report_lines. rewrite !length_app, length_map.
  destruct (is_empty errors).
  - cbn [List.length]. lia.
  - cbn [List.length]. rewrite length_map, length_firstn. lia.
Qed.

Lemma substring_length_le (n : nat) (text : string) :
  String.length (substring 0 n text) <= n.
Proof.
  revert text. induction n as [|n IH]; intros text.
  - destruct text; simpl; lia.
  - destruct text as [|c text]; simpl; [lia|]. specialize (IH text). lia.
Qed.

(** X11.  The summary phase, from any state.  It always returns, with code 0
    exactly when no entry of the registry failed; it reads the clock twice
    and calls nothing else; it prints [report_lines]: one line per
    recorded flow, in the order of the registry, and, when console errors
    were collected, their number followed by at most ten of them, each cut
    to 120 characters; it writes [summary.json] with at most twenty
    console errors, the first ones collected; it leaves the registry and
    the collected errors as they were. *)
Theorem report_prints_and_caps (start : float) (s : State) :
  exists s' elapsed doc,
    report start s = (Ok (if (count_failed (results s) =? 0)%nat then 0 else 1), s')
    /\ trace s' = trace s ++ [TimeTime; NowIso]
    /\ stdout s' = stdout s ++ report_lines (results s) elapsed (console_errors s)
    /\ List.length (report_lines (results s) elapsed (console_errors s))
       = 8 + List.length (results s)
         + (if is_empty (console_errors s) then 0
            else 1 + Nat.min 10 (List.length (console_errors s)))
    /\ Forall (fun line => String.length line <= 126)
         (map (fun err => ("    - " ++ substring 0 120 err)%string)
            (firstn 10 (console_errors s)))
    /\ summary_json s' = Some doc
    /\ Summary.console_errors doc = firstn 20 (console_errors s)
    /\ List.length (Summary.console_errors doc) <= 20
    /\ Summary.results doc = results s
    /\ results s' = results s
    /\ console_errors s' = console_errors s.
Proof.
  destruct (report_run_full start s) as (finish & stamp & w' & Hrun).
  eexists. exists (fsub finish start). eexists.
  split; [exact Hrun|]. cbn [trace stdout results console_errors summary_json].
  split; [reflexivity|]. split; [reflexivity|].
  split; [apply report_lines_length|].
  split.
  { apply Forall_forall. intros line Hin. apply in_map_iff in Hin.
    destruct Hin as (err & <- & _). simpl.
    pose proof (substring_length_le 120 err). lia. }
  split; [reflexivity|]. cbn [Summary.console_errors Summary.results].
  split; [reflexivity|].
  split; [apply firstn_le_length|].
  repeat split.
Qed.

(** *** Where the calls go *)

(** The arguments the script gives to its calls. *)
Definition confined (o : Op) : Prop :=
  match o with
  | HealthCheck url timeout_s =>
      url = (BACKEND_URL ++ "/api/health")%string /\ timeout_s = 5%Z
  | Goto url wait_until timeout =>
      url = FRONTEND_URL /\ wait_until = "networkidle"%string /\ timeout = TIMEOUT_MS
  | Screenshot path =>
      exists name, path = path_join SCREENSHOT_DIR (name ++ ".png")%string
  | Fill _ value => value = test_message
  | Press _ key => key = "Meta+Enter"%string
  | WaitForLoadState state => state = "networkidle"%string
  | _ => True
  end.

Ltac confined_side :=
  cbn [confined]; first [ exact I | reflexivity | eexists; reflexivity | repeat split ].

Lemma report_confined (start : float) : keeps (issues confined) (report start).
Proof.
  intros s. destruct (report_run_full start s) as (finish & stamp & w' & Hrun).
  rewrite Hrun. exists [TimeTime; NowIso]. split; [reflexivity|].
  repeat constructor.
Qed.

(** X12.  Whatever happens in a run, from any state: the only page the script
    navigates to is [FRONTEND_URL], waiting for the network to be idle for
    at most [TIMEOUT_MS]; the only request it sends itself is the health
    check of [BACKEND_URL], with a timeout of 5 seconds; every screenshot
    goes to a [.png] file joined to [SCREENSHOT_DIR]; the only text it
    types is the test message and the only key it presses "Meta+Enter". *)
Theorem calls_are_confined (s : State) :
  exists ops,
    trace (snd (run_verification s)) = trace s ++ ops
    /\ Forall confined ops.
Proof.
  assert (H : keeps (issues confined) run_verification).
  { unfold run_verification.
    frame (issues_refl confined) (issues_trans confined)
          ltac:(first [ issues_leaf confined_side | apply report_confined ]). }
  exact (H s).
Qed.

(** *** [record] and the other entries *)

Lemma dict_get_set_other (k k' : string) (v : FlowResult.t) (d : registry) :
  k <> k' -> dict_get k' (dict_set k v d) = dict_get k' d.
Proof.
  intros Hne. induction d as [|[k0 v0] d IH]; simpl.
  - destruct (String.eqb_spec k k'); [contradiction | reflexivity].
  - destruct (String.eqb_spec k0 k) as [->|Hk0]; simpl.
    + destruct (String.eqb_spec k k'); [contradiction|].
      reflexivity.
    + destruct (String.eqb_spec k0 k'); [reflexivity | exact IH].
Qed.

(** X13.  [record(name, ...)] touches the entry of [name] only: every other
    name keeps the result it had (or none), a name already in the registry
    keeps its place, and a new name goes to the end.  The call also prints
    one line and makes no call on the page. *)
Theorem record_leaves_the_others (name other : string) (passed : bool) (detail : string)
    (s : State) :
  name <> other ->
  let s' := snd (record name passed detail s) in
  dict_get other (results s') = dict_get other (results s)
  /\ dict_get name (results s') = Some (FlowResult.mk passed detail)
  /\ keys (results s')
     = (if in_dec string_dec name (keys (results s))
        then keys (results s)
        else keys (results s) ++ [name])
  /\ stdout s' = stdout s ++ [record_line name passed detail]
  /\ trace s' = trace s.
Proof.
  intros Hne. cbv zeta. simpl.
  split; [now apply dict_get_set_other|].
  split; [apply dict_get_set_same|].
  split; [|split; reflexivity].
  destruct (in_dec string_dec name (keys (results s))) as [Hin|Hout].
  - now apply keys_dict_set_in.
  - rewrite keys_dict_set_fresh by exact Hout. unfold keys. now rewrite map_app.
Qed.

(** *** Flow 1 fails by exception only *)

Lemma flow_demo_login_try_passes :
  records_such (fun r => FlowResult.passed r = true) "demo_login" flow_demo_login_try.
Proof. unfold flow_demo_login_try. one_record_such. Qed.

(** X14.  Like flow 5, flow 1 has no failing branch of its own: when it returns
    it has recorded one result, and that result is a failure exactly when
    its [try] block raised (a navigation error, a Demo Mode button that
    never shows), the detail then being the message of the exception. *)
Theorem demo_login_fails_by_exception_only (s : State) :
  let s0 := snd (print (nl ++ "--- Flow 1: Demo Mode Login ---")%string s) in
  match flow_demo_login s with
  | (Ok _, s') =>
      exists r,
        calls s' = calls s ++ [("demo_login"%string, r)]
        /\ (FlowResult.passed r = false
            <-> exists e0 s1, flow_demo_login_try s0 = (Raise e0, s1))
        /\ (forall e0 s1, flow_demo_login_try s0 = (Raise e0, s1) ->
            r = FlowResult.mk false e0)
  | (Raise _, s') => calls s' = calls s /\ results s' = results s
  end.
Proof.
  cbv zeta.
  pose proof (guarded_such _ _ "--- Flow 1: Demo Mode Login ---" "01_demo_login_error" _
                flow_demo_login_try_passes s) as H.
  cbv zeta in H. change (guarded _ _ _ _) with flow_demo_login in H.
  destruct (flow_demo_login s) as [[[]|e] s'].
  - destruct H as (r & Hc & Hcases). exists r. split; [exact Hc|].
    destruct Hcases as [[Hok Hpass]|(e0 & s1 & Hraise & Hr)].
    + split; [split|].
      * intros Hf. congruence.
      * intros (e0 & s1 & Hraise). rewrite Hok in Hraise. discriminate.
      * intros e0 s1 Hraise. rewrite Hok in Hraise. discriminate.
    + split; [split|].
      * intros _. now exists e0, s1.
      * intros _. now subst.
      * intros e1 s2 Hraise'. rewrite Hraise in Hraise'. inversion Hraise'. now subst.
  - destruct H as (Hr & Hc & _). now split.
Qed.

(** *** The preflight *)

(** X15.  The preflight never stops a run: whatever the health check does
    (a status, any exception), [preflight] returns after exactly one
    request, with one line printed for a status and the two warning lines
    for an exception, and with the registry untouched. *)
Theorem preflight_never_blocks (s : State) :
  exists s',
    preflight s = (Ok tt, s')
    /\ trace s' = trace s ++ [HealthCheck (BACKEND_URL ++ "/api/health")%string 5]
    /\ untouched s s'
    /\ match fst (health_check (BACKEND_URL ++ "/api/health")%string 5 s) with
       | Ok status =>
           stdout s' = stdout s
                       ++ [(nl ++ "  Backend health check: " ++ str_nat status)%string]
       | Raise exc => stdout s' = stdout s ++ [health_warning exc; health_continuing]
       end.
Proof.
  pose proof (preflight_run s) as H.
  pose proof (perform_trace (HealthCheck (BACKEND_URL ++ "/api/health")%string 5) s) as T.
  pose proof (perform_untouched (HealthCheck (BACKEND_URL ++ "/api/health")%string 5) s) as U.
  pose proof (perform_silent (HealthCheck (BACKEND_URL ++ "/api/health")%string 5) s) as Q.
  unfold health_check in *. unfold silent in Q.
  destruct (perform (HealthCheck (BACKEND_URL ++ "/api/health")%string 5) s)
    as [[status|exc] s1]; simpl in T, U, Q; cbn [fst]; rewrite H; eexists;
    (split; [reflexivity|]);
    (split; [exact T|]);
    (split; [exact U|]);
    unfold printed; cbn [stdout]; now rewrite Q.
Qed.

(** *** Navigation *)

Definition is_goto (o : Op) : bool :=
  match o with Goto _ _ _ => true | _ => false end.

(** [m] makes at most [n] calls of [page.goto]. *)
Definition navigates_at_most (n : nat) {A} (m : M A) : Prop :=
  forall s, exists ops,
    trace (snd (m s)) = trace s ++ ops
    /\ List.length (filter is_goto ops) <= n.

Lemma navigates_bind A B (a b : nat) (m : M A) (k : A -> M B) :
  navigates_at_most a m -> (forall x, navigates_at_most b (k x)) ->
  navigates_at_most (a + b) (bind m k).
Proof.
  intros Hm Hk s. unfold bind. destruct (Hm s) as (o1 & T1 & L1).
  destruct (m s) as [[x|e] s1]; simpl in T1.
  - destruct (Hk x s1) as (o2 & T2 & L2). exists (o1 ++ o2).
    rewrite T2, T1, app_assoc, filter_app, length_app. split; [reflexivity | lia].
  - exists o1. simpl. split; [exact T1 | lia].
Qed.

Lemma navigates_try_except A (a b : nat) (m : M A) (h : exn -> M A) :
  navigates_at_most a m -> (forall e, navigates_at_most b (h e)) ->
  navigates_at_most (a + b) (try_except m h).
Proof.
  intros Hm Hh s. unfold try_except. destruct (Hm s) as (o1 & T1 & L1).
  destruct (m s) as [[x|e] s1]; simpl in T1.
  - exists o1. simpl. split; [exact T1 | lia].
  - destruct (Hh e s1) as (o2 & T2 & L2). exists (o1 ++ o2).
    rewrite T2, T1, app_assoc, filter_app, length_app. split; [reflexivity | lia].
Qed.

Lemma navigates_try_finally A (a b : nat) (m : M A) (fin : M unit) :
  navigates_at_most a m -> navigates_at_most b fin ->
  navigates_at_most (a + b) (try_finally m fin).
Proof.
  intros Hm Hf s. unfold try_finally. destruct (Hm s) as (o1 & T1 & L1).
  destruct (m s) as [r s1]; simpl in T1.
  destruct (Hf s1) as (o2 & T2 & L2).
  destruct (fin s1) as [[[]|e] s2]; simpl in *; exists (o1 ++ o2);
    rewrite T2, T1, app_assoc, filter_app, length_app; (split; [reflexivity | lia]).
Qed.

Definition not_goto (o : Op) : Prop := is_goto o = false.

Lemma navigates_never A (m : M A) :
  keeps (issues not_goto) m -> navigates_at_most 0 m.
Proof.
  intros H s. destruct (H s) as (ops & T & F). exists ops. split; [exact T|].
  clear T. induction F as [|o ops Ho _ IH]; simpl; [lia|].
  unfold not_goto in Ho. rewrite Ho. exact IH.
Qed.

Ltac no_goto :=
  apply navigates_never;
  frame (issues_refl not_goto) (issues_trans not_goto)
        ltac:(first [ issues_leaf ltac:(reflexivity) ]).

Lemma report_not_goto (start : float) : keeps (issues not_goto) (report start).
Proof.
  intros s. destruct (report_run_full start s) as (finish & stamp & w' & Hrun).
  rewrite Hrun. exists [TimeTime; NowIso]. split; [reflexivity|].
  repeat constructor.
Qed.

(** X16.  A run navigates at most once, in flow 1: every later flow works on
    the page as the flows before it left it. *)
Theorem navigates_at_most_once (s : State) :
  (exists ops,
      trace (snd (run_verification s)) = trace s ++ ops
      /\ List.length (filter is_goto ops) <= 1)
  /\ Forall (fun f => flow_name f <> "demo_login"%string ->
                      forall s1, exists ops,
                        trace (snd (flow_run f s1)) = trace s1 ++ ops
                        /\ Forall (fun o => is_goto o = false) ops)
       flow_table.
Proof.
  split.
  - assert (Hlogin : navigates_at_most 1 flow_demo_login).
    { unfold flow_demo_login.
      apply (navigates_bind _ _ 0 1); [no_goto|]. intros _.
      apply (navigates_try_except _ 1 0); [|intro; no_goto].
      unfold flow_demo_login_try.
      apply (navigates_bind _ _ 1 0); [|intros _; no_goto].
      intros s1. exists [Goto FRONTEND_URL "networkidle" TIMEOUT_MS]. split.
      - apply (perform_trace (Goto FRONTEND_URL "networkidle" TIMEOUT_MS)).
      - simpl. lia. }
    assert (Hflows : navigates_at_most 1 run_flows).
    { unfold run_flows. apply (navigates_bind _ _ 1 0); [exact Hlogin|].
      intros _. no_goto. }
    assert (Hsession : navigates_at_most 1 browser_session).
    { unfold browser_session. apply (navigates_bind _ _ 0 1); [no_goto|]. intros _.
      apply (navigates_try_finally _ 1 0); [|no_goto].
      apply (navigates_bind _ _ 0 1); [no_goto|]. intros _.
      unfold guarded_flows. apply (navigates_try_finally _ 1 0); [|no_goto].
      apply (navigates_try_except _ 1 0); [exact Hflows | intro; no_goto]. }
    assert (Hrun : navigates_at_most 1 run_verification).
    { unfold run_verification.
      apply (navigates_bind _ _ 0 1); [no_goto|]. intros start.
      apply (navigates_bind _ _ 0 1); [no_goto|]. intros _.
      apply (navigates_bind _ _ 0 1); [no_goto|]. intros _.
      apply (navigates_bind _ _ 1 0); [exact Hsession|]. intros _.
      apply navigates_never, report_not_goto. }
    exact (Hrun s).
  - repeat constructor; simpl; intros Hname s1; try congruence;
      match goal with
      | |- exists ops, trace (snd (?m s1)) = _ /\ _ =>
          assert (H : keeps (issues not_goto) m)
            by (frame (issues_refl not_goto) (issues_trans not_goto)
                      ltac:(first [ issues_leaf ltac:(reflexivity) ]));
          exact (H s1)
      end.
Qed.

End Harness.

(** ** The harness on scripted environments *)

Definition demo_frontend : string := "http://localhost:3002".
Definition demo_backend : string := "http://localhost:3001".
Definition demo_dir : string := "/app/test-screenshots/prd7-verification".

(** The process on a script, from a fresh interpreter. *)
Definition demo_main (sc : Script) : nat * State unit unit :=
  main unit (fun _ _ => tt) (fun x => x) (fun _ => "0.0") demo_frontend demo_backend
    demo_dir unit (scripted sc) (initial unit unit tt).

Definition demo_run (sc : Script) : Res nat * State unit unit :=
  run_verification unit (fun _ _ => tt) (fun x => x) (fun _ => "0.0") demo_frontend
    demo_backend demo_dir unit (scripted sc) (initial unit unit tt).

Example demo_healthy_exit : fst (demo_main healthy) = 0.
Proof. vm_compute. reflexivity. Qed.

Example demo_healthy_results :
  keys (results unit unit (snd (demo_main healthy)))
  = ["demo_login"; "dashboard_loads"; "customer_detail"; "operations_hub";
     "admin_panel"; "agent_center"; "knowledge_base"; "chat_send"]%string.
Proof. vm_compute. reflexivity. Qed.

Example demo_healthy_console :
  console_errors unit unit (snd (demo_main healthy)) = ["Failed to load resource"%string].
Proof. vm_compute. reflexivity. Qed.

(** *** C2 on a run *)

Lemma summary_counts_add_up_healthy :
  exists doc,
    summary_json unit unit (snd (demo_run healthy)) = Some doc
    /\ Summary.total doc = 8
    /\ Summary.total doc = Summary.passed doc + Summary.failed doc
    /\ List.length (Summary.results doc) = Summary.total doc.
Proof.
  unfold demo_run.
  eexists. split; [vm_compute; reflexivity|]. split; [reflexivity|].
  match goal with
  | |- Summary.total ?d = _ /\ _ =>
      assert (E : summary_json unit unit
                    (snd (run_verification unit (fun _ _ => tt) (fun x => x)
                            (fun _ => "0.0") demo_frontend demo_backend demo_dir unit
                            (scripted healthy) (initial unit unit tt))) = Some d)
        by (vm_compute; reflexivity);
      pose proof (summary_counts_add_up unit (fun _ _ => tt) (fun x => x) (fun _ => "0.0")
                  demo_frontend demo_backend demo_dir unit (scripted healthy) tt d E)
        as H
  end.
  destruct H as (H1 & H2 & _).
  split; [exact H1 | exact H2].
Defined.

(** *** C3 on runs *)

Lemma exit_code_zero_iff_no_failure_healthy :
  fst (demo_main healthy) = 0
  /\ count_failed (results unit unit (snd (demo_main healthy))) = 0
  /\ Forall (fun kv => FlowResult.passed (snd kv) = true)
       (results unit unit (snd (demo_main healthy))).
Proof.
  unfold demo_main.
  pose (r1 := launch_session unit unit (scripted healthy)
                (snd (before_session unit demo_frontend demo_backend demo_dir unit
                        (scripted healthy) (initial unit unit tt)))).
  assert (E1 : r1 = (Ok tt, snd r1)) by (vm_compute; reflexivity).
  destruct (exit_code_zero_iff_no_failure unit (fun _ _ => tt) (fun x => x) (fun _ => "0.0")
              demo_frontend demo_backend demo_dir unit (scripted healthy) tt (snd r1) E1)
    as (_ & _ & _ & H & _).
  assert (E2 : fst (guarded_flows unit demo_frontend demo_dir unit (scripted healthy)
                      (snd r1)) = Ok tt)
    by (vm_compute; reflexivity).
  destruct (H E2) as (_ & Hz & Hall & _).
  match goal with
  | |- ?G /\ _ => assert (C : G) by (vm_compute; reflexivity)
  end.
  split; [exact C|]. split; [apply Hz, C | apply Hall, C].
Defined.

(** C3 as the specification states it fails: with the page gone the
    session launches, flow 1 lets an exception out before recording
    anything and the runner's "fatal_error" screenshot raises too.  The
    exception leaves [run_verification] and the process exits with code
    1, although no failed result is recorded: the registry is empty, so
    the count of failed results is 0 and every recorded flow passed. *)
Lemma launched_run_exits_1_without_a_failure :
  fst (launch_session unit unit (scripted page_gone)
         (snd (before_session unit demo_frontend demo_backend demo_dir unit
                 (scripted page_gone) (initial unit unit tt))))
  = Ok tt
  /\ fst (demo_run page_gone)
     = Raise "Page.screenshot: Target page, context or browser has been closed"%string
  /\ fst (demo_main page_gone) = 1
  /\ results unit unit (snd (demo_main page_gone)) = []
  /\ count_failed (results unit unit (snd (demo_main page_gone))) = 0
  /\ Forall (fun kv => FlowResult.passed (snd kv) = true)
       (results unit unit (snd (demo_main page_gone)))
  /\ summary_json unit unit (snd (demo_main page_gone)) = None
  /\ ~ (fst (demo_main page_gone) = 0
        <-> count_failed (results unit unit (snd (demo_main page_gone))) = 0).
Proof.
  assert (C : fst (demo_main page_gone) = 1) by (vm_compute; reflexivity).
  assert (R : results unit unit (snd (demo_main page_gone)) = [])
    by (vm_compute; reflexivity).
  split; [vm_compute; reflexivity|]. split; [vm_compute; reflexivity|].
  split; [exact C|]. split; [exact R|]. rewrite R, C.
  split; [reflexivity|]. split; [constructor|].
  split; [vm_compute; reflexivity|].
  intros [_ H]. specialize (H eq_refl). discriminate H.
Qed.

(** *** C7 on a run: the chat input is visible *)

Lemma chat_send_fill_and_detail_healthy :
  exists s5 rest,
    trace unit unit
      (snd (flow_chat_send unit demo_dir unit (scripted healthy) (initial unit unit tt)))
    = (trace unit unit s5
       ++ Fill chat_input_selector "Hello, this is an E2E verification test message."
            :: rest)%list
    /\ Forall (fun o => forall sel value, o <> Fill sel value) rest.
Proof.
  pose (resp := scripted healthy).
  pose (s0 := snd (print unit unit (nl ++ "--- Flow 8: Chat Message Send ---")
                     (initial unit unit tt))).
  pose (r1 := safe_click unit unit resp (button "Agent Center") 5000 s0).
  assert (E1 : r1 = (Ok true, snd r1)) by (vm_compute; reflexivity).
  pose (r2 := wait_for_load_state unit unit resp "networkidle" (snd r1)).
  assert (E2 : r2 = (Ok tt, snd r2)) by (vm_compute; reflexivity).
  pose (r3 := wait_for_timeout unit unit resp 1500 (snd r2)).
  assert (E3 : r3 = (Ok tt, snd r3)) by (vm_compute; reflexivity).
  pose (r4 := is_visible unit unit resp chat_input_selector 5000 (snd r3)).
  assert (E4 : r4 = (Ok true, snd r4)) by (vm_compute; reflexivity).
  pose (r5 := is_visible unit unit resp
                (if negb true then "textarea:visible"%string else chat_input_selector)
                3000 (snd r4)).
  assert (E5 : r5 = (Ok true, snd r5)) by (vm_compute; reflexivity).
  pose proof (chat_send_fill_and_detail unit demo_dir unit resp (initial unit unit tt))
    as H.
  cbv zeta in H. destruct H as (_ & _ & H & _).
  destruct (H true (snd r1) (snd r2) (snd r3) true (snd r4) (snd r5) E1 E2 E3 E4 E5)
    as (rest & T & F).
  exists (snd r5), rest. split; [exact T | exact F].
Defined.

(** *** C4 on a run: Chromium cannot be started *)

Lemma launch_failure_aborts_no_browser :
  fst (demo_main no_browser) = 1
  /\ existsb is_screenshot (trace unit unit (snd (demo_main no_browser))) = false
  /\ calls unit unit (snd (demo_main no_browser)) = []
  /\ summary_json unit unit (snd (demo_main no_browser)) = None.
Proof.
  pose (r := launch_session unit unit (scripted no_browser)
               (snd (before_session unit demo_frontend demo_backend demo_dir unit
                       (scripted no_browser) (initial unit unit tt)))).
  assert (E : r = (Raise "BrowserType.launch: Executable doesn't exist"%string, snd r))
    by (vm_compute; reflexivity).
  destruct (launch_failure_aborts unit (fun _ _ => tt) (fun x => x) (fun _ => "0.0")
              demo_frontend demo_backend demo_dir unit (scripted no_browser) tt _ _ E)
    as (H1 & _ & _ & H4 & _ & H6 & _ & H8).
  repeat split; assumption.
Defined.

(** C4 as the specification states it fails: launching raises, the
    process exits with code 1, and among the calls of the whole run there
    is no screenshot. *)
Lemma launch_failure_takes_no_screenshot :
  fst (launch_session unit unit (scripted no_browser)
         (snd (before_session unit demo_frontend demo_backend demo_dir unit
                 (scripted no_browser) (initial unit unit tt))))
  = Raise "BrowserType.launch: Executable doesn't exist"%string
  /\ fst (demo_main no_browser) = 1
  /\ trace unit unit (snd (demo_main no_browser))
     = [TimeTime; NowIso; HealthCheck "http://localhost:3001/api/health" 5;
        StartPlaywright; Launch; StopPlaywright]
  /\ ~ (exists path, In (Screenshot path) (trace unit unit (snd (demo_main no_browser)))).
Proof.
  assert (T : trace unit unit (snd (demo_main no_browser))
              = [TimeTime; NowIso; HealthCheck "http://localhost:3001/api/health" 5;
                 StartPlaywright; Launch; StopPlaywright])
    by (vm_compute; reflexivity).
  split; [vm_compute; reflexivity|]. split; [vm_compute; reflexivity|].
  split; [exact T|].
  rewrite T. intros [path H]. simpl in H. intuition discriminate.
Qed.

(** *** C1 on runs *)

Lemma healthy_never_fails_a_screenshot :
  screenshots_never_raise unit unit (scripted healthy).
Proof. intros path []. reflexivity. Qed.

Lemma flow_results_at_the_boundary_healthy :
  exists rs s',
    run_flows unit demo_frontend demo_dir unit (scripted healthy) (initial unit unit tt)
    = (Ok tt, s')
    /\ map fst rs = flow_names unit demo_frontend demo_dir unit (scripted healthy)
    /\ calls unit unit s' = rs.
Proof.
  destruct (proj2 (proj2 (flow_results_at_the_boundary unit demo_frontend demo_dir unit
                            (scripted healthy)))
              healthy_never_fails_a_screenshot (initial unit unit tt))
    as (rs & s' & H1 & H2 & H3).
  exists rs, s'. repeat split; assumption.
Defined.

(** C1 as the specification states it fails: with the page gone, the
    [try] block of flow 1 raises at [page.goto], the screenshot of its
    [except] branch raises too, and the exception leaves the flow with no
    result recorded; the runner's own screenshot raises as well, so the
    run ends with code 1 and none of the eight flows has a result. *)
Lemma flow_exception_escapes_unrecorded :
  fst (flow_demo_login_try unit demo_frontend demo_dir unit (scripted page_gone)
         (snd (print unit unit (nl ++ "--- Flow 1: Demo Mode Login ---")
                 (initial unit unit tt))))
  = Raise "Page.goto: net::ERR_CONNECTION_REFUSED"%string
  /\ fst (flow_demo_login unit demo_frontend demo_dir unit (scripted page_gone)
            (initial unit unit tt))
     = Raise "Page.screenshot: Target page, context or browser has been closed"%string
  /\ calls unit unit
       (snd (flow_demo_login unit demo_frontend demo_dir unit (scripted page_gone)
               (initial unit unit tt))) = []
  /\ results unit unit
       (snd (flow_demo_login unit demo_frontend demo_dir unit (scripted page_gone)
               (initial unit unit tt))) = []
  /\ fst (demo_main page_gone) = 1
  /\ calls unit unit (snd (demo_main page_gone)) = []
  /\ ~ (exists r, In ("demo_login"%string, r) (calls unit unit (snd (demo_main page_gone)))).
Proof.
  assert (C : calls unit unit (snd (demo_main page_gone)) = []) by (vm_compute; reflexivity).
  repeat (split; [vm_compute; reflexivity|]).
  rewrite C. intros [r []].
Qed.

(** *** C5 on a run: no "Admin" button *)

Lemma admin_panel_outcomes_no_admin :
  exists d s',
    flow_admin_panel unit demo_dir unit (scripted no_admin) (initial unit unit tt)
    = (Ok tt, s')
    /\ calls unit unit s' = [("admin_panel"%string, FlowResult.mk true d)]
    /\ contains "not visible" d = true.
Proof.
  pose (s0 := snd (print unit unit (nl ++ "--- Flow 5: Admin Panel Access ---")
                     (initial unit unit tt))).
  pose (r1 := safe_click unit unit (scripted no_admin) (button "Admin") 5000 s0).
  assert (E1 : r1 = (Ok false, snd r1)) by (vm_compute; reflexivity).
  pose (r2 := screenshot unit demo_dir unit (scripted no_admin) "05_admin_not_visible"
                (snd r1)).
  assert (E2 : r2 = (Ok tt, snd r2)) by (vm_compute; reflexivity).
  destruct (proj1 (admin_panel_outcomes unit demo_dir unit (scripted no_admin)
                     (initial unit unit tt)) (snd r1) (snd r2) E1 E2)
    as (d & s' & H1 & H2 & H3).
  exists d, s'. repeat split; assumption.
Defined.

(** *** C6 on a run: the backend is down *)

Lemma backend_down_never_fails_a_screenshot :
  screenshots_never_raise unit unit (scripted backend_down).
Proof. intros path []. reflexivity. Qed.


(** *** C9: an exception that leaves a flow *)

(** C9.  In a run from a fresh interpreter whose session launched, let the
    first [k] flows return and the next one let an exception out.  Then
    the sequence of flows stops there, in the state that flow left: it has
    recorded nothing, the later flows are not called, and the registry
    holds the results of the first [k] flows only.  If the runner's
    "fatal_error" screenshot then succeeds, the run returns:
    [summary.json] is written from this partial registry, with
    [total = k], and the exit code is 0 when none of the recorded results
    failed, 1 otherwise.  (If that screenshot raises, the exception leaves
    [run_verification] and nothing is written.)  And there is a run that
    exits with code 0 with fewer than eight results in [summary.json]. *)
Theorem escaped_flow_leaves_partial_summary :
  (forall (float : Type) (fsub : float -> float -> float) (round2 : float -> float)
          (fmt_1f : float -> string) (FRONTEND_URL BACKEND_URL SCREENSHOT_DIR : string)
          (W : Type) (respond : forall o : Op, W -> ret_ty float o * list ConsoleMsg * W)
          (w : W) (k : nat) (f : Flow float W) (start : float)
          (s1 s2 s_k : State float W) (e : exn) (s_e : State float W),
      let run :=
        run_verification float fsub round2 fmt_1f FRONTEND_URL BACKEND_URL SCREENSHOT_DIR
          W respond (initial float W w) in
      let names := flow_names float FRONTEND_URL SCREENSHOT_DIR W respond in
      let shot :=
        screenshot float SCREENSHOT_DIR W respond "fatal_error"
          (printed float W [fatal_line e] s_e) in
      before_session float FRONTEND_URL BACKEND_URL SCREENSHOT_DIR W respond
        (initial float W w) = (Ok start, s1) ->
      launch_session float W respond s1 = (Ok tt, s2) ->
      nth_error (flow_table float FRONTEND_URL SCREENSHOT_DIR W respond) k = Some f ->
      run_all float W
        (map (flow_run float W)
           (firstn k (flow_table float FRONTEND_URL SCREENSHOT_DIR W respond))) s2
      = (Ok tt, s_k) ->
      flow_run float W f s_k = (Raise e, s_e) ->
      run_flows float FRONTEND_URL SCREENSHOT_DIR W respond s2 = (Raise e, s_e)
      /\ calls float W s_e = calls float W s_k
      /\ results float W s_e = results float W s_k
      /\ k < 8
      /\ map fst (calls float W s_e) = firstn k names
      /\ keys (results float W s_e) = firstn k names
      /\ (forall s_f,
             shot = (Ok tt, s_f) ->
             exists s' stamp elapsed errors,
               run = (Ok (if (count_failed (results float W s_e) =? 0)%nat then 0 else 1), s')
               /\ results float W s' = results float W s_e
               /\ summary_json float W s'
                  = Some (Summary.mk stamp FRONTEND_URL BACKEND_URL k
                            (count_passed (results float W s_e))
                            (count_failed (results float W s_e))
                            elapsed (results float W s_e) errors))
      /\ (forall e' s_f,
             shot = (Raise e', s_f) ->
             fst run = Raise e' /\ summary_json float W (snd run) = None))
  /\ (exists sc doc,
         fst (demo_main sc) = 0
         /\ summary_json unit unit (snd (demo_main sc)) = Some doc
         /\ List.length (Summary.results doc) < 8).
Proof.
  split.
  - intros. cbv zeta. eapply escape_skips_the_rest; eauto.
  - exists dashboard_shot_fails. eexists.
    split; [vm_compute; reflexivity|]. split; [vm_compute; reflexivity|].
    vm_compute. repeat constructor.
Qed.

(** C9 on a run: flow 1 passes, the screenshots of flow 2 time out, the
    runner's screenshot succeeds; the process exits with code 0 and
    [summary.json] has one result. *)
Lemma escaped_flow_leaves_partial_summary_dashboard :
  exists s' doc,
    demo_run dashboard_shot_fails = (Ok 0, s')
    /\ summary_json unit unit s' = Some doc
    /\ Summary.total doc = 1
    /\ keys (Summary.results doc) = ["demo_login"%string].
Proof.
  pose (resp := scripted dashboard_shot_fails).
  pose (tbl := flow_table unit demo_frontend demo_dir unit resp).
  pose (f := nth 1 tbl (mkFlow unit unit EmptyString EmptyString EmptyString
                          (ret unit unit tt) (ret unit unit tt))).
  pose (r1 := before_session unit demo_frontend demo_backend demo_dir unit resp
                (initial unit unit tt)).
  assert (E1 : r1 = (Ok tt, snd r1)) by (vm_compute; reflexivity).
  pose (r2 := launch_session unit unit resp (snd r1)).
  assert (E2 : r2 = (Ok tt, snd r2)) by (vm_compute; reflexivity).
  assert (En : nth_error tbl 1 = Some f) by reflexivity.
  pose (r3 := run_all unit unit (map (flow_run unit unit) (firstn 1 tbl)) (snd r2)).
  assert (E3 : r3 = (Ok tt, snd r3)) by (vm_compute; reflexivity).
  pose (r4 := flow_run unit unit f (snd r3)).
  assert (E4 : r4 = (Raise "Page.screenshot: Timeout 15000ms exceeded"%string, snd r4))
    by (vm_compute; reflexivity).
  destruct (proj1 escaped_flow_leaves_partial_summary unit (fun _ _ => tt) (fun x => x)
              (fun _ => "0.0"%string) demo_frontend demo_backend demo_dir unit resp tt
              1 f tt (snd r1) (snd r2) (snd r3) _ (snd r4) E1 E2 En E3 E4)
    as (_ & _ & _ & _ & _ & Hkeys & Hfatal & _).
  pose (r5 := screenshot unit demo_dir unit resp "fatal_error"
                (printed unit unit
                   [fatal_line "Page.screenshot: Timeout 15000ms exceeded"] (snd r4))).
  assert (E5 : r5 = (Ok tt, snd r5)) by (vm_compute; reflexivity).
  destruct (Hfatal (snd r5) E5) as (s' & stamp & elapsed & errors & Hrun & _ & Hdoc).
  assert (Hzero : count_failed (results unit unit (snd r4)) = 0)
    by (vm_compute; reflexivity).
  rewrite Hzero in Hrun. simpl in Hrun.
  exists s'. eexists. split; [exact Hrun|]. split; [exact Hdoc|].
  split; [reflexivity | exact Hkeys].
Defined.

(** ** More of the harness, on scripted environments *)

(** Runs of the properties above: each applies one of them to a script,
    its hypotheses computed. *)

Lemma dashboard_verdict_healthy :
  exists detail s2,
    flow_dashboard_loads_try unit demo_dir unit (scripted healthy) (initial unit unit tt)
    = record unit unit "dashboard_loads" true detail s2.
Proof.
  pose (resp := scripted healthy).
  pose (r1 := safe_click unit unit resp (button "Dashboard") 5000 (initial unit unit tt)).
  assert (E1 : r1 = (Ok true, snd r1)) by (vm_compute; reflexivity).
  pose (r2 := bind unit unit (wait_for_load_state unit unit resp "networkidle")
                (fun _ => bind unit unit (wait_for_timeout unit unit resp 1500)
                   (fun _ => bind unit unit (screenshot unit demo_dir unit resp "02_dashboard")
                      (fun _ => page_content unit unit resp))) (snd r1)).
  assert (E2 : r2 = (Ok dashboard_html, snd r2)) by (vm_compute; reflexivity).
  destruct (dashboard_verdict unit demo_dir unit resp (initial unit unit tt) true (snd r1)
              dashboard_html (snd r2) E1 E2) as ((detail & H) & _).
  assert (K : any_in dashboard_keywords (lower dashboard_html) = true)
    by (vm_compute; reflexivity).
  rewrite K in H. now exists detail, (snd r2).
Defined.

Lemma demo_login_bypass_healthy :
  exists s3,
    flow_demo_login_try unit demo_frontend demo_dir unit (scripted healthy)
      (initial unit unit tt)
    = bind unit unit (screenshot unit demo_dir unit (scripted healthy) "01_already_logged_in")
        (fun _ => record unit unit "demo_login" true
                    "Bypassed login (Supabase not configured or already in demo)") s3.
Proof.
  pose (resp := scripted healthy).
  pose (r1 := page_goto unit unit resp demo_frontend "networkidle" TIMEOUT_MS
                (initial unit unit tt)).
  assert (E1 : r1 = (Ok tt, snd r1)) by (vm_compute; reflexivity).
  pose (r2 := screenshot unit demo_dir unit resp "01_initial_load" (snd r1)).
  assert (E2 : r2 = (Ok tt, snd r2)) by (vm_compute; reflexivity).
  pose (r3 := page_content unit unit resp (snd r2)).
  assert (E3 : r3 = (Ok dashboard_html, snd r3)) by (vm_compute; reflexivity).
  destruct (demo_login_bypass unit demo_frontend demo_dir unit resp (initial unit unit tt)
              (snd r1) (snd r2) dashboard_html (snd r3) E1 E2 E3) as (Hpast & _).
  destruct (Hpast ltac:(vm_compute; reflexivity)) as (H & _).
  now exists (snd r3).
Defined.

Lemma customer_detail_verdict_healthy :
  exists detail s3,
    flow_customer_detail_try unit demo_dir unit (scripted healthy) (initial unit unit tt)
    = record unit unit "customer_detail" true detail s3.
Proof.
  pose (resp := scripted healthy).
  pose (r1 := bind unit unit (safe_click unit unit resp (button "Dashboard") 5000)
                (fun _ => bind unit unit (wait_for_load_state unit unit resp "networkidle")
                   (fun _ => wait_for_timeout unit unit resp 1000))
                (initial unit unit tt)).
  assert (E1 : r1 = (Ok tt, snd r1)) by (vm_compute; reflexivity).
  pose (r2 := is_visible unit unit resp customer_row_selector 5000 (snd r1)).
  assert (E2 : r2 = (Ok true, snd r2)) by (vm_compute; reflexivity).
  pose (r3 := bind unit unit (click unit unit resp customer_row_selector)
                (fun _ => bind unit unit (wait_for_load_state unit unit resp "networkidle")
                   (fun _ => bind unit unit (wait_for_timeout unit unit resp 1500)
                      (fun _ => bind unit unit
                                  (screenshot unit demo_dir unit resp "03_customer_detail")
                                  (fun _ => page_content unit unit resp)))) (snd r2)).
  assert (E3 : r3 = (Ok dashboard_html, snd r3)) by (vm_compute; reflexivity).
  destruct (proj1 (customer_detail_verdict unit demo_dir unit resp (initial unit unit tt)
                     (snd r1) E1) (snd r2) dashboard_html (snd r3) E2 E3)
    as (detail & H).
  now exists detail, (snd r3).
Defined.


Lemma record_leaves_the_others_example :
  dict_get "demo_login"
    (results unit unit
       (snd (record unit unit "admin_panel" false "boom"
               (snd (record unit unit "demo_login" true EmptyString
                       (initial unit unit tt))))))
  = Some (FlowResult.mk true EmptyString).
Proof.
  destruct (record_leaves_the_others unit unit "admin_panel" "demo_login" false "boom"
              (snd (record unit unit "demo_login" true EmptyString (initial unit unit tt)))
              ltac:(discriminate)) as (H & _).
  rewrite H. reflexivity.
Defined.

Lemma session_teardown_healthy :
  exists before ops,
    trace unit unit
      (snd (browser_session unit demo_frontend demo_dir unit (scripted healthy)
              (initial unit unit tt)))
    = (before ++ ops ++ [BrowserClose; StopPlaywright])%list
    /\ Forall (fun o => is_page_call o = true) ops.
Proof.
  pose (resp := scripted healthy).
  pose (r1 := launch_session unit unit resp (initial unit unit tt)).
  assert (E1 : r1 = (Ok tt, snd r1)) by (vm_compute; reflexivity).
  destruct (proj1 (session_teardown unit demo_frontend demo_dir unit resp
                     (initial unit unit tt)) (snd r1) E1) as (ops & H1 & H2).
  exists (trace unit unit (snd r1)), ops. split; [exact H1 | exact H2].
Defined.

Lemma operations_hub_verdict_healthy :
  exists s3,
    flow_operations_hub_try unit demo_dir unit (scripted healthy) (initial unit unit tt)
    = record unit unit "operations_hub" true "All 5 sub-tabs accessible" s3.
Proof.
  pose (resp := scripted healthy).
  pose (r1 := safe_click unit unit resp (button "Operations") TIMEOUT_MS
                (initial unit unit tt)).
  assert (E1 : r1 = (Ok true, snd r1)) by (vm_compute; reflexivity).
  pose (r2 := bind unit unit (wait_for_load_state unit unit resp "networkidle")
                (fun _ => bind unit unit (wait_for_timeout unit unit resp 1000)
                   (fun _ => screenshot unit demo_dir unit resp "04_operations_hub"))
                (snd r1)).
  assert (E2 : r2 = (Ok tt, snd r2)) by (vm_compute; reflexivity).
  pose (r3 := visit_sub_tabs unit demo_dir unit resp sub_tabs 0 (snd r2)).
  assert (E3 : r3 = (Ok 5, snd r3)) by (vm_compute; reflexivity).
  destruct (proj2 (operations_hub_verdict unit demo_dir unit resp (initial unit unit tt))
              (snd r1) (snd r2) 5 (snd r3) E1 E2 E3)
    as (_ & detail & H & Hall & _).
  rewrite (Hall eq_refl) in H. now exists (snd r3).
Defined.

Lemma agent_center_verdict_healthy :
  exists detail s2,
    flow_agent_center_try unit demo_dir unit (scripted healthy) (initial unit unit tt)
    = record unit unit "agent_center" true detail s2.
Proof.
  pose (resp := scripted healthy).
  pose (r1 := safe_click unit unit resp (button "Agent Center") TIMEOUT_MS
                (initial unit unit tt)).
  assert (E1 : r1 = (Ok true, snd r1)) by (vm_compute; reflexivity).
  pose (r2 := bind unit unit (wait_for_load_state unit unit resp "networkidle")
                (fun _ => bind unit unit (wait_for_timeout unit unit resp 1500)
                   (fun _ => bind unit unit
                               (screenshot unit demo_dir unit resp "06_agent_center")
                               (fun _ => page_content unit unit resp))) (snd r1)).
  assert (E2 : r2 = (Ok dashboard_html, snd r2)) by (vm_compute; reflexivity).
  destruct (proj1 (proj2 (agent_center_and_knowledge_base_verdicts unit demo_dir unit resp
                            (initial unit unit tt)))
              (snd r1) dashboard_html (snd r2) E1 E2) as (detail & H).
  now exists detail, (snd r2).
Defined.
